(** * Exam session controller: reducers, proctoring hook, submission builders

    A shallow embedding of the exam-taking session code of the repository:

    - [ExamInterface.examReducer] and [CodingExamInterface.examReducer]
      (src/components/student/ExamInterface.tsx, CodingExamInterface.tsx),
    - the effects of [useFullscreenEnforcement] (hooks/use-fullscreen-enforcement),
    - the two [handleSubmitExam] submission builders and their callers,
    - [executeCodeFlow] (src/ai/flows/execute-code-flow.ts).

    Conventions.  A JavaScript [number] that holds an index, a count or a
    number of seconds is a [Z]; marks and scores, which the code obtains by
    division, are exact rationals [Q].  A JavaScript [Map] is an association
    list in insertion order, because the reducers read
    [Array.from(map.keys())[i]].  An optional field is an [option].  A string
    is a sequence of code units below 256. *)

From Stdlib Require Import ZArith List String Ascii Bool Lia QArith Lqa.
From Stdlib Require Import Qround Permutation.
Import ListNotations.
Local Open Scope string_scope.
Local Open Scope list_scope.
Local Open Scope Z_scope.

(** ** JavaScript [Map] with string keys *)

Module JsMap.

Definition t (V : Type) : Type := list (string * V).

(** [new Map()] *)
Definition empty {V : Type} : t V := [].

(** [m.get(k)]; [None] is [undefined]. *)
Fixpoint get {V : Type} (m : t V) (k : string) : option V :=
  match m with
  | [] => None
  | (k', v) :: m' => if String.eqb k' k then Some v else get m' k
  end.

(** [m.set(k, v)]: an existing key keeps its position, a new key is
    appended. *)
Fixpoint set {V : Type} (m : t V) (k : string) (v : V) : t V :=
  match m with
  | [] => [(k, v)]
  | (k', v') :: m' =>
      if String.eqb k' k then (k', v) :: m' else (k', v') :: set m' k v
  end.

(** [Array.from(m.keys())] *)
Definition keys {V : Type} (m : t V) : list string := map fst m.

(** [m.size] *)
Definition size {V : Type} (m : t V) : nat := List.length m.

(** [new Map(entries)]: the entries are set from left to right. *)
Definition of_entries {V : Type} (entries : list (string * V)) : t V :=
  fold_left (fun m e => set m (fst e) (snd e)) entries empty.

End JsMap.

(** [arr[i]] for a number [i]: [undefined] outside the array. *)
Definition js_index {A : Type} (arr : list A) (i : Z) : option A :=
  if i <? 0 then None else nth_error arr (Z.to_nat i).

(** ** [String.prototype.trim] *)

(** White space and line terminators among the code units below 256:
    TAB, LF, VT, FF, CR, SPACE and NBSP. *)
Definition is_js_whitespace (c : ascii) : bool :=
  let n := nat_of_ascii c in
  ((9 <=? n) && (n <=? 13) || (n =? 32) || (n =? 160))%nat.

Fixpoint trimStart (s : string) : string :=
  match s with
  | EmptyString => EmptyString
  | String c s' => if is_js_whitespace c then trimStart s' else s
  end.

Fixpoint trimEnd (s : string) : string :=
  match s with
  | EmptyString => EmptyString
  | String c s' =>
      match trimEnd s' with
      | EmptyString =>
          if is_js_whitespace c then EmptyString else String c EmptyString
      | t => String c t
      end
  end.

Definition trim (s : string) : string := trimEnd (trimStart s).

(** [s.every(isWhitespace)], used to state what [trim] leaves. *)
Fixpoint all_whitespace (s : string) : bool :=
  match s with
  | EmptyString => true
  | String c s' => is_js_whitespace c && all_whitespace s'
  end.

(** ** Shared types (src/types) *)

Inductive QuestionStatus : Type :=
| answered
| not_answered
| marked_for_review
| not_visited.

Inductive ExamType : Type := exam_mcq | exam_coding | exam_long_answer.

Inductive Language : Type := python | cpp | java | javascript.

Inductive StudentExamStatus : Type :=
| completed
| graded
| suspicious
| in_progress.

Record TestCase : Type := mkTestCase {
  tc_id : option string;
  tc_input : string;
  tc_expectedOutput : string
}.

Record TestResult : Type := mkTestResult {
  tr_input : string;
  tr_expectedOutput : string;
  tr_actualOutput : string;
  tr_isCorrect : bool;
  tr_error : option string
}.

Record Question : Type := mkQuestion {
  q_id : string;
  q_text : string;
  q_options : option (list string);
  q_correctOption : option Z;
  q_testCases : option (list TestCase)
}.

Record Exam : Type := mkExam {
  exam_title : string;
  exam_duration : Z;
  exam_minimumTime : option Z;
  exam_examType : ExamType;
  exam_questions : list Question;
  exam_language : option Language
}.

(** [StudentAnswer]: every field but [questionId] may be absent; for
    [selectedOption] and [correctOption] [None] also stands for [null]. *)
Record StudentAnswer : Type := mkStudentAnswer {
  questionId : string;
  questionText : option string;
  status : option QuestionStatus;
  marks : option Q;
  selectedOption : option Z;
  correctOption : option Z;
  options : option (list string);
  textAnswer : option string;
  sourceCode : option string;
  testResults : option (list TestResult);
  totalPassed : option Z;
  totalCases : option Z
}.

(** The object literal [{ questionId: id }]. *)
Definition answer_stub (id : string) : StudentAnswer :=
  mkStudentAnswer id None None None None None None None None None None None.

(** [Partial<StudentExam>] as the builders fill it in. *)
Record StudentExam : Type := mkStudentExam {
  se_studentId : string;
  se_examId : string;
  se_examTitle : string;
  se_answers : list StudentAnswer;
  se_score : Q;
  se_status : StudentExamStatus;
  se_language : option Language;
  se_autoSubmitted : option bool;
  se_exitCount : option Z
}.

(** The argument [autoSubmitDetails] of [handleSubmitExam]. *)
Record AutoSubmitDetails : Type := mkDetails {
  autoSubmitted : bool;
  exitCount : Z
}.

(** A call of [setDocumentNonBlocking(doc(firestore, 'studentExams', id),
    payload, { merge: true })]. *)
Record DocumentWrite : Type := mkWrite {
  w_docId : string;
  w_payload : StudentExam
}.

(** The document id [`${uid}_${examId}`]. *)
Definition studentExamDocId (uid examId : string) : string :=
  String.append uid (String.append "_" examId).

Definition full_marks : Q := 100 # 1.
Definition no_marks : Q := 0 # 1.

(** [parseInt(localStorage.getItem(key) || '0', 10)] for a key the hook
    writes with [newCount.toString()]: the stored integer, [0] when the item
    is absent. *)
Definition storedExitCount (item : option Z) : Z :=
  match item with
  | Some n => n
  | None => 0
  end.

(** ** The MCQ / long-answer session (ExamInterface.tsx) *)

Module ExamInterface.

(** [number | string | null] *)
Inductive AnswerValue : Type :=
| Num (n : Z)
| Text (s : string)
| Null.

Record State : Type := mkState {
  currentQuestionIndex : Z;
  answers : JsMap.t AnswerValue;
  statuses : JsMap.t QuestionStatus;
  timeLeft : Z;
  examStarted : bool;
  examFinished : bool;
  totalQuestions : Z
}.

Inductive AnswerPayload : Type :=
| mcq (questionId : string) (optionIndex : Z)
| long_answer (questionId : string) (textAnswer : string).

Definition payload_questionId (p : AnswerPayload) : string :=
  match p with
  | mcq q _ => q
  | long_answer q _ => q
  end.

Inductive Action : Type :=
| INITIALIZE (payload : State)
| START_EXAM
| NEXT_QUESTION
| PREV_QUESTION
| JUMP_TO_QUESTION (payload : Z)
| ANSWER (payload : AnswerPayload)
| CLEAR_ANSWER (payload : string)
| TOGGLE_MARK_FOR_REVIEW (payload : string)
| TICK_TIMER
| FINISH_EXAM.

(** The block shared by START_EXAM, NEXT_QUESTION and JUMP_TO_QUESTION:
    [if (newStatuses.get(questionId) === 'not-visited')
       newStatuses.set(questionId, 'not-answered')],
    where [questionId] is [undefined] when the index is outside the keys. *)
Definition visit (sts : JsMap.t QuestionStatus) (questionId : option string)
  : JsMap.t QuestionStatus :=
  match questionId with
  | None => sts
  | Some q =>
      match JsMap.get sts q with
      | Some not_visited => JsMap.set sts q not_answered
      | _ => sts
      end
  end.

(** [value != null]: neither [null] nor [undefined]. *)
Definition not_nullish (v : option AnswerValue) : bool :=
  match v with
  | None | Some Null => false
  | Some _ => true
  end.

(** [status === 'marked-for-review'] *)
Definition is_marked (v : option QuestionStatus) : bool :=
  match v with
  | Some marked_for_review => true
  | _ => false
  end.

Definition examReducer (state : State) (action : Action) : State :=
  match action with
  | INITIALIZE payload => payload
  | START_EXAM =>
      if (JsMap.size (statuses state) =? 0)%nat
      then mkState (currentQuestionIndex state) (answers state)
             (statuses state) (timeLeft state) true (examFinished state)
             (totalQuestions state)
      else
        let firstQuestionId := js_index (JsMap.keys (statuses state)) 0 in
        let newStatuses := visit (statuses state) firstQuestionId in
        mkState (currentQuestionIndex state) (answers state) newStatuses
          (timeLeft state) true (examFinished state) (totalQuestions state)
  | NEXT_QUESTION =>
      let nextIndex :=
        Z.min (currentQuestionIndex state + 1) (totalQuestions state - 1) in
      let questionId := js_index (JsMap.keys (statuses state)) nextIndex in
      let newStatuses := visit (statuses state) questionId in
      mkState nextIndex (answers state) newStatuses (timeLeft state)
        (examStarted state) (examFinished state) (totalQuestions state)
  | PREV_QUESTION =>
      let prevIndex := Z.max (currentQuestionIndex state - 1) 0 in
      mkState prevIndex (answers state) (statuses state) (timeLeft state)
        (examStarted state) (examFinished state) (totalQuestions state)
  | JUMP_TO_QUESTION payload =>
      let questionId := js_index (JsMap.keys (statuses state)) payload in
      let newStatuses := visit (statuses state) questionId in
      mkState payload (answers state) newStatuses (timeLeft state)
        (examStarted state) (examFinished state) (totalQuestions state)
  | ANSWER payload =>
      let newAnswers :=
        match payload with
        | mcq q optionIndex => JsMap.set (answers state) q (Num optionIndex)
        | long_answer q textAnswer =>
            JsMap.set (answers state) q (Text textAnswer)
        end in
      let q := payload_questionId payload in
      let newStatuses :=
        if is_marked (JsMap.get (statuses state) q)
        then statuses state
        else JsMap.set (statuses state) q answered in
      mkState (currentQuestionIndex state) newAnswers newStatuses
        (timeLeft state) (examStarted state) (examFinished state)
        (totalQuestions state)
  | CLEAR_ANSWER payload =>
      let newAnswers := JsMap.set (answers state) payload Null in
      let newStatuses :=
        if is_marked (JsMap.get (statuses state) payload)
        then statuses state
        else JsMap.set (statuses state) payload not_answered in
      mkState (currentQuestionIndex state) newAnswers newStatuses
        (timeLeft state) (examStarted state) (examFinished state)
        (totalQuestions state)
  | TOGGLE_MARK_FOR_REVIEW payload =>
      let currentStatus := JsMap.get (statuses state) payload in
      let newStatuses :=
        if is_marked currentStatus
        then JsMap.set (statuses state) payload
               (if not_nullish (JsMap.get (answers state) payload)
                then answered else not_answered)
        else JsMap.set (statuses state) payload marked_for_review in
      mkState (currentQuestionIndex state) (answers state) newStatuses
        (timeLeft state) (examStarted state) (examFinished state)
        (totalQuestions state)
  | TICK_TIMER =>
      if timeLeft state <=? 1
      then mkState (currentQuestionIndex state) (answers state)
             (statuses state) 0 (examStarted state) true
             (totalQuestions state)
      else mkState (currentQuestionIndex state) (answers state)
             (statuses state) (timeLeft state - 1) (examStarted state)
             (examFinished state) (totalQuestions state)
  | FINISH_EXAM =>
      mkState (currentQuestionIndex state) (answers state) (statuses state)
        0 (examStarted state) true (totalQuestions state)
  end.

(** A run of dispatched actions. *)
Definition dispatchAll (state : State) (actions : list Action) : State :=
  fold_left examReducer actions state.

(** [initialState] of the component: the statuses are
    [new Map(questions.map(q => [q.id, 'not-visited']))]. *)
Definition initialState (duration : Z) (questions : list Question) : State :=
  mkState 0 JsMap.empty
    (JsMap.of_entries (map (fun q => (q_id q, not_visited)) questions))
    (duration * 60) false false (Z.of_nat (List.length questions)).

(** The invariant the data model states for [currentQuestionIndex]. *)
Definition index_in_range (s : State) : Prop :=
  0 <= currentQuestionIndex s < totalQuestions s.

(** The actions the rendered page can dispatch in state [s]: the palette
    offers one button per entry of [statuses], and the previous and next
    buttons need no restriction for the index to stay in range. *)
Definition ui_action (s : State) (a : Action) : Prop :=
  match a with
  | INITIALIZE p => index_in_range p
  | JUMP_TO_QUESTION i => 0 <= i < totalQuestions s
  | _ => True
  end.

(** *** Views *)

(** [FullscreenStatus]: [warningsLeft = maxExits - exitCount]. *)
Definition warningsLeft (maxExits exitCount : Z) : Z := maxExits - exitCount.

(** The text under the counter:
    [warningsLeft > 0 ? `${warningsLeft} warnings left` : 'Next exit will submit']. *)
Definition nextExitWillSubmit (maxExits exitCount : Z) : bool :=
  negb (warningsLeft maxExits exitCount >? 0).

(** [minimumTimeInSeconds = (minimumTime ?? duration * 0.5) * 60] *)
Definition minimumTimeInSeconds (duration : Z) (minimumTime : option Z) : Q :=
  ((match minimumTime with
    | Some m => inject_Z m
    | None => inject_Z duration * (1 # 2)
    end) * inject_Z 60)%Q.

(** [isSubmitDisabled = elapsedTime < minimumTimeInSeconds] with
    [elapsedTime = duration * 60 - timeLeft]. *)
Definition isSubmitDisabled (duration : Z) (minimumTime : option Z)
  (timeLeft : Z) : bool :=
  let elapsedTime := duration * 60 - timeLeft in
  negb (Qle_bool (minimumTimeInSeconds duration minimumTime)
          (inject_Z elapsedTime)).

(** *** The submission builder *)

(** The body of [examData.questions.map(q => ...)] for one question: the
    answer record and the marks added to [totalScore]. *)
Definition gradeQuestion (examType : ExamType) (state : State) (q : Question)
  : StudentAnswer * Q :=
  let answer :=
    match JsMap.get (answers state) (q_id q) with
    | Some v => v
    | None => Null
    end in
  let st :=
    match JsMap.get (statuses state) (q_id q) with
    | Some s => s
    | None => not_visited
    end in
  match examType with
  | exam_mcq =>
      let isCorrect :=
        match answer, q_correctOption q with
        | Num a, Some c => a =? c
        | _, _ => false
        end in
      let m := if isCorrect then full_marks else no_marks in
      (mkStudentAnswer (q_id q) (Some (q_text q)) (Some st) (Some m)
         (match answer with Num a => Some a | _ => None end)
         (q_correctOption q)
         (Some (match q_options q with Some o => o | None => [] end))
         None None None None None, m)
  | _ =>
      let isAnswered :=
        match answer with
        | Text s => negb (String.eqb (trim s) "")
        | _ => false
        end in
      let m := if isAnswered then full_marks else no_marks in
      (mkStudentAnswer (q_id q) (Some (q_text q)) (Some st) (Some m)
         None None None
         (Some (match answer with Text s => s | _ => "" end))
         None None None None, m)
  end.

(** The [map] with its side effect [totalScore += marks], from left to
    right. *)
Definition gradeAll (examType : ExamType) (state : State)
  (questions : list Question) : list StudentAnswer * Q :=
  fold_left
    (fun acc q =>
       let '(a, m) := gradeQuestion examType state q in
       (fst acc ++ [a], (snd acc + m)%Q))
    questions ([], no_marks).

(** [finalScore] *)
Definition finalScore (totalScore : Q) (questions : list Question) : Q :=
  if (0 <? Z.of_nat (List.length questions))
  then (totalScore / inject_Z (Z.of_nat (List.length questions)))%Q
  else no_marks.

(** The status written on the record. *)
Definition submissionStatus (examType : ExamType)
  (autoSubmitDetails : option AutoSubmitDetails) : StudentExamStatus :=
  match autoSubmitDetails with
  | Some d =>
      if autoSubmitted d then suspicious
      else match examType with exam_mcq => graded | _ => completed end
  | None => match examType with exam_mcq => graded | _ => completed end
  end.

(** [studentExamSubmission] *)
Definition buildSubmission (uid examId : string) (exam : Exam) (state : State)
  (autoSubmitDetails : option AutoSubmitDetails) : StudentExam :=
  let '(studentAnswers, totalScore) :=
    gradeAll (exam_examType exam) state (exam_questions exam) in
  mkStudentExam uid examId (exam_title exam) studentAnswers
    (finalScore totalScore (exam_questions exam))
    (submissionStatus (exam_examType exam) autoSubmitDetails)
    None
    (option_map autoSubmitted autoSubmitDetails)
    (option_map exitCount autoSubmitDetails).

(** What [handleSubmitExam] reads and changes: the reducer state ([null]
    until the exam is loaded), the signed-in user, the exam document, the
    [isSubmitting] flag seen by the handler, the writes issued and the route
    pushed. *)
Record Component : Type := mkComponent {
  state : option State;
  user : option string;
  examData : option Exam;
  isSubmitting : bool;
  writes : list DocumentWrite;
  route : option string
}.

Definition handleSubmitExam (examId : string) (c : Component)
  (autoSubmitDetails : option AutoSubmitDetails) : Component :=
  match state c, user c, examData c with
  | Some st, Some uid, Some exam =>
      if isSubmitting c then c
      else
        let record := buildSubmission uid examId exam st autoSubmitDetails in
        mkComponent (Some (examReducer st FINISH_EXAM)) (user c) (examData c)
          true
          (writes c ++ [mkWrite (studentExamDocId uid examId) record])
          (Some "/student/dashboard")
  | _, _, _ => c
  end.

(** [handleAutoSubmit]; [item] is the stored exit count. *)
Definition handleAutoSubmit (examId : string) (item : option Z)
  (c : Component) : Component :=
  handleSubmitExam examId c (Some (mkDetails true (storedExitCount item))).

(** The confirm button of the End Exam dialog; [exitCount] is the hook's
    counter. *)
Definition confirmSubmit (examId : string) (exitCount : Z) (c : Component)
  : Component :=
  handleSubmitExam examId c (Some (mkDetails false exitCount)).

(** The effect on [state.timeLeft]:
    [if (state && state.timeLeft <= 0 && !state.examFinished) handleSubmitExam(...)]. *)
Definition timeUpEffect (examId : string) (item : option Z) (c : Component)
  : Component :=
  match state c with
  | Some st =>
      if (timeLeft st <=? 0) && negb (examFinished st)
      then handleSubmitExam examId c
             (Some (mkDetails true (storedExitCount item)))
      else c
  | None => c
  end.

(** [dispatch(action)] on the component: the reducer applied to the
    current state. *)
Definition dispatch (c : Component) (a : Action) : Component :=
  mkComponent (option_map (fun s => examReducer s a) (state c)) (user c)
    (examData c) (isSubmitting c) (writes c) (route c).

End ExamInterface.

(** ** The code-execution flow (src/ai/flows/execute-code-flow.ts) *)

Module ExecuteCodeFlow.

Record ExecuteCodeInput : Type := mkInput {
  in_language : string;
  in_sourceCode : string;
  in_testCases : list TestCase
}.

Record ExecuteCodeOutput : Type := mkOutput {
  out_results : list TestResult;
  out_totalPassed : Z;
  out_totalCases : Z
}.

(** [languageMap[input.language] || input.language] *)
Definition executionLanguage (language : string) : string :=
  if String.eqb language "javascript" then "javascript"
  else if String.eqb language "python" then "python"
  else if String.eqb language "java" then "java"
  else if String.eqb language "cpp" then "c++"
  else language.

(** The request body sent to the execution service. *)
Record Request : Type := mkRequest {
  rq_language : string;
  rq_content : string;
  rq_stdin : string
}.

(** What one pass through the [try] block meets: an [Error] thrown by
    [fetch], [response.text()], [response.json()] or the access to
    [result.run]; a response that is not [ok], with its status text and body;
    or a response with [result.run.output] and [result.run.stderr]. *)
Inductive FetchOutcome : Type :=
| Throws (message : string)
| NotOk (statusText errorBody : string)
| Ran (output stderr : option string).

(** [s || fallback] on an optional string. *)
Definition or_else (s : option string) (fallback : string) : string :=
  match s with
  | Some EmptyString | None => fallback
  | Some v => v
  end.

(** [s || undefined] *)
Definition or_undefined (s : option string) : option string :=
  match s with
  | Some EmptyString | None => None
  | Some v => Some v
  end.

(** [`API Error: ${statusText}${errorBody ? ` - ${errorBody}` : ''}`] *)
Definition apiErrorMessage (statusText errorBody : string) : string :=
  String.append "API Error: "
    (String.append statusText
       (match errorBody with
        | EmptyString => ""
        | _ => String.append " - " errorBody
        end)).

(** The body of the loop for one test case: the result pushed, and whether
    the pass reaches [totalPassed++]. *)
Definition runTestCase (outcome : FetchOutcome) (testCase : TestCase)
  : TestResult * bool :=
  match outcome with
  | NotOk statusText errorBody =>
      let errorMessage := apiErrorMessage statusText errorBody in
      (mkTestResult (tc_input testCase) (tc_expectedOutput testCase)
         errorMessage false (Some errorMessage), false)
  | Ran output stderr =>
      let actualOutput := trim (or_else output "") in
      let isCorrect :=
        String.eqb actualOutput (trim (tc_expectedOutput testCase)) in
      (mkTestResult (tc_input testCase) (tc_expectedOutput testCase)
         actualOutput isCorrect (or_undefined stderr), isCorrect)
  | Throws message =>
      (mkTestResult (tc_input testCase) (tc_expectedOutput testCase)
         "Execution Failed" false
         (Some (or_else (Some message) "An unknown error occurred.")), false)
  end.

Section Flow.

(** The execution service: what the [n]-th request of a run meets. *)
Variable piston : nat -> Request -> FetchOutcome.

(** The loop state: [results], [totalPassed] and the requests sent. *)
Record Loop : Type := mkLoop {
  results : list TestResult;
  passed : Z;
  sent : list Request
}.

Definition loopStep (language sourceCode : string) (l : Loop)
  (testCase : TestCase) : Loop :=
  let request := mkRequest language sourceCode (tc_input testCase) in
  let '(r, counted) :=
    runTestCase (piston (List.length (sent l)) request) testCase in
  mkLoop (results l ++ [r])
    (if counted then passed l + 1 else passed l)
    (sent l ++ [request]).

Definition executeCodeFlow (input : ExecuteCodeInput) : ExecuteCodeOutput :=
  let l :=
    fold_left
      (loopStep (executionLanguage (in_language input)) (in_sourceCode input))
      (in_testCases input) (mkLoop [] 0 []) in
  mkOutput (results l) (passed l)
    (Z.of_nat (List.length (in_testCases input))).

End Flow.

(** [results.filter(r => r.isCorrect).length] *)
Definition countCorrect (rs : list TestResult) : Z :=
  Z.of_nat (List.length (filter tr_isCorrect rs)).

End ExecuteCodeFlow.

(** ** The coding session (CodingExamInterface.tsx) *)

Module CodingExamInterface.

Import ExecuteCodeFlow.

Record State : Type := mkState {
  timeLeft : Z;
  examStarted : bool;
  examFinished : bool;
  answers : JsMap.t StudentAnswer;
  language : Language
}.

Inductive Action : Type :=
| INITIALIZE (payload : State)
| START_EXAM
| UPDATE_CODE (questionId : string) (sourceCode : string)
| UPDATE_LANGUAGE (payload : Language)
| SET_RUN_RESULTS (questionId : string) (results : list TestResult)
| TICK_TIMER
| FINISH_EXAM.

(** [newAnswers.get(id) || { questionId: id }] *)
Definition answer_or_stub (m : JsMap.t StudentAnswer) (id : string)
  : StudentAnswer :=
  match JsMap.get m id with
  | Some a => a
  | None => answer_stub id
  end.

(** [{ ...answer, sourceCode }] *)
Definition with_sourceCode (a : StudentAnswer) (src : string) : StudentAnswer :=
  mkStudentAnswer (questionId a) (questionText a) (status a) (marks a)
    (selectedOption a) (correctOption a) (options a) (textAnswer a)
    (Some src) (testResults a) (totalPassed a) (totalCases a).

(** [results.every(r => r.isCorrect)] *)
Definition allPassed (results : list TestResult) : bool :=
  forallb tr_isCorrect results.

(** [{ ...answer, testResults, totalPassed, totalCases, status, marks }] *)
Definition with_run_results (a : StudentAnswer) (results : list TestResult)
  : StudentAnswer :=
  mkStudentAnswer (questionId a) (questionText a)
    (Some (if allPassed results then answered else not_answered))
    (Some (if allPassed results then full_marks else no_marks))
    (selectedOption a) (correctOption a) (options a) (textAnswer a)
    (sourceCode a) (Some results)
    (Some (countCorrect results))
    (Some (Z.of_nat (List.length results))).

Definition examReducer (state : State) (action : Action) : State :=
  match action with
  | INITIALIZE payload => payload
  | START_EXAM =>
      mkState (timeLeft state) true (examFinished state) (answers state)
        (language state)
  | UPDATE_CODE qid src =>
      let answer := answer_or_stub (answers state) qid in
      mkState (timeLeft state) (examStarted state) (examFinished state)
        (JsMap.set (answers state) qid (with_sourceCode answer src))
        (language state)
  | UPDATE_LANGUAGE payload =>
      mkState (timeLeft state) (examStarted state) (examFinished state)
        (answers state) payload
  | SET_RUN_RESULTS qid results =>
      let answer := answer_or_stub (answers state) qid in
      mkState (timeLeft state) (examStarted state) (examFinished state)
        (JsMap.set (answers state) qid (with_run_results answer results))
        (language state)
  | TICK_TIMER =>
      if timeLeft state <=? 1
      then mkState 0 (examStarted state) true (answers state) (language state)
      else mkState (timeLeft state - 1) (examStarted state)
             (examFinished state) (answers state) (language state)
  | FINISH_EXAM =>
      mkState 0 (examStarted state) true (answers state) (language state)
  end.

Definition dispatchAll (state : State) (actions : list Action) : State :=
  fold_left examReducer actions state.

(** [existing?.sourceCode || ''] and its like *)
Definition default_string (s : option string) : string :=
  match s with
  | Some EmptyString | None => ""
  | Some v => v
  end.

(** [studentExamData?.answers?.find(a => a.questionId === q.id)] *)
Definition find_answer (saved : option (list StudentAnswer)) (id : string)
  : option StudentAnswer :=
  match saved with
  | Some l => find (fun a => String.eqb (questionId a) id) l
  | None => None
  end.

(** The entry [initialState] stores for one question. *)
Definition initialAnswer (saved : option (list StudentAnswer)) (q : Question)
  : StudentAnswer :=
  let existing := find_answer saved (q_id q) in
  mkStudentAnswer (q_id q) (Some (q_text q))
    (Some (match existing with
           | Some a => match status a with Some s => s | None => not_answered end
           | None => not_answered
           end))
    None None None None None
    (Some (match existing with
           | Some a => default_string (sourceCode a)
           | None => ""
           end))
    (Some (match existing with
           | Some a => match testResults a with Some r => r | None => [] end
           | None => []
           end))
    (match existing with Some a => totalPassed a | None => None end)
    (match existing with Some a => totalCases a | None => None end).

(** [initialState]; [saved] and [savedLanguage] are the answers and the
    language of the student's stored submission, when there is one. *)
Definition initialState (exam : Exam) (saved : option (list StudentAnswer))
  (savedLanguage : option Language) (shuffledQuestions : list Question)
  : State :=
  mkState (exam_duration exam * 60) false false
    (fold_left (fun m q => JsMap.set m (q_id q) (initialAnswer saved q))
       shuffledQuestions JsMap.empty)
    (match savedLanguage with
     | Some l => l
     | None => match exam_language exam with Some l => l | None => python end
     end).

(** The language value sent to the flow. *)
Definition language_name (l : Language) : string :=
  match l with
  | python => "python"
  | cpp => "cpp"
  | java => "java"
  | javascript => "javascript"
  end.

(** [!answer || !answer.sourceCode]: no stored answer, or no or empty
    source. *)
Definition submitted_source (a : option StudentAnswer) : option string :=
  match a with
  | Some a' =>
      match sourceCode a' with
      | Some (String c s) => Some (String c s)
      | _ => None
      end
  | None => None
  end.

(** [(result.totalPassed / result.totalCases) * 100], or [0] without test
    cases. *)
Definition marksForQuestion (r : ExecuteCodeOutput) : Q :=
  if out_totalCases r >? 0
  then ((inject_Z (out_totalPassed r) / inject_Z (out_totalCases r))
        * full_marks)%Q
  else no_marks.

(** The results the [catch] branch writes for a question. *)
Definition failedResults (q : Question) : list TestResult :=
  map (fun tc =>
         mkTestResult (tc_input tc) (tc_expectedOutput tc)
           "Execution Error on Submit" false
           (Some "Submission execution failed"))
    (match q_testCases q with Some l => l | None => [] end).

Section Submission.

(** The server action [executeCode] as the component sees it: the [n]-th
    call either resolves or rejects ([None]). *)
Variable executeCode : nat -> ExecuteCodeInput -> option ExecuteCodeOutput.

(** The loop state of [handleSubmitExam]: [finalAnswers], [totalMarks] and
    the calls of [executeCode] made so far. *)
Record Loop : Type := mkLoop {
  finalAnswers : list StudentAnswer;
  totalMarks : Q;
  calls : list ExecuteCodeInput
}.

Definition executeInput (state : State) (src : string) (q : Question)
  : ExecuteCodeInput :=
  mkInput (language_name (language state)) src
    (match q_testCases q with Some l => l | None => [] end).

(** One pass of [for (const question of shuffledQuestions)]. *)
Definition submitStep (state : State) (l : Loop) (question : Question)
  : Loop :=
  let answer := JsMap.get (answers state) (q_id question) in
  match submitted_source answer, answer with
  | Some src, Some a =>
      let input := executeInput state src question in
      match executeCode (List.length (calls l)) input with
      | Some result =>
          let m := marksForQuestion result in
          mkLoop
            (finalAnswers l ++
             [mkStudentAnswer (q_id question) (Some (q_text question))
                (Some (if out_totalPassed result =? out_totalCases result
                       then answered else not_answered))
                (Some m) (selectedOption a) (correctOption a) (options a)
                (textAnswer a) (sourceCode a) (Some (out_results result))
                (Some (out_totalPassed result))
                (Some (out_totalCases result))])
            (totalMarks l + m)%Q
            (calls l ++ [input])
      | None =>
          mkLoop
            (finalAnswers l ++
             [mkStudentAnswer (q_id question) (Some (q_text question))
                (Some not_answered) (Some no_marks) (selectedOption a)
                (correctOption a) (options a) (textAnswer a) (sourceCode a)
                (Some (failedResults question)) (totalPassed a)
                (totalCases a)])
            (totalMarks l)
            (calls l ++ [input])
      end
  | _, _ =>
      mkLoop
        (finalAnswers l ++
         [mkStudentAnswer (q_id question) (Some (q_text question))
            (Some not_answered) (Some no_marks) None None None None
            (Some "") (Some []) None None])
        (totalMarks l)
        (calls l)
  end.

Definition submitLoop (state : State) (shuffledQuestions : list Question)
  (start : Loop) : Loop :=
  fold_left (submitStep state) shuffledQuestions start.

(** [overallScore] *)
Definition overallScore (total : Q) (shuffledQuestions : list Question) : Q :=
  if (0 <? Z.of_nat (List.length shuffledQuestions))
  then (total / inject_Z (Z.of_nat (List.length shuffledQuestions)))%Q
  else no_marks.

(** [submissionPayload] for the loop's outcome. *)
Definition submissionPayload (uid examId : string) (exam : Exam)
  (state : State) (shuffledQuestions : list Question) (l : Loop)
  (autoSubmitDetails : option AutoSubmitDetails) : StudentExam :=
  mkStudentExam uid examId (exam_title exam) (finalAnswers l)
    (overallScore (totalMarks l) shuffledQuestions)
    (match autoSubmitDetails with Some _ => suspicious | None => graded end)
    (Some (language state))
    (option_map autoSubmitted autoSubmitDetails)
    (option_map exitCount autoSubmitDetails).

(** A call of [handleSubmitExam] that passed the guard and is awaiting
    [executeCode]: the state, user and exam its closure captured and its
    argument. *)
Record Pending : Type := mkPending {
  p_state : State;
  p_uid : string;
  p_exam : Exam;
  p_details : option AutoSubmitDetails
}.

(** What the handlers read and change.  [isSubmitting] is the flag as the
    current handler sees it; [executed] logs every [executeCode] call. *)
Record Component : Type := mkComponent {
  state : option State;
  user : option string;
  examData : option Exam;
  shuffledQuestions : list Question;
  currentQuestionIndex : Z;
  isSubmitting : bool;
  inFlight : option Pending;
  executed : list ExecuteCodeInput;
  writes : list DocumentWrite;
  route : option string
}.

(** The synchronous head of [handleSubmitExam]: the guard and
    [setIsSubmitting(true)]. *)
Definition beginSubmit (c : Component)
  (autoSubmitDetails : option AutoSubmitDetails) : Component :=
  match state c, user c, examData c with
  | Some st, Some uid, Some exam =>
      if isSubmitting c then c
      else mkComponent (state c) (user c) (examData c) (shuffledQuestions c)
             (currentQuestionIndex c) true
             (Some (mkPending st uid exam autoSubmitDetails))
             (executed c) (writes c) (route c)
  | _, _, _ => c
  end.

(** The rest of the call: the loop, the write, [FINISH_EXAM] on the state
    current at that time, and the route. *)
Definition settleSubmit (examId : string) (c : Component) : Component :=
  match inFlight c with
  | Some p =>
      let l := submitLoop (p_state p) (shuffledQuestions c)
                 (mkLoop [] no_marks (executed c)) in
      let payload := submissionPayload (p_uid p) examId (p_exam p) (p_state p)
                       (shuffledQuestions c) l (p_details p) in
      mkComponent (option_map (fun s => examReducer s FINISH_EXAM) (state c))
        (user c) (examData c) (shuffledQuestions c) (currentQuestionIndex c)
        (isSubmitting c) None (calls l)
        (writes c ++ [mkWrite (studentExamDocId (p_uid p) examId) payload])
        (Some "/student/dashboard")
  | None => c
  end.

(** A call of [handleSubmitExam] run to its end without interruption. *)
Definition handleSubmitExam (examId : string) (c : Component)
  (autoSubmitDetails : option AutoSubmitDetails) : Component :=
  match state c, user c, examData c with
  | Some _, Some _, Some _ =>
      if isSubmitting c then c
      else settleSubmit examId (beginSubmit c autoSubmitDetails)
  | _, _, _ => c
  end.

(** [handleAutoSubmit]; [item] is the stored exit count. *)
Definition handleAutoSubmit (examId : string) (item : option Z)
  (c : Component) : Component :=
  handleSubmitExam examId c (Some (mkDetails true (storedExitCount item))).

(** The Submit button of the dialog: [handleSubmitExam()]. *)
Definition confirmSubmit (examId : string) (c : Component) : Component :=
  handleSubmitExam examId c None.

(** The effect
    [if (state?.timeLeft === 0 && state.examStarted && !state.examFinished)
       handleAutoSubmit()]. *)
Definition timeUpEffect (examId : string) (item : option Z) (c : Component)
  : Component :=
  match state c with
  | Some st =>
      if (timeLeft st =? 0) && examStarted st && negb (examFinished st)
      then handleAutoSubmit examId item c
      else c
  | None => c
  end.

(** What the session meets while a submission may be in flight. *)
Inductive Event : Type :=
| Submit (autoSubmitDetails : option AutoSubmitDetails)
| Settle
| Dispatch (action : Action).

Definition step (examId : string) (c : Component) (e : Event) : Component :=
  match e with
  | Submit d => beginSubmit c d
  | Settle => settleSubmit examId c
  | Dispatch a =>
      mkComponent (option_map (fun s => examReducer s a) (state c)) (user c)
        (examData c) (shuffledQuestions c) (currentQuestionIndex c)
        (isSubmitting c) (inFlight c) (executed c) (writes c) (route c)
  end.

Definition run (examId : string) (c : Component) (es : list Event)
  : Component :=
  fold_left (step examId) es c.




End Submission.

End CodingExamInterface.

(** ** The proctoring hook (hooks/use-fullscreen-enforcement) *)

Module FullscreenEnforcement.

Definition MAX_EXITS : Z := 5.

(** The hook's state and the item it keeps in [localStorage] under
    [fullscreenExitCount_<examId>]. *)
Record Hook : Type := mkHook {
  isFullscreen : bool;
  isPageVisible : bool;
  exitCount : Z;
  warningIssued : bool;
  countdown : option Z;
  stored : option Z
}.

(** What an effect does besides updating the hook. *)
Inductive Signal : Type :=
| ToastAutoSubmitting
| ToastWarning (newCount remaining : Z)
| OnAutoSubmit.

(** The initial state: [exitCount] is read from the stored item. *)
Definition init (item : option Z) : Hook :=
  mkHook true true (storedExitCount item) false None item.

Definition isSecure (h : Hook) : bool := isFullscreen h && isPageVisible h.

(** The enforcement effect, run after a render in which one of its
    dependencies changed. *)
Definition enforce (examStarted examFinished : bool) (h : Hook)
  : Hook * list Signal :=
  if negb examStarted || examFinished
  then (mkHook (isFullscreen h) (isPageVisible h) (exitCount h)
          (warningIssued h) None (stored h), [])
  else if isSecure h
  then (mkHook (isFullscreen h) (isPageVisible h) (exitCount h) false None
          (stored h), [])
  else if negb (warningIssued h)
  then
    let newCount := exitCount h + 1 in
    let h' := mkHook (isFullscreen h) (isPageVisible h) newCount true
                (Some 30) (Some newCount) in
    if newCount >? MAX_EXITS
    then (h', [ToastAutoSubmitting; OnAutoSubmit])
    else (h', [ToastWarning newCount (MAX_EXITS - newCount)])
  else (h, []).

(** The countdown effect: [onAutoSubmit] at zero, else one second later
    [setCountdown(countdown - 1)]. *)
Definition countdownEffect (h : Hook) : Hook * list Signal :=
  match countdown h with
  | None => (h, [])
  | Some n =>
      if n <=? 0 then (h, [OnAutoSubmit])
      else (mkHook (isFullscreen h) (isPageVisible h) (exitCount h)
              (warningIssued h) (Some (n - 1)) (stored h), [])
  end.

(** The handlers of [fullscreenchange] and [visibilitychange]. *)
Definition handleFullscreenChange (fullscreen : bool) (h : Hook) : Hook :=
  mkHook fullscreen (isPageVisible h) (exitCount h) (warningIssued h)
    (countdown h) (stored h).

Definition handleVisibilityChange (visible : bool) (h : Hook) : Hook :=
  mkHook (isFullscreen h) visible (exitCount h) (warningIssued h)
    (countdown h) (stored h).

(** The cleanup of the last effect: the stored item is removed once the exam
    is finished. *)
Definition cleanup (examFinished : bool) (h : Hook) : Hook :=
  if examFinished
  then mkHook (isFullscreen h) (isPageVisible h) (exitCount h)
         (warningIssued h) (countdown h) None
  else h.

(** The browser events of a running exam, each followed by the enforcement
    effect. *)
Inductive BrowserEvent : Type :=
| FullscreenChange (fullscreen : bool)
| VisibilityChange (visible : bool).

Definition onEvent (h : Hook) (e : BrowserEvent) : Hook * list Signal :=
  enforce true false
    (match e with
     | FullscreenChange b => handleFullscreenChange b h
     | VisibilityChange b => handleVisibilityChange b h
     end).

(** A run of browser events during a running exam, with the signals
    emitted. *)
Fixpoint onEvents (h : Hook) (es : list BrowserEvent) : Hook * list Signal :=
  match es with
  | [] => (h, [])
  | e :: es' =>
      let '(h1, s1) := onEvent h e in
      let '(h2, s2) := onEvents h1 es' in
      (h2, s1 ++ s2)
  end.

(** [seconds] passes of the countdown effect, one per second. *)
Fixpoint countdownRun (seconds : nat) (h : Hook) : Hook * list Signal :=
  match seconds with
  | O => countdownEffect h
  | S k =>
      let '(h1, s1) := countdownEffect h in
      match s1 with
      | [] => countdownRun k h1
      | _ => (h1, s1)
      end
  end.

Definition is_auto_submit (s : Signal) : bool :=
  match s with
  | OnAutoSubmit => true
  | _ => false
  end.

End FullscreenEnforcement.

(** ** Routing (ExamPageClient.tsx) *)

Inductive Interface : Type := UseCodingExamInterface | UseExamInterface.

Definition ExamPageClient (examType : option ExamType) : Interface :=
  match examType with
  | Some exam_coding => UseCodingExamInterface
  | _ => UseExamInterface
  end.

(** ** The question shuffle (ExamInterface.tsx, CodingExamInterface.tsx) *)

(** [array[i] = x] for an index inside the array. *)
Fixpoint assign {A : Type} (array : list A) (i : nat) (x : A) : list A :=
  match array, i with
  | [], _ => []
  | _ :: rest, O => x :: rest
  | y :: rest, S i' => y :: assign rest i' x
  end.

(** [[array[i], array[j]] = [array[j], array[i]]] for two indices inside the
    array, the only case the loop meets. *)
Definition swap {A : Type} (array : list A) (i j : nat) : list A :=
  match nth_error array i, nth_error array j with
  | Some x, Some y => assign (assign array i y) j x
  | _, _ => array
  end.

(** The Fisher-Yates loop, from index [i] down to 1; [random k] is the
    value of the [k]-th call of [Math.random()], and
    [j = Math.floor(Math.random() * (i + 1))]. *)
Fixpoint shuffleFrom {A : Type} (random : nat -> Q) (k i : nat)
  (array : list A) : list A :=
  match i with
  | O => array
  | S i' =>
      let j :=
        Z.to_nat (Qfloor (random k * inject_Z (Z.of_nat (i + 1)))) in
      shuffleFrom random (S k) i' (swap array i j)
  end.

(** [shuffledQuestions] for the questions of the exam. *)
Definition shuffle {A : Type} (random : nat -> Q) (questions : list A)
  : list A :=
  shuffleFrom random 0 (List.length questions - 1) questions.

(** ** The route guard (AuthGuard) *)

Inductive UserRole : Type := role_student | role_faculty | role_super_admin.

Module AuthGuard.

Definition role_eqb (a b : UserRole) : bool :=
  match a, b with
  | role_student, role_student
  | role_faculty, role_faculty
  | role_super_admin, role_super_admin => true
  | _, _ => false
  end.

(** [allowedRoles.includes(role)] *)
Definition includes (allowedRoles : list UserRole) (role : UserRole) : bool :=
  existsb (role_eqb role) allowedRoles.

(** The route the second effect pushes once loading is over, if any;
    [signedIn] is [user != null] and [profile] the role of the loaded
    profile. *)
Definition redirect (signedIn : bool) (profile : option UserRole)
  (allowedRoles : list UserRole) : option string :=
  if negb signedIn then Some "/login"
  else
    match profile with
    | Some role =>
        if negb (includes allowedRoles role)
           && negb (role_eqb role role_super_admin)
        then Some (if role_eqb role role_faculty
                   then "/faculty/dashboard" else "/student/dashboard")
        else if includes allowedRoles role_faculty
                && role_eqb role role_super_admin
        then None
        else if negb (includes allowedRoles role)
                && role_eqb role role_super_admin
                && negb (includes allowedRoles role_faculty)
        then Some "/super-admin/dashboard"
        else None
    | None => None
    end.

(** [isAllowed]: whether the children are rendered once loading is over. *)
Definition isAllowed (profile : option UserRole)
  (allowedRoles : list UserRole) : bool :=
  match profile with
  | Some role =>
      includes allowedRoles role
      || (role_eqb role role_super_admin
          && includes allowedRoles role_faculty)
      || (role_eqb role role_super_admin
          && includes allowedRoles role_super_admin)
  | None => false
  end.

End AuthGuard.

(** ** Predicates on actions and sample sessions used below *)

Definition is_initialize (a : ExamInterface.Action) : bool :=
  match a with
  | ExamInterface.INITIALIZE _ => true
  | _ => false
  end.

Definition is_coding_initialize (a : CodingExamInterface.Action) : bool :=
  match a with
  | CodingExamInterface.INITIALIZE _ => true
  | _ => false
  end.

(** The actions for which the specification asks a finished session to
    stay as it is. *)
Definition listed_action (a : ExamInterface.Action) : bool :=
  match a with
  | ExamInterface.INITIALIZE _ | ExamInterface.FINISH_EXAM => false
  | _ => true
  end.

Definition finished_example : ExamInterface.State :=
  ExamInterface.mkState 0 [] [("q1", not_answered)] 0 true true 1.

Definition finished_coding_example : CodingExamInterface.State :=
  CodingExamInterface.mkState 0 true true [] python.

Definition three_questions : list Question :=
  [mkQuestion "q1" "first" (Some ["a"; "b"]) (Some 0) None;
   mkQuestion "q2" "second" (Some ["a"; "b"]) (Some 1) None;
   mkQuestion "q3" "third" (Some ["a"; "b"]) (Some 0) None].

Definition started_example : ExamInterface.State :=
  ExamInterface.examReducer (ExamInterface.initialState 30 three_questions)
    ExamInterface.START_EXAM.


(** The session after START_EXAM, a jump to the third question and one
    step back. *)
Definition stepped_back_example : ExamInterface.State :=
  ExamInterface.dispatchAll started_example
    [ExamInterface.JUMP_TO_QUESTION 2; ExamInterface.PREV_QUESTION].

Definition marked_example : ExamInterface.State :=
  ExamInterface.dispatchAll started_example
    [ExamInterface.ANSWER (ExamInterface.mcq "q1" 1);
     ExamInterface.TOGGLE_MARK_FOR_REVIEW "q1"].

(** The stored answer an ANSWER payload carries. *)
Definition payload_value (p : ExamInterface.AnswerPayload)
  : ExamInterface.AnswerValue :=
  match p with
  | ExamInterface.mcq _ i => ExamInterface.Num i
  | ExamInterface.long_answer _ t => ExamInterface.Text t
  end.

(** The actions that are neither a reset nor a toggle of question [q]. *)
Definition keeps_mark (q : string) (a : ExamInterface.Action) : bool :=
  match a with
  | ExamInterface.INITIALIZE _ => false
  | ExamInterface.TOGGLE_MARK_FOR_REVIEW q' => negb (String.eqb q' q)
  | _ => true
  end.

(** A hook that has counted five exits and has just left full screen. *)
Definition fifth_exit_done : FullscreenEnforcement.Hook :=
  FullscreenEnforcement.handleFullscreenChange false
    (FullscreenEnforcement.init (Some 5)).

(** ** The arithmetic mean of the marks of a list of answers *)

Definition marks_or_zero (a : StudentAnswer) : Q :=
  match marks a with
  | Some m => m
  | None => no_marks
  end.

Definition sum_marks (l : list StudentAnswer) : Q :=
  fold_right (fun a acc => (marks_or_zero a + acc)%Q) no_marks l.

Definition mean_marks (l : list StudentAnswer) : Q :=
  match l with
  | [] => no_marks
  | _ => (sum_marks l / inject_Z (Z.of_nat (List.length l)))%Q
  end.

(** What C4 states for one question of an exam of type [t] and its answer
    record, in terms of the value stored in the session. *)
Definition graded_as_specified (t : ExamType) (st : ExamInterface.State)
  (q : Question) (a : StudentAnswer) : Prop :=
  questionId a = q_id q
  /\ (marks a = Some full_marks \/ marks a = Some no_marks)
  /\ (t = exam_mcq ->
      (marks a = Some full_marks <->
       exists n, JsMap.get (ExamInterface.answers st) (q_id q)
                 = Some (ExamInterface.Num n)
                 /\ selectedOption a = Some n
                 /\ q_correctOption q = Some n))
  /\ (t = exam_long_answer ->
      (marks a = Some full_marks <->
       exists s, JsMap.get (ExamInterface.answers st) (q_id q)
                 = Some (ExamInterface.Text s)
                 /\ textAnswer a = Some s
                 /\ trim s <> "")).

(** A five-question MCQ session with three correct answers. *)
Definition five_questions : list Question :=
  [mkQuestion "q1" "1" (Some ["a"; "b"]) (Some 0) None;
   mkQuestion "q2" "2" (Some ["a"; "b"]) (Some 1) None;
   mkQuestion "q3" "3" (Some ["a"; "b"]) (Some 0) None;
   mkQuestion "q4" "4" (Some ["a"; "b"]) (Some 1) None;
   mkQuestion "q5" "5" (Some ["a"; "b"]) (Some 0) None].

Definition mcq_exam : Exam :=
  mkExam "Quiz" 30 None exam_mcq five_questions None.

Definition mcq_session : ExamInterface.State :=
  ExamInterface.dispatchAll (ExamInterface.initialState 30 five_questions)
    [ExamInterface.START_EXAM;
     ExamInterface.ANSWER (ExamInterface.mcq "q1" 0);
     ExamInterface.ANSWER (ExamInterface.mcq "q2" 1);
     ExamInterface.ANSWER (ExamInterface.mcq "q3" 0);
     ExamInterface.ANSWER (ExamInterface.mcq "q4" 0)].

Definition mcq_component : ExamInterface.Component :=
  ExamInterface.mkComponent (Some mcq_session) (Some "u1") (Some mcq_exam)
    false [] None.

(** The request the flow sends for a test case. *)
Definition requestFor (input : ExecuteCodeFlow.ExecuteCodeInput)
  (tc : TestCase) : ExecuteCodeFlow.Request :=
  ExecuteCodeFlow.mkRequest
    (ExecuteCodeFlow.executionLanguage (ExecuteCodeFlow.in_language input))
    (ExecuteCodeFlow.in_sourceCode input) (tc_input tc).

(** A failure of the network or of the service for one test case. *)
Definition is_failure (o : ExecuteCodeFlow.FetchOutcome) : bool :=
  match o with
  | ExecuteCodeFlow.Throws _ | ExecuteCodeFlow.NotOk _ _ => true
  | ExecuteCodeFlow.Ran _ _ => false
  end.

(** ** Reading the coding submission loop *)

(** The [executeCode] inputs of the questions that have a non-empty stored
    source, in the order of the questions. *)
Definition submitted_inputs (st : CodingExamInterface.State)
  (qs : list Question) : list ExecuteCodeFlow.ExecuteCodeInput :=
  flat_map
    (fun q =>
       match CodingExamInterface.submitted_source
               (JsMap.get (CodingExamInterface.answers st) (q_id q)) with
       | Some src => [CodingExamInterface.executeInput st src q]
       | None => []
       end) qs.

(** What the final answer [a] of question [q] holds when the loop reaches
    [q] after [k] calls of [executeCode]. *)
Definition scored_on_submit
  (executeCode : nat -> ExecuteCodeFlow.ExecuteCodeInput
                 -> option ExecuteCodeFlow.ExecuteCodeOutput)
  (st : CodingExamInterface.State) (q : Question) (k : nat)
  (a : StudentAnswer) : Prop :=
  questionId a = q_id q
  /\ match CodingExamInterface.submitted_source
             (JsMap.get (CodingExamInterface.answers st) (q_id q)) with
     | None =>
         marks a = Some no_marks /\ testResults a = Some []
         /\ status a = Some not_answered
     | Some src =>
         match executeCode k (CodingExamInterface.executeInput st src q) with
         | Some r =>
             marks a = Some (CodingExamInterface.marksForQuestion r)
             /\ testResults a = Some (ExecuteCodeFlow.out_results r)
             /\ totalPassed a = Some (ExecuteCodeFlow.out_totalPassed r)
             /\ totalCases a = Some (ExecuteCodeFlow.out_totalCases r)
         | None =>
             marks a = Some no_marks
             /\ testResults a = Some (CodingExamInterface.failedResults q)
             /\ status a = Some not_answered
         end
     end.

(** A service that passes every test case it is given. *)
Definition all_pass (n : nat) (input : ExecuteCodeFlow.ExecuteCodeInput)
  : option ExecuteCodeFlow.ExecuteCodeOutput :=
  Some (ExecuteCodeFlow.mkOutput
          (map (fun tc => mkTestResult (tc_input tc) (tc_expectedOutput tc)
                            (tc_expectedOutput tc) true None)
             (ExecuteCodeFlow.in_testCases input))
          (Z.of_nat (List.length (ExecuteCodeFlow.in_testCases input)))
          (Z.of_nat (List.length (ExecuteCodeFlow.in_testCases input)))).

(** A service whose second call rejects. *)
Definition second_call_fails (n : nat)
  (input : ExecuteCodeFlow.ExecuteCodeInput)
  : option ExecuteCodeFlow.ExecuteCodeOutput :=
  if (n =? 1)%nat then None else all_pass n input.

Definition coding_questions : list Question :=
  [mkQuestion "c1" "echo" None None (Some [mkTestCase (Some "t1") "" ""]);
   mkQuestion "c2" "sum" None None
     (Some [mkTestCase (Some "t1") "1 2" "3"; mkTestCase (Some "t2") "2 2" "4"]);
   mkQuestion "c3" "max" None None (Some [mkTestCase (Some "t1") "1 2" "2"])].

Definition coding_exam : Exam :=
  mkExam "Lab" 60 None exam_coding coding_questions (Some python).

(** A session in which the first question was left empty. *)
Definition coding_session : CodingExamInterface.State :=
  CodingExamInterface.dispatchAll
    (CodingExamInterface.initialState coding_exam None None coding_questions)
    [CodingExamInterface.START_EXAM;
     CodingExamInterface.UPDATE_CODE "c2" "print(sum(map(int, input().split())))";
     CodingExamInterface.UPDATE_CODE "c3" "print(max(map(int, input().split())))"].

Definition coding_component : CodingExamInterface.Component :=
  CodingExamInterface.mkComponent (Some coding_session) (Some "u1")
    (Some coding_exam) coding_questions 0 false None [] [] None.

(** The invariant behind the in-flight flag of the coding session: a call
    in flight has set the flag and written nothing yet, nothing is written
    while the flag is clear, and at most one write was issued. *)
Definition flag_guards_writes {F : Type}
  (isSubmitting : bool) (inFlight : option F)
  (writes : list DocumentWrite) : Prop :=
  (inFlight <> None -> isSubmitting = true /\ writes = [])
  /\ (isSubmitting = false -> writes = [])
  /\ (List.length writes <= 1)%nat.

(** A double click on Submit while the first call is still running, a
    proctoring trigger, the end of the first call, and a late click. *)
Definition double_click : list CodingExamInterface.Event :=
  [CodingExamInterface.Submit None;
   CodingExamInterface.Submit None;
   CodingExamInterface.Submit (Some (mkDetails true 6));
   CodingExamInterface.Dispatch CodingExamInterface.TICK_TIMER;
   CodingExamInterface.Settle;
   CodingExamInterface.Submit None;
   CodingExamInterface.Settle].

(** ** Runs of the clock *)

(** [n] passes of the interval callback. *)
Definition ticks (n : nat) : list ExamInterface.Action :=
  repeat ExamInterface.TICK_TIMER n.

Definition coding_ticks (n : nat) : list CodingExamInterface.Action :=
  repeat CodingExamInterface.TICK_TIMER n.

(** The session keeps a stored answer exactly for the questions it shows as
    answered, up to the review mark. *)
Definition statuses_match_answers (s : ExamInterface.State) : Prop :=
  forall q,
    (JsMap.get (ExamInterface.statuses s) q = Some answered ->
     ExamInterface.not_nullish (JsMap.get (ExamInterface.answers s) q) = true)
    /\ (ExamInterface.not_nullish (JsMap.get (ExamInterface.answers s) q) = true ->
        JsMap.get (ExamInterface.statuses s) q = Some answered
        \/ JsMap.get (ExamInterface.statuses s) q = Some marked_for_review).

(** The question an action names, if it names one. *)
Definition action_question (a : ExamInterface.Action) : option string :=
  match a with
  | ExamInterface.ANSWER p => Some (ExamInterface.payload_questionId p)
  | ExamInterface.CLEAR_ANSWER q => Some q
  | ExamInterface.TOGGLE_MARK_FOR_REVIEW q => Some q
  | _ => None
  end.

(** The actions the page dispatches for the questions of the exam: no
    reset, and a question id that has a status. *)
Definition names_known_question (s : ExamInterface.State)
  (a : ExamInterface.Action) : Prop :=
  is_initialize a = false
  /\ match action_question a with
     | Some q => In q (JsMap.keys (ExamInterface.statuses s))
     | None => True
     end.

(** ** Reading the proctoring hook *)

(** What the browser reports after an event: full screen and visibility. *)
Definition browserAfter (fs pv : bool)
  (e : FullscreenEnforcement.BrowserEvent) : bool * bool :=
  match e with
  | FullscreenEnforcement.FullscreenChange b => (b, pv)
  | FullscreenEnforcement.VisibilityChange b => (fs, b)
  end.

(** The number of times a run of events takes the page from secure (full
    screen and visible) to insecure. *)
Fixpoint exits (fs pv : bool) (es : list FullscreenEnforcement.BrowserEvent)
  : Z :=
  match es with
  | [] => 0
  | e :: es' =>
      let '(fs', pv') := browserAfter fs pv e in
      (if (fs && pv) && negb (fs' && pv') then 1 else 0) + exits fs' pv' es'
  end.

(** The number of [onAutoSubmit] calls among the signals. *)
Definition auto_submits (s : list FullscreenEnforcement.Signal) : Z :=
  Z.of_nat (List.length (filter FullscreenEnforcement.is_auto_submit s)).

Definition is_warning (s : FullscreenEnforcement.Signal) : bool :=
  match s with
  | FullscreenEnforcement.ToastWarning _ _ => true
  | _ => false
  end.

(** Leaving and re-entering full screen seven times. *)
Definition seven_exits : list FullscreenEnforcement.BrowserEvent :=
  List.concat (repeat [FullscreenEnforcement.FullscreenChange false;
                       FullscreenEnforcement.FullscreenChange true] 7).

(** The requests a run of the flow sends, in order. *)
Definition flowRequests
  (piston : nat -> ExecuteCodeFlow.Request -> ExecuteCodeFlow.FetchOutcome)
  (input : ExecuteCodeFlow.ExecuteCodeInput) : list ExecuteCodeFlow.Request :=
  ExecuteCodeFlow.sent
    (fold_left
       (ExecuteCodeFlow.loopStep piston
          (ExecuteCodeFlow.executionLanguage
             (ExecuteCodeFlow.in_language input))
          (ExecuteCodeFlow.in_sourceCode input))
       (ExecuteCodeFlow.in_testCases input)
       (ExecuteCodeFlow.mkLoop [] 0 [])).

(** The server action as the components call it, over an execution service
    that never makes the flow itself reject. *)
Definition executeCodeOver
  (piston : nat -> ExecuteCodeFlow.Request -> ExecuteCodeFlow.FetchOutcome)
  (n : nat) (input : ExecuteCodeFlow.ExecuteCodeInput)
  : option ExecuteCodeFlow.ExecuteCodeOutput :=
  Some (ExecuteCodeFlow.executeCodeFlow piston input).

(** A line feed. *)
Definition newline : string := String (ascii_of_nat 10) EmptyString.

(** A question without test cases, and a session that holds code for it. *)
Definition open_question : Question :=
  mkQuestion "c9" "free" None None None.

Definition open_session : CodingExamInterface.State :=
  CodingExamInterface.dispatchAll
    (CodingExamInterface.initialState coding_exam None None [open_question])
    [CodingExamInterface.START_EXAM;
     CodingExamInterface.UPDATE_CODE "c9" "print(1)"].

(** An execution service that is never reached. *)
Definition unreachable_service (n : nat) (r : ExecuteCodeFlow.Request)
  : ExecuteCodeFlow.FetchOutcome :=
  ExecuteCodeFlow.Throws "offline".



(** The five-question session with every answer correct. *)
Definition perfect_session : ExamInterface.State :=
  ExamInterface.dispatchAll mcq_session
    [ExamInterface.ANSWER (ExamInterface.mcq "q4" 1);
     ExamInterface.ANSWER (ExamInterface.mcq "q5" 0)].

(** * Properties *)

(** ** [Map] lookups after updates *)

Lemma get_set_same {V : Type} (m : JsMap.t V) (k : string) (v : V) :
  JsMap.get (JsMap.set m k v) k = Some v.
Proof.
  induction m as [|[k' v'] m IH]; simpl.
  - now rewrite String.eqb_refl.
  - destruct (String.eqb k' k) eqn:E; simpl; rewrite E; auto.
Qed.

Lemma get_set_other {V : Type} (m : JsMap.t V) (k k' : string) (v : V) :
  k <> k' -> JsMap.get (JsMap.set m k v) k' = JsMap.get m k'.
Proof.
  intros Hne. induction m as [|[k0 v0] m IH]; simpl.
  - apply String.eqb_neq in Hne. now rewrite Hne.
  - destruct (String.eqb k0 k) eqn:E; simpl.
    + apply String.eqb_eq in E. subst k0.
      apply String.eqb_neq in Hne. now rewrite Hne.
    + now rewrite IH.
Qed.

Lemma keys_set_present {V : Type} (m : JsMap.t V) (k : string) (v : V) :
  JsMap.get m k <> None -> JsMap.keys (JsMap.set m k v) = JsMap.keys m.
Proof.
  unfold JsMap.keys. induction m as [|[k0 v0] m IH]; simpl; intros H.
  - congruence.
  - destruct (String.eqb k0 k) eqn:E; simpl; [reflexivity|].
    now rewrite IH.
Qed.

Lemma keys_set_absent {V : Type} (m : JsMap.t V) (k : string) (v : V) :
  JsMap.get m k = None -> JsMap.keys (JsMap.set m k v) = JsMap.keys m ++ [k].
Proof.
  unfold JsMap.keys. induction m as [|[k0 v0] m IH]; simpl; intros H.
  - reflexivity.
  - destruct (String.eqb k0 k) eqn:E; simpl; [discriminate|].
    now rewrite IH.
Qed.

Lemma get_in_keys {V : Type} (m : JsMap.t V) (k : string) :
  JsMap.get m k <> None <-> In k (JsMap.keys m).
Proof.
  unfold JsMap.keys. induction m as [|[k0 v0] m IH]; simpl.
  - split; [congruence | tauto].
  - destruct (String.eqb k0 k) eqn:E.
    + apply String.eqb_eq in E. split; [auto | congruence].
    + apply String.eqb_neq in E. rewrite IH. split; [auto | tauto].
Qed.

(** The visiting rule never touches a question that is not ['not-visited'],
    and keeps the order of the keys. *)
Lemma get_visit_other (sts : JsMap.t QuestionStatus) (target : option string)
  (q : string) :
  JsMap.get sts q <> Some not_visited ->
  JsMap.get (ExamInterface.visit sts target) q = JsMap.get sts q.
Proof.
  intros H. unfold ExamInterface.visit.
  destruct target as [k|]; [|reflexivity].
  destruct (JsMap.get sts k) as [[]|] eqn:E; try reflexivity.
  apply get_set_other. intros ->. congruence.
Qed.

Lemma keys_visit (sts : JsMap.t QuestionStatus) (target : option string) :
  JsMap.keys (ExamInterface.visit sts target) = JsMap.keys sts.
Proof.
  unfold ExamInterface.visit.
  destruct target as [k|]; [|reflexivity].
  destruct (JsMap.get sts k) as [[]|] eqn:E; try reflexivity.
  apply keys_set_present. congruence.
Qed.

Lemma get_visit_target (sts : JsMap.t QuestionStatus) (q : string) :
  JsMap.get sts q = Some not_visited ->
  JsMap.get (ExamInterface.visit sts (Some q)) q = Some not_answered.
Proof.
  intros H. unfold ExamInterface.visit. rewrite H. apply get_set_same.
Qed.

(** ** The reducers *)

(** C1, as stated, fails: the reducer has no guard on [examFinished], and
    ANSWER on a finished session stores the answer and changes the status. *)
Lemma finished_session_still_answers :
  ~ (forall s a,
        ExamInterface.examFinished s = true ->
        listed_action a = true ->
        ExamInterface.examReducer s a = s).
Proof.
  intros H.
  specialize (H finished_example
                (ExamInterface.ANSWER (ExamInterface.mcq "q1" 2))
                eq_refl eq_refl).
  discriminate H.
Qed.

(** C1 (amended): in a finished session, of either reducer, every action but
    INITIALIZE leaves [examFinished] set and, when the clock is at 0, leaves
    it at 0; TICK_TIMER and FINISH_EXAM then return the state unchanged.  The
    other actions still update answers, statuses, index, [examStarted] or the
    language. *)
Theorem finished_is_kept
  (s : ExamInterface.State) (a : ExamInterface.Action)
  (c : CodingExamInterface.State) (b : CodingExamInterface.Action) :
  ExamInterface.examFinished s = true ->
  CodingExamInterface.examFinished c = true ->
  is_initialize a = false ->
  is_coding_initialize b = false ->
  ExamInterface.examFinished (ExamInterface.examReducer s a) = true
  /\ CodingExamInterface.examFinished
       (CodingExamInterface.examReducer c b) = true
  /\ (ExamInterface.timeLeft s = 0 ->
      ExamInterface.timeLeft (ExamInterface.examReducer s a) = 0
      /\ ExamInterface.examReducer s ExamInterface.TICK_TIMER = s
      /\ ExamInterface.examReducer s ExamInterface.FINISH_EXAM = s)
  /\ (CodingExamInterface.timeLeft c = 0 ->
      CodingExamInterface.timeLeft
        (CodingExamInterface.examReducer c b) = 0
      /\ CodingExamInterface.examReducer c CodingExamInterface.TICK_TIMER = c
      /\ CodingExamInterface.examReducer c CodingExamInterface.FINISH_EXAM = c).
Proof.
  intros Hs Hc Ha Hb.
  destruct s as [i an st tl es ef tq]; destruct c as [ctl ces cef can cl].
  simpl in Hs, Hc. subst ef cef.
  repeat split.
  - destruct a; simpl in *; try discriminate; try reflexivity.
    + now destruct (JsMap.size st =? 0)%nat.
    + now destruct (tl <=? 1).
  - destruct b; simpl in *; try discriminate; try reflexivity.
    now destruct (ctl <=? 1).
  - simpl in H. subst tl.
    destruct a; simpl in *; try discriminate; try reflexivity.
    now destruct (JsMap.size st =? 0)%nat.
  - simpl in H. now subst tl.
  - simpl in H. now subst tl.
  - simpl in H. subst ctl.
    destruct b; simpl in *; try discriminate; reflexivity.
  - simpl in H. now subst ctl.
  - simpl in H. now subst ctl.
Qed.

Lemma finished_is_kept_witness :
  ExamInterface.examFinished
    (ExamInterface.examReducer finished_example
       (ExamInterface.ANSWER (ExamInterface.mcq "q1" 2))) = true
  /\ CodingExamInterface.examFinished
       (CodingExamInterface.examReducer finished_coding_example
          (CodingExamInterface.UPDATE_CODE "q1" "print(1)")) = true.
Proof.
  destruct (finished_is_kept finished_example
              (ExamInterface.ANSWER (ExamInterface.mcq "q1" 2))
              finished_coding_example
              (CodingExamInterface.UPDATE_CODE "q1" "print(1)")
              eq_refl eq_refl eq_refl eq_refl) as (H1 & H2 & _).
  split; [exact H1 | exact H2].
Defined.

(** C6, as stated, fails: JUMP_TO_QUESTION stores its payload as it is. *)
Lemma jump_leaves_the_range :
  ~ (forall s a,
        1 <= ExamInterface.totalQuestions s ->
        ExamInterface.index_in_range s ->
        ExamInterface.index_in_range (ExamInterface.examReducer s a)).
Proof.
  intros H.
  assert (R : ExamInterface.index_in_range
                (ExamInterface.examReducer started_example
                   (ExamInterface.JUMP_TO_QUESTION 7))).
  { apply H; unfold ExamInterface.index_in_range; simpl; lia. }
  unfold ExamInterface.index_in_range in R. simpl in R. lia.
Qed.

(** C6 (amended): the invariant [0 <= currentQuestionIndex < totalQuestions]
    is kept by every action the page dispatches: JUMP_TO_QUESTION with an
    index of the palette, INITIALIZE with a state that satisfies it, and all
    other actions unconditionally. *)
Theorem index_stays_in_range (s : ExamInterface.State)
  (a : ExamInterface.Action) :
  ExamInterface.index_in_range s ->
  ExamInterface.ui_action s a ->
  ExamInterface.index_in_range (ExamInterface.examReducer s a).
Proof.
  unfold ExamInterface.index_in_range.
  intros Hs Ha.
  destruct a; simpl in *; try assumption; try lia.
  - now destruct (JsMap.size (ExamInterface.statuses s) =? 0)%nat.
  - now destruct (ExamInterface.timeLeft s <=? 1).
Qed.

Lemma index_stays_in_range_witness :
  ExamInterface.index_in_range
    (ExamInterface.examReducer started_example
       (ExamInterface.JUMP_TO_QUESTION 2)).
Proof.
  apply (index_stays_in_range started_example
           (ExamInterface.JUMP_TO_QUESTION 2)).
  - unfold ExamInterface.index_in_range; simpl; lia.
  - simpl; lia.
Defined.

(** C7: NEXT_QUESTION and PREV_QUESTION both keep the index within
    [0, totalQuestions - 1], and NEXT_QUESTION turns a ['not-visited']
    question it moves onto into ['not-answered']; PREV_QUESTION however
    returns the statuses untouched, so a question reached by stepping back
    keeps the status ['not-visited']. *)
Theorem prev_question_skips_the_visiting_rule (s : ExamInterface.State) :
  ExamInterface.index_in_range s ->
  let n := ExamInterface.examReducer s ExamInterface.NEXT_QUESTION in
  let p := ExamInterface.examReducer s ExamInterface.PREV_QUESTION in
  0 <= ExamInterface.currentQuestionIndex n <= ExamInterface.totalQuestions s - 1
  /\ 0 <= ExamInterface.currentQuestionIndex p <= ExamInterface.totalQuestions s - 1
  /\ (forall q,
         js_index (JsMap.keys (ExamInterface.statuses s))
           (ExamInterface.currentQuestionIndex n) = Some q ->
         JsMap.get (ExamInterface.statuses s) q = Some not_visited ->
         JsMap.get (ExamInterface.statuses n) q = Some not_answered)
  /\ ExamInterface.statuses p = ExamInterface.statuses s.
Proof.
  unfold ExamInterface.index_in_range. intros H. simpl.
  repeat split; try lia.
  intros q Hq Hv. rewrite Hq. now apply get_visit_target.
Qed.

Lemma prev_question_skips_the_visiting_rule_witness :
  ExamInterface.currentQuestionIndex stepped_back_example = 1
  /\ js_index (JsMap.keys (ExamInterface.statuses stepped_back_example)) 1
     = Some "q2"
  /\ JsMap.get (ExamInterface.statuses stepped_back_example) "q2"
     = Some not_visited.
Proof.
  pose proof (prev_question_skips_the_visiting_rule
                (ExamInterface.examReducer started_example
                   (ExamInterface.JUMP_TO_QUESTION 2))) as H.
  assert (R : ExamInterface.index_in_range
                (ExamInterface.examReducer started_example
                   (ExamInterface.JUMP_TO_QUESTION 2))).
  { unfold ExamInterface.index_in_range; simpl; lia. }
  destruct (H R) as (_ & _ & _ & Hst).
  change stepped_back_example
    with (ExamInterface.examReducer
            (ExamInterface.examReducer started_example
               (ExamInterface.JUMP_TO_QUESTION 2))
            ExamInterface.PREV_QUESTION).
  cbv zeta in Hst. rewrite Hst. repeat split; reflexivity.
Defined.

(** C8: while a question is marked for review, ANSWER stores the new value
    and CLEAR_ANSWER stores [null], both leaving the status
    ['marked-for-review']; no action other than a toggle of that question
    (or a reset by INITIALIZE) changes that status; the toggle turns it into
    ['answered'] when a stored answer is present and ['not-answered']
    otherwise; and a toggle of a question that is not marked marks it. *)
Theorem review_mark_is_sticky (s : ExamInterface.State) (q : string) :
  (JsMap.get (ExamInterface.statuses s) q = Some marked_for_review ->
   (forall p, ExamInterface.payload_questionId p = q ->
      let s' := ExamInterface.examReducer s (ExamInterface.ANSWER p) in
      JsMap.get (ExamInterface.answers s') q = Some (payload_value p)
      /\ JsMap.get (ExamInterface.statuses s') q = Some marked_for_review)
   /\ (let s' := ExamInterface.examReducer s (ExamInterface.CLEAR_ANSWER q) in
       JsMap.get (ExamInterface.answers s') q = Some ExamInterface.Null
       /\ JsMap.get (ExamInterface.statuses s') q = Some marked_for_review)
   /\ (forall a, keeps_mark q a = true ->
       JsMap.get (ExamInterface.statuses (ExamInterface.examReducer s a)) q
       = Some marked_for_review)
   /\ JsMap.get
        (ExamInterface.statuses
           (ExamInterface.examReducer s
              (ExamInterface.TOGGLE_MARK_FOR_REVIEW q))) q
      = Some (if ExamInterface.not_nullish
                   (JsMap.get (ExamInterface.answers s) q)
              then answered else not_answered))
  /\ (JsMap.get (ExamInterface.statuses s) q <> Some marked_for_review ->
      JsMap.get
        (ExamInterface.statuses
           (ExamInterface.examReducer s
              (ExamInterface.TOGGLE_MARK_FOR_REVIEW q))) q
      = Some marked_for_review).
Proof.
  split.
  - intros Hm. repeat split.
    + destruct p; simpl in H; subst; simpl; apply get_set_same.
    + destruct p; simpl in H; subst; simpl; now rewrite Hm.
    + simpl. apply get_set_same.
    + simpl. now rewrite Hm.
    + intros a Ha.
      assert (Hnv : JsMap.get (ExamInterface.statuses s) q <> Some not_visited)
        by congruence.
      destruct a; simpl in Ha; try discriminate; simpl.
      * destruct (JsMap.size (ExamInterface.statuses s) =? 0)%nat; simpl;
          [assumption | now rewrite get_visit_other].
      * now rewrite get_visit_other.
      * assumption.
      * now rewrite get_visit_other.
      * destruct (ExamInterface.is_marked _) eqn:Em; [assumption|].
        destruct (String.eqb (ExamInterface.payload_questionId payload) q)
          eqn:E.
        -- apply String.eqb_eq in E. subst q. rewrite Hm in Em. discriminate.
        -- apply String.eqb_neq in E. now rewrite get_set_other.
      * destruct (ExamInterface.is_marked _) eqn:Em; [assumption|].
        destruct (String.eqb payload q) eqn:E.
        -- apply String.eqb_eq in E. subst q. rewrite Hm in Em. discriminate.
        -- apply String.eqb_neq in E. now rewrite get_set_other.
      * apply negb_true_iff in Ha. apply String.eqb_neq in Ha.
        destruct (ExamInterface.is_marked _); now rewrite get_set_other.
      * now destruct (ExamInterface.timeLeft s <=? 1).
      * assumption.
    + simpl. rewrite Hm. simpl. apply get_set_same.
  - intros Hn. simpl.
    destruct (ExamInterface.is_marked _) eqn:Em.
    + unfold ExamInterface.is_marked in Em.
      destruct (JsMap.get (ExamInterface.statuses s) q) as [[]|];
        congruence.
    + apply get_set_same.
Qed.

Lemma review_mark_is_sticky_witness :
  JsMap.get
    (ExamInterface.statuses
       (ExamInterface.examReducer marked_example
          (ExamInterface.CLEAR_ANSWER "q1"))) "q1" = Some marked_for_review
  /\ JsMap.get
       (ExamInterface.statuses
          (ExamInterface.examReducer marked_example
             (ExamInterface.TOGGLE_MARK_FOR_REVIEW "q1"))) "q1"
     = Some answered.
Proof.
  destruct (review_mark_is_sticky marked_example "q1") as [H _].
  destruct (H eq_refl) as (_ & (_ & Hc) & _ & Ht).
  split; [exact Hc | exact Ht].
Defined.

(** With the latch closed, a browser event that leaves the page insecure
    is not counted. *)
Lemma latched_event_not_counted (h : FullscreenEnforcement.Hook)
  (e : FullscreenEnforcement.BrowserEvent) :
  FullscreenEnforcement.warningIssued h = true ->
  FullscreenEnforcement.isSecure
    (fst (FullscreenEnforcement.onEvent h e)) = false ->
  FullscreenEnforcement.exitCount (fst (FullscreenEnforcement.onEvent h e))
  = FullscreenEnforcement.exitCount h
  /\ snd (FullscreenEnforcement.onEvent h e) = [].
Proof.
  destruct h as [fs pv ec wi cd sto]. simpl. intros ->.
  unfold FullscreenEnforcement.onEvent, FullscreenEnforcement.enforce,
    FullscreenEnforcement.isSecure.
  destruct e as [b|b]; destruct fs, pv, b; simpl; intros H;
    try discriminate; split; reflexivity.
Qed.

(** C2, as stated, fails: the sixth exit sets the countdown to 30 like any
    other exit, before the count is compared with [MAX_EXITS]. *)
Lemma sixth_exit_starts_the_countdown :
  ~ (forall h,
        FullscreenEnforcement.isSecure h = false ->
        FullscreenEnforcement.warningIssued h = false ->
        FullscreenEnforcement.exitCount h + 1 > FullscreenEnforcement.MAX_EXITS ->
        FullscreenEnforcement.countdown
          (fst (FullscreenEnforcement.enforce true false h)) = None).
Proof.
  intros H.
  specialize (H fifth_exit_done eq_refl eq_refl).
  simpl in H. discriminate H. reflexivity.
Qed.

(** C2 (amended): in a running exam, the enforcement effect on an insecure
    page whose warning latch is open raises [exitCount] and the stored count
    by exactly one, closes the latch and sets the countdown to 30, whatever
    the count; for new counts up to [MAX_EXITS] it only shows the warning,
    and for a new count above [MAX_EXITS] it shows the auto-submit notice and
    calls [onAutoSubmit] at once, with no warning.  With the latch closed the
    effect changes and emits nothing while the page stays insecure. *)
Theorem exit_is_counted_once (h : FullscreenEnforcement.Hook) :
  FullscreenEnforcement.isSecure h = false ->
  FullscreenEnforcement.warningIssued h = false ->
  let n := FullscreenEnforcement.exitCount h + 1 in
  let h' := fst (FullscreenEnforcement.enforce true false h) in
  let out := snd (FullscreenEnforcement.enforce true false h) in
  FullscreenEnforcement.exitCount h' = n
  /\ FullscreenEnforcement.stored h' = Some n
  /\ FullscreenEnforcement.warningIssued h' = true
  /\ FullscreenEnforcement.countdown h' = Some 30
  /\ (n <= FullscreenEnforcement.MAX_EXITS ->
      out = [FullscreenEnforcement.ToastWarning n
               (FullscreenEnforcement.MAX_EXITS - n)])
  /\ (FullscreenEnforcement.MAX_EXITS < n ->
      out = [FullscreenEnforcement.ToastAutoSubmitting;
             FullscreenEnforcement.OnAutoSubmit])
  /\ FullscreenEnforcement.enforce true false h' = (h', [])
  /\ (forall e,
         FullscreenEnforcement.isSecure
           (fst (FullscreenEnforcement.onEvent h' e)) = false ->
         FullscreenEnforcement.exitCount
           (fst (FullscreenEnforcement.onEvent h' e)) = n
         /\ snd (FullscreenEnforcement.onEvent h' e) = []).
Proof.
  intros Hsec Hw.
  destruct h as [fs pv ec wi cd sto].
  unfold FullscreenEnforcement.isSecure in *. simpl in *. subst wi.
  unfold FullscreenEnforcement.enforce, FullscreenEnforcement.isSecure.
  simpl. rewrite Hsec. simpl.
  destruct (ec + 1 >? FullscreenEnforcement.MAX_EXITS) eqn:E; simpl;
    rewrite ?Hsec; simpl.
  - apply Z.gtb_lt in E.
    repeat split; try reflexivity; try lia;
      apply (latched_event_not_counted
               (FullscreenEnforcement.mkHook fs pv (ec + 1) true (Some 30)
                  (Some (ec + 1))) e eq_refl H).
  - assert (ec + 1 <= FullscreenEnforcement.MAX_EXITS).
    { destruct (Z.gtb_spec (ec + 1) FullscreenEnforcement.MAX_EXITS);
        [discriminate | lia]. }
    repeat split; try reflexivity; try lia;
      apply (latched_event_not_counted
               (FullscreenEnforcement.mkHook fs pv (ec + 1) true (Some 30)
                  (Some (ec + 1))) e eq_refl H0).
Qed.

Lemma exit_is_counted_once_witness :
  FullscreenEnforcement.exitCount
    (fst (FullscreenEnforcement.enforce true false fifth_exit_done)) = 6
  /\ snd (FullscreenEnforcement.enforce true false fifth_exit_done)
     = [FullscreenEnforcement.ToastAutoSubmitting;
        FullscreenEnforcement.OnAutoSubmit]
  /\ FullscreenEnforcement.countdown
       (fst (FullscreenEnforcement.enforce true false fifth_exit_done))
     = Some 30.
Proof.
  destruct (exit_is_counted_once fifth_exit_done eq_refl eq_refl)
    as (H1 & _ & _ & H4 & _ & H6 & _).
  split; [exact H1 | split; [apply H6; reflexivity | exact H4]].
Defined.

(** ** The MCQ / long-answer submission builder *)

Lemma gradeAll_fold (t : ExamType) (st : ExamInterface.State)
  (qs : list Question) (acc : list StudentAnswer) (tot : Q) :
  let r :=
    fold_left
      (fun acc q =>
         let '(a, m) := ExamInterface.gradeQuestion t st q in
         (fst acc ++ [a], (snd acc + m)%Q))
      qs (acc, tot) in
  fst r = acc ++ map (fun q => fst (ExamInterface.gradeQuestion t st q)) qs
  /\ (snd r ==
      tot + sum_marks
              (map (fun q => fst (ExamInterface.gradeQuestion t st q)) qs))%Q.
Proof.
  revert acc tot. induction qs as [|q qs IH]; intros acc tot; simpl.
  - split; [now rewrite app_nil_r | unfold no_marks; ring].
  - destruct (ExamInterface.gradeQuestion t st q) as [a m] eqn:E. simpl.
    destruct (IH (acc ++ [a]) (tot + m)%Q) as [H1 H2].
    split.
    + rewrite H1, <- app_assoc. reflexivity.
    + rewrite H2.
      assert (Hm : marks_or_zero a = m).
      { unfold ExamInterface.gradeQuestion in E.
        destruct t; inversion E; reflexivity. }
      rewrite Hm. ring.
Qed.

Lemma gradeQuestion_as_specified (t : ExamType) (st : ExamInterface.State)
  (q : Question) :
  graded_as_specified t st q (fst (ExamInterface.gradeQuestion t st q)).
Proof.
  unfold graded_as_specified, ExamInterface.gradeQuestion.
  destruct (JsMap.get (ExamInterface.answers st) (q_id q)) as [[n|s|]|] eqn:Ea;
    destruct t; simpl;
    repeat match goal with
      | |- _ /\ _ => split
      | |- _ <-> _ => split
      | |- _ -> _ => intro
      end;
    try reflexivity; try discriminate;
    try match goal with
      | H : exists _, _ |- _ => destruct H as (x & Hx1 & Hx2 & Hx3)
      end;
    try congruence.
  all: try (destruct (q_correctOption q) as [c|] eqn:Ec).
  all: try (destruct (n =? c) eqn:En).
  all: try (destruct (String.eqb (trim s) "") eqn:Et).
  all: simpl in *; auto; try discriminate; try congruence.
  all: try (apply Z.eqb_eq in En; subst c; exists n; auto).
  all: try (apply Z.eqb_neq in En; inversion Hx1; inversion Hx3; congruence).
  all: try (apply String.eqb_eq in Et; inversion Hx1; congruence).
  all: try (apply String.eqb_neq in Et; exists s; auto).
Qed.

(** C4: every answer record the builder writes carries marks 100 or 0;
    for an mcq exam the marks are 100 exactly when the stored answer is an
    option index equal to the question's correct option, for a long-answer
    exam exactly when the stored answer is a text that is non-empty after
    trimming; and the score is the arithmetic mean of the marks of the
    records, and 0, with no division, for an exam without questions. *)
Theorem submission_marks_and_score (uid examId : string) (exam : Exam)
  (st : ExamInterface.State) (details : option AutoSubmitDetails) :
  let r := ExamInterface.buildSubmission uid examId exam st details in
  Forall2 (graded_as_specified (exam_examType exam) st)
    (exam_questions exam) (se_answers r)
  /\ (se_score r == mean_marks (se_answers r))%Q
  /\ (exam_questions exam = [] -> se_score r = no_marks).
Proof.
  unfold ExamInterface.buildSubmission, ExamInterface.gradeAll.
  pose proof (gradeAll_fold (exam_examType exam) st (exam_questions exam)
                [] no_marks) as H.
  cbv zeta in H.
  destruct (fold_left _ (exam_questions exam) ([], no_marks)) as [ans tot].
  simpl in H. destruct H as [H1 H2]. simpl. subst ans.
  split; [|split].
  - clear H2. induction (exam_questions exam) as [|q qs IH]; simpl;
      constructor.
    + apply gradeQuestion_as_specified.
    + exact IH.
  - unfold ExamInterface.finalScore, mean_marks.
    rewrite length_map.
    destruct (exam_questions exam) as [|q qs] eqn:Eq.
    + reflexivity.
    + cbn [map].
      replace (0 <? Z.of_nat (List.length (q :: qs))) with true
        by (symmetry; apply Z.ltb_lt; simpl; lia).
      rewrite H2. cbn [map]. unfold no_marks.
      apply Qdiv_comp; [ring | reflexivity].
  - intros E. rewrite E. reflexivity.
Qed.

(** ** The status written on a submission *)

Lemma handleSubmitExam_writes (examId : string) (c : ExamInterface.Component)
  (d : option AutoSubmitDetails) (st : ExamInterface.State) (uid : string)
  (exam : Exam) :
  ExamInterface.state c = Some st ->
  ExamInterface.user c = Some uid ->
  ExamInterface.examData c = Some exam ->
  ExamInterface.isSubmitting c = false ->
  ExamInterface.writes (ExamInterface.handleSubmitExam examId c d)
  = ExamInterface.writes c
    ++ [mkWrite (studentExamDocId uid examId)
          (ExamInterface.buildSubmission uid examId exam st d)].
Proof.
  intros Hs Hu He Hf. unfold ExamInterface.handleSubmitExam.
  rewrite Hs, Hu, He, Hf. reflexivity.
Qed.

Lemma buildSubmission_status (uid examId : string) (exam : Exam)
  (st : ExamInterface.State) (d : option AutoSubmitDetails) :
  let r := ExamInterface.buildSubmission uid examId exam st d in
  se_status r = ExamInterface.submissionStatus (exam_examType exam) d
  /\ se_autoSubmitted r = option_map autoSubmitted d
  /\ se_exitCount r = option_map exitCount d.
Proof.
  unfold ExamInterface.buildSubmission.
  destruct (ExamInterface.gradeAll _ _ _). simpl. auto.
Qed.

(** Two lists that agree position by position under two projections have
    equal projections. *)
Lemma map_pointwise {A B C : Type} (f : A -> C) (g : B -> C)
  (l1 : list A) (l2 : list B) :
  List.length l2 = List.length l1 ->
  (forall i a, nth_error l1 i = Some a ->
               exists b, nth_error l2 i = Some b /\ g b = f a) ->
  map g l2 = map f l1.
Proof.
  revert l2. induction l1 as [|a l1 IH]; intros [|b l2] Hl Hp; simpl in *;
    try discriminate; [reflexivity|].
  destruct (Hp 0%nat a eq_refl) as (b' & Hb & Hg).
  inversion Hb; subst b'. rewrite Hg. f_equal.
  apply IH; [lia|]. intros i a' Hn. apply (Hp (S i) a' Hn).
Qed.

(** ** The code-execution flow *)

Section FlowFacts.

Variable piston : nat -> ExecuteCodeFlow.Request -> ExecuteCodeFlow.FetchOutcome.

Lemma runTestCase_counted (o : ExecuteCodeFlow.FetchOutcome) (tc : TestCase) :
  snd (ExecuteCodeFlow.runTestCase o tc)
  = tr_isCorrect (fst (ExecuteCodeFlow.runTestCase o tc))
  /\ tr_input (fst (ExecuteCodeFlow.runTestCase o tc)) = tc_input tc
  /\ tr_expectedOutput (fst (ExecuteCodeFlow.runTestCase o tc))
     = tc_expectedOutput tc.
Proof. destruct o; simpl; auto. Qed.

Lemma countCorrect_app (l1 l2 : list TestResult) :
  ExecuteCodeFlow.countCorrect (l1 ++ l2)
  = ExecuteCodeFlow.countCorrect l1 + ExecuteCodeFlow.countCorrect l2.
Proof.
  unfold ExecuteCodeFlow.countCorrect.
  rewrite filter_app, length_app. lia.
Qed.

Lemma loopStep_fields (language sourceCode : string)
  (l : ExecuteCodeFlow.Loop) (tc : TestCase) :
  let request := ExecuteCodeFlow.mkRequest language sourceCode (tc_input tc) in
  let r :=
    fst (ExecuteCodeFlow.runTestCase
           (piston (List.length (ExecuteCodeFlow.sent l)) request) tc) in
  let l1 := ExecuteCodeFlow.loopStep piston language sourceCode l tc in
  ExecuteCodeFlow.results l1 = ExecuteCodeFlow.results l ++ [r]
  /\ ExecuteCodeFlow.passed l1
     = ExecuteCodeFlow.passed l + ExecuteCodeFlow.countCorrect [r]
  /\ ExecuteCodeFlow.sent l1 = ExecuteCodeFlow.sent l ++ [request].
Proof.
  cbv zeta. unfold ExecuteCodeFlow.loopStep.
  pose proof (runTestCase_counted
                (piston (List.length (ExecuteCodeFlow.sent l))
                   (ExecuteCodeFlow.mkRequest language sourceCode
                      (tc_input tc))) tc) as (Hc & _).
  destruct (ExecuteCodeFlow.runTestCase _ tc) as [r counted].
  simpl in *. subst counted. repeat split.
  unfold ExecuteCodeFlow.countCorrect. simpl.
  destruct (tr_isCorrect r); simpl; lia.
Qed.

(** The loop invariant: the loop appends one result per test case, the
    [i]-th of them built from the outcome of the request numbered after the
    requests already sent, and adds the number of correct ones to
    [totalPassed]. *)
Lemma flow_loop (language sourceCode : string) (tcs : list TestCase)
  (l : ExecuteCodeFlow.Loop) :
  let l' :=
    fold_left (ExecuteCodeFlow.loopStep piston language sourceCode) tcs l in
  exists rest,
    ExecuteCodeFlow.results l' = ExecuteCodeFlow.results l ++ rest
    /\ List.length rest = List.length tcs
    /\ ExecuteCodeFlow.passed l'
       = ExecuteCodeFlow.passed l + ExecuteCodeFlow.countCorrect rest
    /\ ExecuteCodeFlow.sent l'
       = ExecuteCodeFlow.sent l
         ++ map (fun tc =>
                   ExecuteCodeFlow.mkRequest language sourceCode (tc_input tc))
              tcs
    /\ forall i tc,
        nth_error tcs i = Some tc ->
        nth_error rest i
        = Some (fst (ExecuteCodeFlow.runTestCase
                       (piston (List.length (ExecuteCodeFlow.sent l) + i)%nat
                          (ExecuteCodeFlow.mkRequest language sourceCode
                             (tc_input tc))) tc)).
Proof.
  revert l. induction tcs as [|tc tcs IH]; intros l; simpl.
  - exists []. rewrite !app_nil_r. repeat split; try reflexivity.
    + unfold ExecuteCodeFlow.countCorrect; simpl; lia.
    + intros [|i] tc H; discriminate H.
  - destruct (IH (ExecuteCodeFlow.loopStep piston language sourceCode l tc))
      as (rest & H1 & H2 & H3 & H4 & H5).
    destruct (loopStep_fields language sourceCode l tc) as (F1 & F2 & F3).
    rewrite F1 in H1. rewrite F2 in H3. rewrite F3 in H4, H5.
    eexists (_ :: rest). repeat split.
    + rewrite H1, <- app_assoc. reflexivity.
    + simpl. now rewrite H2.
    + rewrite H3.
      match goal with
      | |- _ = _ + ExecuteCodeFlow.countCorrect (?r :: rest) =>
          change (r :: rest) with ([r] ++ rest)
      end.
      rewrite countCorrect_app. lia.
    + rewrite H4, <- app_assoc. reflexivity.
    + intros [|i] tc' Hn; simpl in Hn.
      * inversion Hn; subst tc'. simpl. rewrite Nat.add_0_r. reflexivity.
      * simpl. rewrite (H5 i tc' Hn). rewrite length_app. simpl.
        replace (List.length (ExecuteCodeFlow.sent l) + 1 + i)%nat
          with (List.length (ExecuteCodeFlow.sent l) + S i)%nat by lia.
        reflexivity.
Qed.

Lemma failure_is_reported (o : ExecuteCodeFlow.FetchOutcome) (tc : TestCase) :
  is_failure o = true ->
  tr_isCorrect (fst (ExecuteCodeFlow.runTestCase o tc)) = false
  /\ exists e, tr_error (fst (ExecuteCodeFlow.runTestCase o tc)) = Some e
               /\ e <> "".
Proof.
  destruct o as [m|st body|out err]; simpl; intros H; try discriminate.
  - split; [reflexivity|]. destruct m as [|ch m'].
    + eexists; split; [reflexivity | discriminate].
    + eexists; split; [reflexivity | discriminate].
  - split; [reflexivity|]. eexists; split; [reflexivity | discriminate].
Qed.

(** C10: for every input and every behaviour of the execution service, the
    flow returns one result per test case, in the order of the test cases
    (each carrying its test case's input and expected output);
    [totalCases] is the number of test cases, [totalPassed] the number of
    results with [isCorrect]; and a test case whose request threw or was
    answered with a status that is not ok yields [isCorrect = false] and a
    non-empty [error]. *)
Theorem executeCode_is_well_formed (input : ExecuteCodeFlow.ExecuteCodeInput) :
  let out := ExecuteCodeFlow.executeCodeFlow piston input in
  let tcs := ExecuteCodeFlow.in_testCases input in
  List.length (ExecuteCodeFlow.out_results out) = List.length tcs
  /\ map tr_input (ExecuteCodeFlow.out_results out) = map tc_input tcs
  /\ map tr_expectedOutput (ExecuteCodeFlow.out_results out)
     = map tc_expectedOutput tcs
  /\ ExecuteCodeFlow.out_totalCases out = Z.of_nat (List.length tcs)
  /\ ExecuteCodeFlow.out_totalPassed out
     = ExecuteCodeFlow.countCorrect (ExecuteCodeFlow.out_results out)
  /\ forall i tc,
       nth_error tcs i = Some tc ->
       is_failure (piston i (requestFor input tc)) = true ->
       exists r e,
         nth_error (ExecuteCodeFlow.out_results out) i = Some r
         /\ tr_isCorrect r = false
         /\ tr_error r = Some e
         /\ e <> "".
Proof.
  unfold ExecuteCodeFlow.executeCodeFlow. cbv zeta.
  destruct (flow_loop
              (ExecuteCodeFlow.executionLanguage
                 (ExecuteCodeFlow.in_language input))
              (ExecuteCodeFlow.in_sourceCode input)
              (ExecuteCodeFlow.in_testCases input)
              (ExecuteCodeFlow.mkLoop [] 0 []))
    as (rest & H1 & H2 & H3 & _ & H5).
  simpl in *. rewrite H1, H3.
  repeat split; try reflexivity.
  - exact H2.
  - apply map_pointwise; [exact H2|]. intros i tc Hn.
    eexists. split; [apply (H5 i tc Hn)|]. apply runTestCase_counted.
  - apply map_pointwise; [exact H2|]. intros i tc Hn.
    eexists. split; [apply (H5 i tc Hn)|]. apply runTestCase_counted.
  - intros i tc Hn Hf.
    destruct (failure_is_reported _ tc Hf) as (Hc & e & He & Hne).
    exists (fst (ExecuteCodeFlow.runTestCase (piston i (requestFor input tc))
                   tc)), e.
    repeat split; try assumption.
    apply (H5 i tc Hn).
Qed.

End FlowFacts.

(** ** The coding submission loop *)

Section SubmissionFacts.

Variable executeCode :
  nat -> ExecuteCodeFlow.ExecuteCodeInput
  -> option ExecuteCodeFlow.ExecuteCodeOutput.

Lemma submitStep_fields (st : CodingExamInterface.State)
  (l : CodingExamInterface.Loop) (q : Question) :
  let l1 := CodingExamInterface.submitStep executeCode st l q in
  exists a,
    CodingExamInterface.finalAnswers l1
    = CodingExamInterface.finalAnswers l ++ [a]
    /\ CodingExamInterface.calls l1
       = CodingExamInterface.calls l ++ submitted_inputs st [q]
    /\ (CodingExamInterface.totalMarks l1
        == CodingExamInterface.totalMarks l + marks_or_zero a)%Q
    /\ scored_on_submit executeCode st q
         (List.length (CodingExamInterface.calls l)) a.
Proof.
  cbv zeta.
  unfold CodingExamInterface.submitStep, scored_on_submit, submitted_inputs.
  simpl flat_map. rewrite app_nil_r.
  destruct (JsMap.get (CodingExamInterface.answers st) (q_id q)) as [a0|];
    simpl.
  - destruct (sourceCode a0) as [[|ch src]|]; simpl.
    + eexists; repeat split; simpl; try reflexivity.
      * now rewrite app_nil_r.
      * unfold marks_or_zero, no_marks; simpl; ring.
    + destruct (executeCode _ _) as [r|]; simpl;
        eexists; repeat split; simpl; try reflexivity.
      unfold marks_or_zero, no_marks; simpl; ring.
    + eexists; repeat split; simpl; try reflexivity.
      * now rewrite app_nil_r.
      * unfold marks_or_zero, no_marks; simpl; ring.
  - eexists; repeat split; simpl; try reflexivity.
    + now rewrite app_nil_r.
    + unfold marks_or_zero, no_marks; simpl; ring.
Qed.

Lemma submitted_inputs_app (st : CodingExamInterface.State)
  (qs1 qs2 : list Question) :
  submitted_inputs st (qs1 ++ qs2)
  = submitted_inputs st qs1 ++ submitted_inputs st qs2.
Proof. unfold submitted_inputs. apply flat_map_app. Qed.

Lemma sum_marks_app (l1 l2 : list StudentAnswer) :
  (sum_marks (l1 ++ l2) == sum_marks l1 + sum_marks l2)%Q.
Proof.
  induction l1 as [|a l1 IH]; simpl.
  - unfold no_marks. ring.
  - rewrite IH. ring.
Qed.

(** The invariant of [for (const question of shuffledQuestions)]. *)
Lemma submit_loop (st : CodingExamInterface.State) (qs : list Question)
  (l : CodingExamInterface.Loop) :
  let l' := CodingExamInterface.submitLoop executeCode st qs l in
  exists rest,
    CodingExamInterface.finalAnswers l'
    = CodingExamInterface.finalAnswers l ++ rest
    /\ List.length rest = List.length qs
    /\ CodingExamInterface.calls l'
       = CodingExamInterface.calls l ++ submitted_inputs st qs
    /\ (CodingExamInterface.totalMarks l'
        == CodingExamInterface.totalMarks l + sum_marks rest)%Q
    /\ forall i q,
         nth_error qs i = Some q ->
         exists a,
           nth_error rest i = Some a
           /\ scored_on_submit executeCode st q
                (List.length (CodingExamInterface.calls l)
                 + List.length (submitted_inputs st (firstn i qs)))%nat a.
Proof.
  revert l. unfold CodingExamInterface.submitLoop.
  induction qs as [|q qs IH]; intros l; simpl fold_left.
  - exists []. rewrite !app_nil_r. repeat split; try reflexivity.
    + simpl. unfold no_marks. ring.
    + intros [|i] q H; discriminate H.
  - destruct (submitStep_fields st l q) as (a & F1 & F2 & F3 & F4).
    destruct (IH (CodingExamInterface.submitStep executeCode st l q))
      as (rest & H1 & H2 & H3 & H4 & H5).
    exists (a :: rest). repeat split.
    + rewrite H1, F1, <- app_assoc. reflexivity.
    + simpl. now rewrite H2.
    + rewrite H3, F2, <- app_assoc.
      change (q :: qs) with ([q] ++ qs).
      now rewrite submitted_inputs_app.
    + rewrite H4, F3. simpl. ring.
    + intros [|i] q' Hn; simpl in Hn.
      * inversion Hn; subst q'. exists a. split; [reflexivity|].
        simpl. now rewrite Nat.add_0_r.
      * destruct (H5 i q' Hn) as (a' & Ha & Hs).
        exists a'. split; [exact Ha|].
        rewrite F2, length_app in Hs.
        change (firstn (S i) (q :: qs)) with ([q] ++ firstn i qs).
        rewrite submitted_inputs_app, length_app.
        now rewrite Nat.add_assoc.
Qed.

Lemma failedResults_all_fail (q : Question) :
  List.length (CodingExamInterface.failedResults q)
  = List.length (match q_testCases q with Some l => l | None => [] end)
  /\ Forall (fun r => tr_isCorrect r = false
                      /\ tr_actualOutput r = "Execution Error on Submit"
                      /\ tr_error r = Some "Submission execution failed")
       (CodingExamInterface.failedResults q).
Proof.
  unfold CodingExamInterface.failedResults. split.
  - apply length_map.
  - apply Forall_forall. intros r Hr. apply in_map_iff in Hr.
    destruct Hr as (tc & <- & _). simpl. auto.
Qed.

Lemma marksForQuestion_formula (r : ExecuteCodeFlow.ExecuteCodeOutput) :
  (ExecuteCodeFlow.out_totalCases r <= 0 ->
   CodingExamInterface.marksForQuestion r = no_marks)
  /\ (0 < ExecuteCodeFlow.out_totalCases r ->
      (CodingExamInterface.marksForQuestion r
       == inject_Z 100
          * (inject_Z (ExecuteCodeFlow.out_totalPassed r)
             / inject_Z (ExecuteCodeFlow.out_totalCases r)))%Q).
Proof.
  unfold CodingExamInterface.marksForQuestion. split; intros H.
  - destruct (Z.gtb_spec (ExecuteCodeFlow.out_totalCases r) 0);
      [lia | reflexivity].
  - destruct (Z.gtb_spec (ExecuteCodeFlow.out_totalCases r) 0); [|lia].
    unfold full_marks. rewrite Qmult_comm. reflexivity.
Qed.

(** C3 (amended): the submission loop writes one final answer per question,
    in order, whatever [executeCode] does.  A question with a non-empty
    stored source is executed once, with that source and the question's test
    cases, and gets marks 100 * passed / total (0 without test cases); when
    that call rejects, the question gets marks 0 and one failing result per
    test case, marked as an execution error, and the loop goes on.  A
    question with no stored answer or an empty source is not executed and
    gets marks 0 and no results.  [totalMarks] is the sum of the marks. *)
Theorem coding_submission_scores_every_question
  (st : CodingExamInterface.State) (qs : list Question)
  (log : list ExecuteCodeFlow.ExecuteCodeInput) :
  let l :=
    CodingExamInterface.submitLoop executeCode st qs
      (CodingExamInterface.mkLoop [] no_marks log) in
  List.length (CodingExamInterface.finalAnswers l) = List.length qs
  /\ CodingExamInterface.calls l = log ++ submitted_inputs st qs
  /\ (CodingExamInterface.totalMarks l
      == sum_marks (CodingExamInterface.finalAnswers l))%Q
  /\ (forall i q,
        nth_error qs i = Some q ->
        exists a,
          nth_error (CodingExamInterface.finalAnswers l) i = Some a
          /\ scored_on_submit executeCode st q
               (List.length log
                + List.length (submitted_inputs st (firstn i qs)))%nat a)
  /\ (forall q,
        Forall (fun r => tr_isCorrect r = false
                         /\ tr_actualOutput r = "Execution Error on Submit"
                         /\ tr_error r = Some "Submission execution failed")
          (CodingExamInterface.failedResults q))
  /\ (forall r,
        (ExecuteCodeFlow.out_totalCases r <= 0 ->
         CodingExamInterface.marksForQuestion r = no_marks)
        /\ (0 < ExecuteCodeFlow.out_totalCases r ->
            (CodingExamInterface.marksForQuestion r
             == inject_Z 100
                * (inject_Z (ExecuteCodeFlow.out_totalPassed r)
                   / inject_Z (ExecuteCodeFlow.out_totalCases r)))%Q)).
Proof.
  cbv zeta.
  destruct (submit_loop st qs (CodingExamInterface.mkLoop [] no_marks log))
    as (rest & H1 & H2 & H3 & H4 & H5).
  simpl in H1, H3, H4, H5. rewrite H1.
  repeat split; try assumption.
  - rewrite H4. unfold no_marks. ring.
  - apply failedResults_all_fail.
  - apply marksForQuestion_formula.
  - apply marksForQuestion_formula.
Qed.

End SubmissionFacts.

(** C3, as stated, fails: a question whose stored source is empty is not
    executed at submission. *)
Lemma empty_source_is_not_executed :
  ~ (forall executeCode st qs,
        List.length
          (CodingExamInterface.calls
             (CodingExamInterface.submitLoop executeCode st qs
                (CodingExamInterface.mkLoop [] no_marks [])))
        = List.length qs).
Proof.
  intros H. specialize (H all_pass coding_session coding_questions).
  vm_compute in H. discriminate H.
Qed.

Lemma coding_submission_scores_every_question_witness :
  exists a,
    nth_error
      (CodingExamInterface.finalAnswers
         (CodingExamInterface.submitLoop second_call_fails coding_session
            coding_questions (CodingExamInterface.mkLoop [] no_marks [])))
      2 = Some a
    /\ marks a = Some no_marks
    /\ testResults a
       = Some (CodingExamInterface.failedResults
                 (mkQuestion "c3" "max" None None
                    (Some [mkTestCase (Some "t1") "1 2" "2"]))).
Proof.
  destruct (coding_submission_scores_every_question second_call_fails
              coding_session coding_questions [])
    as (_ & _ & _ & H & _).
  destruct (H 2%nat _ eq_refl) as (a & Ha & _ & Hs).
  exists a. vm_compute in Hs. destruct Hs as (Hm & Hr & _).
  split; [exact Ha | split; [exact Hm | exact Hr]].
Defined.

(** ** The in-flight flag *)

Section FlagFacts.

Variable executeCode :
  nat -> ExecuteCodeFlow.ExecuteCodeInput
  -> option ExecuteCodeFlow.ExecuteCodeOutput.

Lemma submit_while_submitting (examId : string)
  (c : ExamInterface.Component) (d : option AutoSubmitDetails) :
  ExamInterface.isSubmitting c = true ->
  ExamInterface.handleSubmitExam examId c d = c.
Proof.
  intros H. unfold ExamInterface.handleSubmitExam. rewrite H.
  destruct (ExamInterface.state c), (ExamInterface.user c),
    (ExamInterface.examData c); reflexivity.
Qed.

Lemma handleSubmitExam_keeps_guard (examId : string)
  (c : ExamInterface.Component) (d : option AutoSubmitDetails) :
  flag_guards_writes (ExamInterface.isSubmitting c) (@None unit)
    (ExamInterface.writes c) ->
  flag_guards_writes
    (ExamInterface.isSubmitting (ExamInterface.handleSubmitExam examId c d))
    (@None unit)
    (ExamInterface.writes (ExamInterface.handleSubmitExam examId c d)).
Proof.
  unfold ExamInterface.handleSubmitExam. intros H.
  destruct (ExamInterface.state c), (ExamInterface.user c),
    (ExamInterface.examData c); try exact H.
  destruct (ExamInterface.isSubmitting c) eqn:E; [rewrite E; exact H|].
  destruct H as (_ & H2 & H3).
  simpl. rewrite (H2 eq_refl). simpl.
  split; [|split]; [congruence | congruence | simpl; lia].
Qed.

Lemma submissions_keep_guard (examId : string)
  (ds : list (option AutoSubmitDetails)) (c : ExamInterface.Component) :
  flag_guards_writes (ExamInterface.isSubmitting c) (@None unit)
    (ExamInterface.writes c) ->
  let c' := fold_left (ExamInterface.handleSubmitExam examId) ds c in
  flag_guards_writes (ExamInterface.isSubmitting c') (@None unit)
    (ExamInterface.writes c').
Proof.
  revert c. induction ds as [|d ds IH]; intros c H; simpl; [exact H|].
  apply IH. now apply handleSubmitExam_keeps_guard.
Qed.

Lemma begin_while_submitting (c : CodingExamInterface.Component)
  (d : option AutoSubmitDetails) :
  CodingExamInterface.isSubmitting c = true ->
  CodingExamInterface.beginSubmit c d = c.
Proof.
  intros H. unfold CodingExamInterface.beginSubmit. rewrite H.
  destruct (CodingExamInterface.state c), (CodingExamInterface.user c),
    (CodingExamInterface.examData c); reflexivity.
Qed.

Lemma coding_submit_while_submitting (examId : string)
  (c : CodingExamInterface.Component) (d : option AutoSubmitDetails) :
  CodingExamInterface.isSubmitting c = true ->
  CodingExamInterface.handleSubmitExam executeCode examId c d = c.
Proof.
  intros H. unfold CodingExamInterface.handleSubmitExam. rewrite H.
  destruct (CodingExamInterface.state c), (CodingExamInterface.user c),
    (CodingExamInterface.examData c); reflexivity.
Qed.

Lemma step_keeps_guard (examId : string) (c : CodingExamInterface.Component)
  (e : CodingExamInterface.Event) :
  flag_guards_writes (CodingExamInterface.isSubmitting c)
    (CodingExamInterface.inFlight c) (CodingExamInterface.writes c) ->
  let c' := CodingExamInterface.step executeCode examId c e in
  flag_guards_writes (CodingExamInterface.isSubmitting c')
    (CodingExamInterface.inFlight c') (CodingExamInterface.writes c').
Proof.
  intros H. destruct e as [d| |a]; simpl.
  - unfold CodingExamInterface.beginSubmit.
    destruct (CodingExamInterface.state c), (CodingExamInterface.user c),
      (CodingExamInterface.examData c); try exact H.
    destruct (CodingExamInterface.isSubmitting c) eqn:E;
      [rewrite E; exact H|].
    destruct H as (H1 & H2 & H3). simpl.
    split; [|split]; auto; congruence.
  - unfold CodingExamInterface.settleSubmit.
    destruct (CodingExamInterface.inFlight c) as [p|] eqn:E;
      [|rewrite E; exact H].
    destruct H as (H1 & H2 & H3).
    destruct H1 as (Hf & Hw); [congruence|].
    simpl. rewrite Hw. simpl.
    split; [|split]; [congruence | congruence | simpl; lia].
  - exact H.
Qed.

Lemma run_keeps_guard (examId : string) (es : list CodingExamInterface.Event)
  (c : CodingExamInterface.Component) :
  flag_guards_writes (CodingExamInterface.isSubmitting c)
    (CodingExamInterface.inFlight c) (CodingExamInterface.writes c) ->
  let c' := CodingExamInterface.run executeCode examId c es in
  flag_guards_writes (CodingExamInterface.isSubmitting c')
    (CodingExamInterface.inFlight c') (CodingExamInterface.writes c').
Proof.
  unfold CodingExamInterface.run.
  revert c. induction es as [|e es IH]; intros c H; simpl; [exact H|].
  apply IH. now apply step_keeps_guard.
Qed.

(** C5: a call of [handleSubmitExam] made while [isSubmitting] is set
    returns at once and changes nothing, in both components; the coding
    handler sets the flag in its synchronous head, before any call of
    [executeCode] and before the write; and from a session that has not yet
    submitted, any run of submit calls (and, in the coding session, of calls
    settling and of reducer actions in between) issues at most one write.
    Each handler call here sees the flag as the calls before it left it. *)
Theorem at_most_one_submission (examId : string)
  (c : ExamInterface.Component) (ds : list (option AutoSubmitDetails))
  (k : CodingExamInterface.Component) (es : list CodingExamInterface.Event) :
  ExamInterface.isSubmitting c = false ->
  ExamInterface.writes c = [] ->
  CodingExamInterface.isSubmitting k = false ->
  CodingExamInterface.inFlight k = None ->
  CodingExamInterface.writes k = [] ->
  (List.length
     (ExamInterface.writes
        (fold_left (ExamInterface.handleSubmitExam examId) ds c)) <= 1)%nat
  /\ (List.length
        (CodingExamInterface.writes
           (CodingExamInterface.run executeCode examId k es)) <= 1)%nat
  /\ (forall c' d,
         ExamInterface.isSubmitting c' = true ->
         ExamInterface.handleSubmitExam examId c' d = c')
  /\ (forall k' d,
         CodingExamInterface.isSubmitting k' = true ->
         CodingExamInterface.beginSubmit k' d = k'
         /\ CodingExamInterface.handleSubmitExam executeCode examId k' d = k')
  /\ (forall d,
         CodingExamInterface.executed (CodingExamInterface.beginSubmit k d)
         = CodingExamInterface.executed k
         /\ CodingExamInterface.writes (CodingExamInterface.beginSubmit k d)
            = []
         /\ (CodingExamInterface.inFlight (CodingExamInterface.beginSubmit k d)
             <> None ->
             CodingExamInterface.isSubmitting
               (CodingExamInterface.beginSubmit k d) = true)).
Proof.
  intros Hc Hw Hk Hi Hkw.
  split; [|split; [|split; [|split]]].
  - apply (submissions_keep_guard examId ds c).
    unfold flag_guards_writes. rewrite Hw. simpl.
    repeat split; auto; congruence.
  - apply (run_keeps_guard examId es k).
    unfold flag_guards_writes. rewrite Hkw, Hi. simpl.
    repeat split; auto; congruence.
  - intros c' d. apply submit_while_submitting.
  - intros k' d H. split.
    + now apply begin_while_submitting.
    + now apply coding_submit_while_submitting.
  - intros d. unfold CodingExamInterface.beginSubmit. rewrite Hk.
    destruct (CodingExamInterface.state k), (CodingExamInterface.user k),
      (CodingExamInterface.examData k); simpl; rewrite ?Hkw, ?Hi;
      repeat split; congruence.
Qed.

End FlagFacts.

Lemma at_most_one_submission_witness :
  (List.length
     (ExamInterface.writes
        (fold_left (ExamInterface.handleSubmitExam "e1")
           [Some (mkDetails false 0); Some (mkDetails true 6)]
           mcq_component)) <= 1)%nat
  /\ (List.length
        (CodingExamInterface.writes
           (CodingExamInterface.run all_pass "e1" coding_component
              double_click)) <= 1)%nat.
Proof.
  destruct (at_most_one_submission all_pass "e1" mcq_component
              [Some (mkDetails false 0); Some (mkDetails true 6)]
              coding_component double_click
              eq_refl eq_refl eq_refl eq_refl eq_refl) as (H1 & H2 & _).
  split; [exact H1 | exact H2].
Defined.

(** ** The status of the written record *)

Section StatusFacts.

Variable executeCode :
  nat -> ExecuteCodeFlow.ExecuteCodeInput
  -> option ExecuteCodeFlow.ExecuteCodeOutput.

Lemma coding_handleSubmitExam_writes (examId : string)
  (c : CodingExamInterface.Component) (d : option AutoSubmitDetails)
  (st : CodingExamInterface.State) (uid : string) (exam : Exam) :
  CodingExamInterface.state c = Some st ->
  CodingExamInterface.user c = Some uid ->
  CodingExamInterface.examData c = Some exam ->
  CodingExamInterface.isSubmitting c = false ->
  CodingExamInterface.writes
    (CodingExamInterface.handleSubmitExam executeCode examId c d)
  = CodingExamInterface.writes c
    ++ [mkWrite (studentExamDocId uid examId)
          (CodingExamInterface.submissionPayload uid examId exam st
             (CodingExamInterface.shuffledQuestions c)
             (CodingExamInterface.submitLoop executeCode st
                (CodingExamInterface.shuffledQuestions c)
                (CodingExamInterface.mkLoop [] no_marks
                   (CodingExamInterface.executed c)))
             d)].
Proof.
  intros Hs Hu He Hf.
  unfold CodingExamInterface.handleSubmitExam,
    CodingExamInterface.beginSubmit, CodingExamInterface.settleSubmit.
  rewrite Hs, Hu, He, Hf. reflexivity.
Qed.

(** C9: a record written through [handleAutoSubmit] has status
    ['suspicious'], whatever the exam type, and carries
    [autoSubmitted = true] and the stored exit count; a record written by
    the confirm button has status ['graded'] in the coding interface and, in
    the interface [ExamPageClient] chooses for the other exam types,
    ['graded'] for an mcq exam and ['completed'] for a long-answer exam. *)
Theorem status_follows_the_path (examId : string) (item : option Z)
  (count : Z)
  (c : ExamInterface.Component) (st : ExamInterface.State) (uid : string)
  (exam : Exam)
  (k : CodingExamInterface.Component) (kst : CodingExamInterface.State)
  (kuid : string) (kexam : Exam) :
  ExamInterface.state c = Some st ->
  ExamInterface.user c = Some uid ->
  ExamInterface.examData c = Some exam ->
  ExamInterface.isSubmitting c = false ->
  ExamPageClient (Some (exam_examType exam)) = UseExamInterface ->
  CodingExamInterface.state k = Some kst ->
  CodingExamInterface.user k = Some kuid ->
  CodingExamInterface.examData k = Some kexam ->
  CodingExamInterface.isSubmitting k = false ->
  (exists w,
      ExamInterface.writes (ExamInterface.handleAutoSubmit examId item c)
      = ExamInterface.writes c ++ [w]
      /\ se_status (w_payload w) = suspicious
      /\ se_autoSubmitted (w_payload w) = Some true
      /\ se_exitCount (w_payload w) = Some (storedExitCount item))
  /\ (exists w,
         ExamInterface.writes (ExamInterface.confirmSubmit examId count c)
         = ExamInterface.writes c ++ [w]
         /\ ((exam_examType exam = exam_mcq
              /\ se_status (w_payload w) = graded)
             \/ (exam_examType exam = exam_long_answer
                 /\ se_status (w_payload w) = completed)))
  /\ (exists w,
         CodingExamInterface.writes
           (CodingExamInterface.handleAutoSubmit executeCode examId item k)
         = CodingExamInterface.writes k ++ [w]
         /\ se_status (w_payload w) = suspicious
         /\ se_autoSubmitted (w_payload w) = Some true
         /\ se_exitCount (w_payload w) = Some (storedExitCount item))
  /\ (exists w,
         CodingExamInterface.writes
           (CodingExamInterface.confirmSubmit executeCode examId k)
         = CodingExamInterface.writes k ++ [w]
         /\ se_status (w_payload w) = graded
         /\ se_autoSubmitted (w_payload w) = None).
Proof.
  intros Hs Hu He Hf Hroute Hks Hku Hke Hkf.
  split; [|split; [|split]].
  - eexists. split.
    + apply (handleSubmitExam_writes examId c _ st uid exam Hs Hu He Hf).
    + simpl.
      destruct (buildSubmission_status uid examId exam st
                  (Some (mkDetails true (storedExitCount item))))
        as (H1 & H2 & H3).
      rewrite H1, H2, H3. simpl. auto.
  - eexists. split.
    + apply (handleSubmitExam_writes examId c _ st uid exam Hs Hu He Hf).
    + simpl.
      destruct (buildSubmission_status uid examId exam st
                  (Some (mkDetails false count))) as (H1 & _).
      rewrite H1. simpl.
      destruct (exam_examType exam); simpl in *;
        [left | discriminate Hroute | right]; auto.
  - eexists. split.
    + apply (coding_handleSubmitExam_writes examId k _ kst kuid kexam
               Hks Hku Hke Hkf).
    + simpl. auto.
  - eexists. split.
    + apply (coding_handleSubmitExam_writes examId k _ kst kuid kexam
               Hks Hku Hke Hkf).
    + simpl. auto.
Qed.

End StatusFacts.

Lemma status_follows_the_path_witness :
  (exists w,
      ExamInterface.writes
        (ExamInterface.handleAutoSubmit "e1" (Some 6) mcq_component) = [w]
      /\ se_status (w_payload w) = suspicious)
  /\ (exists w,
         CodingExamInterface.writes
           (CodingExamInterface.confirmSubmit all_pass "e1" coding_component)
         = [w]
         /\ se_status (w_payload w) = graded).
Proof.
  destruct (status_follows_the_path all_pass "e1" (Some 6) 0
              mcq_component mcq_session "u1" mcq_exam
              coding_component coding_session "u1" coding_exam
              eq_refl eq_refl eq_refl eq_refl eq_refl
              eq_refl eq_refl eq_refl eq_refl)
    as ((w1 & Hw1 & Hs1 & _) & _ & _ & (w4 & Hw4 & Hs4 & _)).
  split.
  - exists w1. split; [exact Hw1 | exact Hs1].
  - exists w4. split; [exact Hw4 | exact Hs4].
Defined.

(** * Further properties of the session code *)

(** ** The clock *)

Lemma tick_once (s : ExamInterface.State) :
  let s' := ExamInterface.examReducer s ExamInterface.TICK_TIMER in
  ExamInterface.timeLeft s' = Z.max 0 (ExamInterface.timeLeft s - 1)
  /\ ExamInterface.examFinished s'
     = ExamInterface.examFinished s || (ExamInterface.timeLeft s <=? 1)
  /\ ExamInterface.answers s' = ExamInterface.answers s
  /\ ExamInterface.statuses s' = ExamInterface.statuses s
  /\ ExamInterface.currentQuestionIndex s'
     = ExamInterface.currentQuestionIndex s
  /\ ExamInterface.examStarted s' = ExamInterface.examStarted s.
Proof.
  simpl. destruct (Z.leb_spec (ExamInterface.timeLeft s) 1); simpl.
  - repeat split; try reflexivity; try lia;
      try (now rewrite orb_true_r).
  - repeat split; try reflexivity; try lia;
      try (now rewrite orb_false_r).
Qed.

Lemma coding_tick_once (s : CodingExamInterface.State) :
  let s' := CodingExamInterface.examReducer s CodingExamInterface.TICK_TIMER in
  CodingExamInterface.timeLeft s'
  = Z.max 0 (CodingExamInterface.timeLeft s - 1)
  /\ CodingExamInterface.examFinished s'
     = CodingExamInterface.examFinished s
       || (CodingExamInterface.timeLeft s <=? 1)
  /\ CodingExamInterface.answers s' = CodingExamInterface.answers s
  /\ CodingExamInterface.language s' = CodingExamInterface.language s.
Proof.
  simpl. destruct (Z.leb_spec (CodingExamInterface.timeLeft s) 1); simpl.
  - repeat split; try reflexivity; try lia;
      try (now rewrite orb_true_r).
  - repeat split; try reflexivity; try lia;
      try (now rewrite orb_false_r).
Qed.

(** After [n > 0] ticks the clock of either session shows
    [max(0, timeLeft - n)], never a negative time, and the session is
    finished exactly if it was finished before or [timeLeft <= n]; the
    answers are untouched. *)
Theorem clock_counts_down (n : nat) (s : ExamInterface.State)
  (c : CodingExamInterface.State) :
  let s' := ExamInterface.dispatchAll s (ticks (S n)) in
  let c' := CodingExamInterface.dispatchAll c (coding_ticks (S n)) in
  ExamInterface.timeLeft s'
  = Z.max 0 (ExamInterface.timeLeft s - Z.of_nat (S n))
  /\ ExamInterface.examFinished s'
     = ExamInterface.examFinished s
       || (ExamInterface.timeLeft s <=? Z.of_nat (S n))
  /\ ExamInterface.answers s' = ExamInterface.answers s
  /\ ExamInterface.statuses s' = ExamInterface.statuses s
  /\ CodingExamInterface.timeLeft c'
     = Z.max 0 (CodingExamInterface.timeLeft c - Z.of_nat (S n))
  /\ CodingExamInterface.examFinished c'
     = CodingExamInterface.examFinished c
       || (CodingExamInterface.timeLeft c <=? Z.of_nat (S n))
  /\ CodingExamInterface.answers c' = CodingExamInterface.answers c.
Proof.
  cbv zeta. unfold ExamInterface.dispatchAll, CodingExamInterface.dispatchAll,
    ticks, coding_ticks.
  assert (A : forall n s,
             let s' := fold_left ExamInterface.examReducer
                         (repeat ExamInterface.TICK_TIMER (S n)) s in
             ExamInterface.timeLeft s'
             = Z.max 0 (ExamInterface.timeLeft s - Z.of_nat (S n))
             /\ ExamInterface.examFinished s'
                = ExamInterface.examFinished s
                  || (ExamInterface.timeLeft s <=? Z.of_nat (S n))
             /\ ExamInterface.answers s' = ExamInterface.answers s
             /\ ExamInterface.statuses s' = ExamInterface.statuses s).
  { clear. induction n as [|n IH]; intros s.
    - destruct (tick_once s) as (H1 & H2 & H3 & H4 & _).
      cbn [repeat fold_left]. cbv zeta. repeat split; assumption.
    - destruct (tick_once s) as (H1 & H2 & H3 & H4 & _).
      destruct (IH (ExamInterface.examReducer s ExamInterface.TICK_TIMER))
        as (I1 & I2 & I3 & I4).
      change (repeat ExamInterface.TICK_TIMER (S (S n)))
        with (ExamInterface.TICK_TIMER
              :: repeat ExamInterface.TICK_TIMER (S n)).
      cbn [fold_left]. cbv zeta. rewrite I1, I2, I3, I4, H1, H2, H3, H4.
      repeat split; try lia.
      rewrite <- orb_assoc. f_equal.
      destruct (Z.leb_spec (ExamInterface.timeLeft s) 1),
        (Z.leb_spec (Z.max 0 (ExamInterface.timeLeft s - 1))
           (Z.of_nat (S n))),
        (Z.leb_spec (ExamInterface.timeLeft s) (Z.of_nat (S (S n))));
        simpl; try reflexivity; lia. }
  assert (B : forall n c,
             let c' := fold_left CodingExamInterface.examReducer
                         (repeat CodingExamInterface.TICK_TIMER (S n)) c in
             CodingExamInterface.timeLeft c'
             = Z.max 0 (CodingExamInterface.timeLeft c - Z.of_nat (S n))
             /\ CodingExamInterface.examFinished c'
                = CodingExamInterface.examFinished c
                  || (CodingExamInterface.timeLeft c <=? Z.of_nat (S n))
             /\ CodingExamInterface.answers c'
                = CodingExamInterface.answers c).
  { clear. induction n as [|n IH]; intros c.
    - destruct (coding_tick_once c) as (H1 & H2 & H3 & _).
      cbn [repeat fold_left]. cbv zeta. repeat split; assumption.
    - destruct (coding_tick_once c) as (H1 & H2 & H3 & _).
      destruct (IH (CodingExamInterface.examReducer c
                      CodingExamInterface.TICK_TIMER)) as (I1 & I2 & I3).
      change (repeat CodingExamInterface.TICK_TIMER (S (S n)))
        with (CodingExamInterface.TICK_TIMER
              :: repeat CodingExamInterface.TICK_TIMER (S n)).
      cbn [fold_left]. cbv zeta. rewrite I1, I2, I3, H1, H2, H3.
      repeat split; try lia.
      rewrite <- orb_assoc. f_equal.
      destruct (Z.leb_spec (CodingExamInterface.timeLeft c) 1),
        (Z.leb_spec (Z.max 0 (CodingExamInterface.timeLeft c - 1))
           (Z.of_nat (S n))),
        (Z.leb_spec (CodingExamInterface.timeLeft c) (Z.of_nat (S (S n))));
        simpl; try reflexivity; lia. }
  destruct (A n s) as (A1 & A2 & A3 & A4).
  destruct (B n c) as (B1 & B2 & B3).
  repeat split; assumption.
Qed.

(** The clock running out submits nothing: a tick that brings the clock to
    zero sets [examFinished] in the same transition, so the effect that
    submits when [timeLeft] is zero and the session is not finished does not
    fire after any tick, in either component. *)
Theorem time_up_effect_is_idle_after_a_tick
  (executeCode : nat -> ExecuteCodeFlow.ExecuteCodeInput
                 -> option ExecuteCodeFlow.ExecuteCodeOutput)
  (examId : string) (item : option Z)
  (c : ExamInterface.Component) (k : CodingExamInterface.Component) :
  let c' := ExamInterface.dispatch c ExamInterface.TICK_TIMER in
  let k' :=
    CodingExamInterface.step executeCode examId k
      (CodingExamInterface.Dispatch CodingExamInterface.TICK_TIMER) in
  ExamInterface.timeUpEffect examId item c' = c'
  /\ ExamInterface.writes c' = ExamInterface.writes c
  /\ CodingExamInterface.timeUpEffect executeCode examId item k' = k'
  /\ CodingExamInterface.writes k' = CodingExamInterface.writes k.
Proof.
  cbv zeta. repeat split.
  - unfold ExamInterface.timeUpEffect, ExamInterface.dispatch. simpl.
    destruct (ExamInterface.state c) as [st|]; simpl; [|reflexivity].
    destruct (Z.leb_spec (ExamInterface.timeLeft st) 1); simpl.
    + reflexivity.
    + destruct (Z.leb_spec (ExamInterface.timeLeft st - 1) 0);
        [lia | reflexivity].
  - unfold CodingExamInterface.timeUpEffect. simpl.
    destruct (CodingExamInterface.state k) as [st|]; simpl; [|reflexivity].
    destruct (Z.leb_spec (CodingExamInterface.timeLeft st) 1); simpl.
    + now rewrite andb_false_r.
    + destruct (Z.eqb_spec (CodingExamInterface.timeLeft st - 1) 0);
        [lia | reflexivity].
Qed.

(** ** The statuses of a session *)

Lemma get_none_not_in {V : Type} (m : JsMap.t V) (k : string) :
  JsMap.get m k = None <-> ~ In k (JsMap.keys m).
Proof.
  rewrite <- get_in_keys. destruct (JsMap.get m k); split; intros H;
    try congruence; try tauto.
  exfalso. apply H. discriminate.
Qed.

Lemma set_absent {V : Type} (m : JsMap.t V) (k : string) (v : V) :
  JsMap.get m k = None -> JsMap.set m k v = m ++ [(k, v)].
Proof.
  induction m as [|[k0 v0] m IH]; simpl; intros H; [reflexivity|].
  destruct (String.eqb k0 k); [discriminate|]. now rewrite IH.
Qed.

Lemma of_entries_fold {V : Type} (l : list (string * V)) (acc : JsMap.t V) :
  NoDup (JsMap.keys acc ++ map fst l) ->
  fold_left (fun m e => JsMap.set m (fst e) (snd e)) l acc = acc ++ l.
Proof.
  revert acc. induction l as [|[k v] l IH]; intros acc H; simpl.
  - now rewrite app_nil_r.
  - assert (Hk : JsMap.get acc k = None).
    { apply get_none_not_in. simpl in H.
      apply NoDup_remove_2 in H. intros Hin. apply H.
      apply in_or_app. now left. }
    rewrite (set_absent acc k v Hk). rewrite IH.
    + now rewrite <- app_assoc.
    + unfold JsMap.keys in *. rewrite map_app. simpl.
      rewrite <- app_assoc. exact H.
Qed.

(** With question ids that are pairwise distinct, the initial session has
    one status per question, in the order of the questions and all
    ['not-visited'], so that the palette has [totalQuestions] buttons; and
    START_EXAM turns exactly the first of them into ['not-answered']. *)
Theorem exam_starts_on_the_first_question (duration : Z)
  (qs : list Question) :
  NoDup (map q_id qs) ->
  let s0 := ExamInterface.initialState duration qs in
  let s1 := ExamInterface.examReducer s0 ExamInterface.START_EXAM in
  ExamInterface.statuses s0 = map (fun q => (q_id q, not_visited)) qs
  /\ Z.of_nat (JsMap.size (ExamInterface.statuses s0))
     = ExamInterface.totalQuestions s0
  /\ ExamInterface.examStarted s1 = true
  /\ ExamInterface.statuses s1
     = match qs with
       | [] => []
       | q :: rest =>
           (q_id q, not_answered)
           :: map (fun q' => (q_id q', not_visited)) rest
       end.
Proof.
  intros Hnd. cbv zeta.
  assert (Hs : ExamInterface.statuses (ExamInterface.initialState duration qs)
               = map (fun q => (q_id q, not_visited)) qs).
  { unfold ExamInterface.initialState, JsMap.of_entries. simpl.
    rewrite of_entries_fold; [reflexivity|].
    simpl. rewrite map_map. simpl. exact Hnd. }
  split; [exact Hs|]. split; [|split].
  - rewrite Hs. unfold JsMap.size. rewrite length_map. reflexivity.
  - simpl. now destruct (JsMap.size _ =? 0)%nat.
  - unfold ExamInterface.examReducer. rewrite Hs.
    destruct qs as [|q rest]; [reflexivity|].
    simpl. rewrite String.eqb_refl. reflexivity.
Qed.

Lemma exam_starts_on_the_first_question_witness :
  ExamInterface.statuses started_example
  = [("q1", not_answered); ("q2", not_visited); ("q3", not_visited)].
Proof.
  assert (Hnd : NoDup (map q_id three_questions)).
  { simpl. repeat constructor; simpl; intuition discriminate. }
  destruct (exam_starts_on_the_first_question 30 three_questions Hnd)
    as (_ & _ & _ & H).
  exact H.
Defined.

Lemma get_visit_cases (sts : JsMap.t QuestionStatus) (target : option string)
  (q : string) :
  JsMap.get (ExamInterface.visit sts target) q = JsMap.get sts q
  \/ (JsMap.get sts q = Some not_visited
      /\ JsMap.get (ExamInterface.visit sts target) q = Some not_answered).
Proof.
  unfold ExamInterface.visit. destruct target as [k|]; [|now left].
  destruct (JsMap.get sts k) as [[]|] eqn:E; try now left.
  destruct (String.eqb k q) eqn:Ek.
  - apply String.eqb_eq in Ek. subst k. right. split; [exact E|].
    apply get_set_same.
  - apply String.eqb_neq in Ek. left. now apply get_set_other.
Qed.

Lemma visit_keeps_match (s : ExamInterface.State) (target : option string)
  (q : string) :
  statuses_match_answers s ->
  (JsMap.get (ExamInterface.visit (ExamInterface.statuses s) target) q
   = Some answered ->
   ExamInterface.not_nullish (JsMap.get (ExamInterface.answers s) q) = true)
  /\ (ExamInterface.not_nullish (JsMap.get (ExamInterface.answers s) q) = true ->
      JsMap.get (ExamInterface.visit (ExamInterface.statuses s) target) q
      = Some answered
      \/ JsMap.get (ExamInterface.visit (ExamInterface.statuses s) target) q
         = Some marked_for_review).
Proof.
  intros H. destruct (H q) as (H1 & H2).
  destruct (get_visit_cases (ExamInterface.statuses s) target q)
    as [E | (E1 & E2)].
  - rewrite E. split; assumption.
  - rewrite E2. split; [discriminate|].
    intros Hn. destruct (H2 Hn); congruence.
Qed.

Lemma reducer_keeps_match (s : ExamInterface.State)
  (a : ExamInterface.Action) :
  is_initialize a = false ->
  statuses_match_answers s ->
  statuses_match_answers (ExamInterface.examReducer s a).
Proof.
  intros Ha H q.
  destruct a; simpl in Ha; try discriminate; simpl.
  - destruct (JsMap.size (ExamInterface.statuses s) =? 0)%nat; simpl;
      [apply H | now apply visit_keeps_match].
  - now apply visit_keeps_match.
  - apply H.
  - now apply visit_keeps_match.
  - destruct (H q) as (H1 & H2).
    destruct (String.eqb (ExamInterface.payload_questionId payload) q) eqn:E.
    + apply String.eqb_eq in E. subst q.
      assert (Hv : ExamInterface.not_nullish
                     (JsMap.get
                        (match payload with
                         | ExamInterface.mcq q optionIndex =>
                             JsMap.set (ExamInterface.answers s) q
                               (ExamInterface.Num optionIndex)
                         | ExamInterface.long_answer q textAnswer =>
                             JsMap.set (ExamInterface.answers s) q
                               (ExamInterface.Text textAnswer)
                         end) (ExamInterface.payload_questionId payload))
                   = true).
      { destruct payload; simpl; now rewrite get_set_same. }
      rewrite Hv. split; [reflexivity|]. intros _.
      destruct (ExamInterface.is_marked _) eqn:Em.
      * right. unfold ExamInterface.is_marked in Em.
        destruct (JsMap.get (ExamInterface.statuses s)
                    (ExamInterface.payload_questionId payload))
          as [[]|]; try discriminate. reflexivity.
      * left. apply get_set_same.
    + apply String.eqb_neq in E.
      assert (Hv : JsMap.get
                     (match payload with
                      | ExamInterface.mcq q optionIndex =>
                          JsMap.set (ExamInterface.answers s) q
                            (ExamInterface.Num optionIndex)
                      | ExamInterface.long_answer q textAnswer =>
                          JsMap.set (ExamInterface.answers s) q
                            (ExamInterface.Text textAnswer)
                      end) q
                   = JsMap.get (ExamInterface.answers s) q).
      { destruct payload; simpl in *; now apply get_set_other. }
      rewrite Hv.
      destruct (ExamInterface.is_marked _); [split; assumption|].
      rewrite get_set_other by exact E. split; assumption.
  - destruct (H q) as (H1 & H2).
    destruct (String.eqb payload q) eqn:E.
    + apply String.eqb_eq in E. subst q. rewrite get_set_same. simpl.
      split; [|discriminate].
      destruct (ExamInterface.is_marked _) eqn:Em.
      * unfold ExamInterface.is_marked in Em.
        destruct (JsMap.get (ExamInterface.statuses s) payload) as [[]|];
          discriminate.
      * rewrite get_set_same. discriminate.
    + apply String.eqb_neq in E. rewrite get_set_other by exact E.
      destruct (ExamInterface.is_marked _); [split; assumption|].
      rewrite get_set_other by exact E. split; assumption.
  - destruct (H q) as (H1 & H2).
    destruct (String.eqb payload q) eqn:E.
    + apply String.eqb_eq in E. subst q.
      destruct (ExamInterface.is_marked _); rewrite get_set_same.
      * destruct (ExamInterface.not_nullish _); split; intros; auto;
          discriminate.
      * split; [discriminate | auto].
    + apply String.eqb_neq in E.
      destruct (ExamInterface.is_marked _);
        rewrite get_set_other by exact E; split; assumption.
  - destruct (ExamInterface.timeLeft s <=? 1); apply H.
  - apply H.
Qed.

(** From the initial session, whatever actions are dispatched short of a
    reset, a question shown as ['answered'] has a stored answer that is
    neither missing nor [null], and a question with such a stored answer is
    shown as ['answered'] or ['marked-for-review']. *)
Theorem answered_means_stored (duration : Z) (qs : list Question)
  (actions : list ExamInterface.Action) :
  Forall (fun a => is_initialize a = false) actions ->
  statuses_match_answers
    (ExamInterface.dispatchAll (ExamInterface.initialState duration qs)
       actions).
Proof.
  intros Hf. unfold ExamInterface.dispatchAll.
  assert (H0 : statuses_match_answers
                 (ExamInterface.initialState duration qs)).
  { intros q. simpl. split; [|discriminate].
    unfold ExamInterface.initialState. simpl.
    assert (G : forall (l : list (string * QuestionStatus)) acc,
               Forall (fun e => snd e <> answered) l ->
               Forall (fun e => snd e <> answered) acc ->
               JsMap.get
                 (fold_left (fun m e => JsMap.set m (fst e) (snd e)) l acc) q
               <> Some answered).
    { clear. induction l as [|[k v] l IH]; intros acc Hl Hacc; simpl.
      - induction acc as [|[k0 v0] acc IHa]; simpl; [discriminate|].
        inversion Hacc; subst. destruct (String.eqb k0 q);
          [simpl in *; congruence | now apply IHa].
      - inversion Hl; subst. apply IH; [assumption|].
        clear IH Hl. induction acc as [|[k0 v0] acc IHa]; simpl.
        + constructor; [assumption | constructor].
        + inversion Hacc; subst. destruct (String.eqb k0 k).
          * constructor; assumption.
          * constructor; [assumption | now apply IHa]. }
    intros Hq. exfalso. unfold JsMap.of_entries in Hq.
    eapply G; [| | exact Hq].
    - apply Forall_forall. intros e He. apply in_map_iff in He.
      destruct He as (x & <- & _). discriminate.
    - constructor. }
  revert H0. generalize (ExamInterface.initialState duration qs).
  induction Hf as [|a actions Ha Hf IH]; intros s Hs; simpl; [exact Hs|].
  apply IH. now apply reducer_keeps_match.
Qed.

Lemma answered_means_stored_witness :
  statuses_match_answers marked_example.
Proof.
  apply (answered_means_stored 30 three_questions
           [ExamInterface.START_EXAM;
            ExamInterface.ANSWER (ExamInterface.mcq "q1" 1);
            ExamInterface.TOGGLE_MARK_FOR_REVIEW "q1"]).
  repeat constructor.
Defined.

Lemma reducer_keeps_keys (s : ExamInterface.State)
  (a : ExamInterface.Action) :
  names_known_question s a ->
  JsMap.keys (ExamInterface.statuses (ExamInterface.examReducer s a))
  = JsMap.keys (ExamInterface.statuses s)
  /\ ExamInterface.totalQuestions (ExamInterface.examReducer s a)
     = ExamInterface.totalQuestions s.
Proof.
  intros (Hi & Hq).
  destruct a; simpl in Hi, Hq; try discriminate; simpl;
    try (split; reflexivity).
  - destruct (JsMap.size (ExamInterface.statuses s) =? 0)%nat; simpl;
      split; try reflexivity. apply keys_visit.
  - split; [apply keys_visit | reflexivity].
  - split; [apply keys_visit | reflexivity].
  - split; [|reflexivity].
    destruct (ExamInterface.is_marked _); [reflexivity|].
    apply keys_set_present. now apply get_in_keys.
  - split; [|reflexivity].
    destruct (ExamInterface.is_marked _); [reflexivity|].
    apply keys_set_present. now apply get_in_keys.
  - split; [|reflexivity].
    destruct (ExamInterface.is_marked _);
      apply keys_set_present; now apply get_in_keys.
  - destruct (ExamInterface.timeLeft s <=? 1); split; reflexivity.
Qed.

(** The palette is stable: while the actions dispatched name questions of
    the session (and none resets it), the statuses keep the same keys in the
    same order, so every palette button keeps its question, and
    [totalQuestions] does not change. *)
Theorem palette_is_stable (s : ExamInterface.State)
  (actions : list ExamInterface.Action) :
  Forall (names_known_question s) actions ->
  let s' := ExamInterface.dispatchAll s actions in
  JsMap.keys (ExamInterface.statuses s') = JsMap.keys (ExamInterface.statuses s)
  /\ ExamInterface.totalQuestions s' = ExamInterface.totalQuestions s.
Proof.
  unfold ExamInterface.dispatchAll. cbv zeta.
  revert s. induction actions as [|a actions IH]; intros s Hf; simpl.
  - split; reflexivity.
  - inversion Hf as [|a' l' Ha Hrest]; subst.
    destruct (reducer_keeps_keys s a Ha) as (K & T).
    destruct (IH (ExamInterface.examReducer s a)) as (K' & T').
    + apply Forall_forall. intros b Hb.
      rewrite Forall_forall in Hrest. destruct (Hrest b Hb) as (Hi & Hq).
      split; [exact Hi|]. rewrite K. exact Hq.
    + rewrite K', T'. split; assumption.
Qed.

Lemma palette_is_stable_witness :
  JsMap.keys (ExamInterface.statuses marked_example) = ["q1"; "q2"; "q3"].
Proof.
  assert (H : Forall (names_known_question started_example)
                [ExamInterface.ANSWER (ExamInterface.mcq "q1" 1);
                 ExamInterface.TOGGLE_MARK_FOR_REVIEW "q1"]).
  { repeat constructor; simpl; auto. }
  destruct (palette_is_stable started_example _ H) as (K & _).
  exact K.
Defined.

(** Toggling the review mark twice does not restore the status in general:
    a marked question is marked again, but any other question ends as
    ['answered'] or ['not-answered'] according to its stored answer, so a
    ['not-visited'] question becomes ['not-answered'].  The answers are
    untouched. *)
Theorem double_toggle_normalises (s : ExamInterface.State) (q : string) :
  let s2 :=
    ExamInterface.examReducer
      (ExamInterface.examReducer s (ExamInterface.TOGGLE_MARK_FOR_REVIEW q))
      (ExamInterface.TOGGLE_MARK_FOR_REVIEW q) in
  JsMap.get (ExamInterface.statuses s2) q
  = Some (if ExamInterface.is_marked (JsMap.get (ExamInterface.statuses s) q)
          then marked_for_review
          else if ExamInterface.not_nullish
                    (JsMap.get (ExamInterface.answers s) q)
               then answered else not_answered)
  /\ ExamInterface.answers s2 = ExamInterface.answers s.
Proof.
  simpl. split; [|reflexivity].
  destruct (ExamInterface.is_marked (JsMap.get (ExamInterface.statuses s) q))
    eqn:E; rewrite !get_set_same.
  - destruct (ExamInterface.not_nullish _); simpl; now rewrite get_set_same.
  - simpl. now rewrite get_set_same.
Qed.

(** Navigation at the ends and back: in a session whose index is in range,
    NEXT_QUESTION on the last question and PREV_QUESTION on the first leave
    the index where it is (PREV_QUESTION then returns the state unchanged),
    and a step forward followed by a step back, or back and forward, returns
    to the same index whenever the first step moved. *)
Theorem navigation_round_trips (s : ExamInterface.State) :
  ExamInterface.index_in_range s ->
  let next := fun x => ExamInterface.examReducer x ExamInterface.NEXT_QUESTION in
  let prev := fun x => ExamInterface.examReducer x ExamInterface.PREV_QUESTION in
  let i := ExamInterface.currentQuestionIndex s in
  (i = ExamInterface.totalQuestions s - 1 ->
   ExamInterface.currentQuestionIndex (next s) = i)
  /\ (i = 0 -> prev s = s)
  /\ (i < ExamInterface.totalQuestions s - 1 ->
      ExamInterface.currentQuestionIndex (prev (next s)) = i)
  /\ (0 < i -> ExamInterface.currentQuestionIndex (next (prev s)) = i).
Proof.
  unfold ExamInterface.index_in_range. intros H. cbv zeta.
  repeat split; intros Hi; simpl; try lia.
  destruct s as [i an st tl es ef tq]. simpl in *. subst i. reflexivity.
Qed.

Lemma navigation_round_trips_witness :
  ExamInterface.currentQuestionIndex
    (ExamInterface.examReducer
       (ExamInterface.examReducer started_example
          ExamInterface.NEXT_QUESTION)
       ExamInterface.PREV_QUESTION) = 0
  /\ ExamInterface.examReducer started_example ExamInterface.PREV_QUESTION
     = started_example.
Proof.
  assert (R : ExamInterface.index_in_range started_example).
  { unfold ExamInterface.index_in_range; simpl; lia. }
  destruct (navigation_round_trips started_example R) as (_ & H2 & H3 & _).
  split; [apply H3; simpl; lia | apply H2; reflexivity].
Defined.

(** JUMP_TO_QUESTION with an index outside the palette changes no status
    and still stores the index. *)
Theorem jump_outside_the_palette (s : ExamInterface.State) (i : Z) :
  i < 0 \/ Z.of_nat (JsMap.size (ExamInterface.statuses s)) <= i ->
  let s' := ExamInterface.examReducer s (ExamInterface.JUMP_TO_QUESTION i) in
  ExamInterface.statuses s' = ExamInterface.statuses s
  /\ ExamInterface.currentQuestionIndex s' = i.
Proof.
  intros H. simpl. split; [|reflexivity].
  assert (E : js_index (JsMap.keys (ExamInterface.statuses s)) i = None).
  { unfold js_index. destruct (Z.ltb_spec i 0); [reflexivity|].
    apply nth_error_None. unfold JsMap.keys, JsMap.size in *.
    rewrite length_map. lia. }
  now rewrite E.
Qed.

Lemma jump_outside_the_palette_witness :
  ExamInterface.statuses
    (ExamInterface.examReducer started_example
       (ExamInterface.JUMP_TO_QUESTION 7))
  = ExamInterface.statuses started_example.
Proof.
  apply (jump_outside_the_palette started_example 7).
  right. simpl. lia.
Defined.

(** ** The proctoring hook *)

Lemma onEvent_cases (h : FullscreenEnforcement.Hook)
  (e : FullscreenEnforcement.BrowserEvent) :
  let h' := fst (FullscreenEnforcement.onEvent h e) in
  let out := snd (FullscreenEnforcement.onEvent h e) in
  (FullscreenEnforcement.isFullscreen h', FullscreenEnforcement.isPageVisible h')
  = browserAfter (FullscreenEnforcement.isFullscreen h)
      (FullscreenEnforcement.isPageVisible h) e
  /\ ((FullscreenEnforcement.isSecure h' = true
       /\ FullscreenEnforcement.exitCount h' = FullscreenEnforcement.exitCount h
       /\ FullscreenEnforcement.stored h' = FullscreenEnforcement.stored h
       /\ FullscreenEnforcement.warningIssued h' = false
       /\ out = [])
      \/ (FullscreenEnforcement.isSecure h' = false
          /\ FullscreenEnforcement.warningIssued h = true
          /\ FullscreenEnforcement.exitCount h'
             = FullscreenEnforcement.exitCount h
          /\ FullscreenEnforcement.stored h' = FullscreenEnforcement.stored h
          /\ FullscreenEnforcement.warningIssued h' = true
          /\ out = [])
      \/ (FullscreenEnforcement.isSecure h' = false
          /\ FullscreenEnforcement.warningIssued h = false
          /\ FullscreenEnforcement.exitCount h'
             = FullscreenEnforcement.exitCount h + 1
          /\ FullscreenEnforcement.stored h'
             = Some (FullscreenEnforcement.exitCount h + 1)
          /\ FullscreenEnforcement.warningIssued h' = true
          /\ out
             = if FullscreenEnforcement.exitCount h + 1
                  >? FullscreenEnforcement.MAX_EXITS
               then [FullscreenEnforcement.ToastAutoSubmitting;
                     FullscreenEnforcement.OnAutoSubmit]
               else [FullscreenEnforcement.ToastWarning
                       (FullscreenEnforcement.exitCount h + 1)
                       (FullscreenEnforcement.MAX_EXITS
                        - (FullscreenEnforcement.exitCount h + 1))])).
Proof.
  destruct h as [fs pv ec wi cd sto].
  unfold FullscreenEnforcement.onEvent, FullscreenEnforcement.enforce,
    FullscreenEnforcement.isSecure.
  destruct e as [b|b]; simpl.
  - destruct (b && pv) eqn:S; simpl.
    + rewrite S. split; [reflexivity|]. left. repeat split.
    + destruct wi; simpl.
      * rewrite S. split; [reflexivity|]. right; left. repeat split.
      * destruct (ec + 1 >? FullscreenEnforcement.MAX_EXITS); simpl;
          rewrite S; (split; [reflexivity|]); right; right; repeat split.
  - destruct (fs && b) eqn:S; simpl.
    + rewrite S. split; [reflexivity|]. left. repeat split.
    + destruct wi; simpl.
      * rewrite S. split; [reflexivity|]. right; left. repeat split.
      * destruct (ec + 1 >? FullscreenEnforcement.MAX_EXITS); simpl;
          rewrite S; (split; [reflexivity|]); right; right; repeat split.
Qed.

(** During a running exam the hook counts exactly the transitions from a
    secure to an insecure page: after any run of full-screen and visibility
    events, [exitCount] has grown by the number of such transitions, however
    many events arrive while the page stays insecure. *)
Theorem exits_are_counted_per_transition (h : FullscreenEnforcement.Hook)
  (es : list FullscreenEnforcement.BrowserEvent) :
  FullscreenEnforcement.warningIssued h
  = negb (FullscreenEnforcement.isSecure h) ->
  let h' := fst (FullscreenEnforcement.onEvents h es) in
  FullscreenEnforcement.exitCount h'
  = FullscreenEnforcement.exitCount h
    + exits (FullscreenEnforcement.isFullscreen h)
        (FullscreenEnforcement.isPageVisible h) es
  /\ FullscreenEnforcement.warningIssued h'
     = negb (FullscreenEnforcement.isSecure h').
Proof.
  cbv zeta. revert h. induction es as [|e es IH]; intros h Hinv.
  - simpl. split; [lia | exact Hinv].
  - cbn [FullscreenEnforcement.onEvents exits].
    destruct (onEvent_cases h e) as (Hb & Hcases).
    destruct (FullscreenEnforcement.onEvent h e) as [h1 s1] eqn:E1.
    simpl in Hb, Hcases.
    destruct (FullscreenEnforcement.onEvents h1 es) as [h2 s2] eqn:E2.
    simpl.
    rewrite <- Hb.
    assert (Hinv1 : FullscreenEnforcement.warningIssued h1
                    = negb (FullscreenEnforcement.isSecure h1)).
    { destruct Hcases as [(S & _ & _ & W & _)
                         | [(S & _ & _ & _ & W & _) | (S & _ & _ & _ & W & _)]];
        rewrite S, W; reflexivity. }
    destruct (IH h1 Hinv1) as (I1 & I2). rewrite E2 in I1, I2. simpl in I1, I2.
    split; [|exact I2].
    rewrite I1.
    change (FullscreenEnforcement.isFullscreen h
            && FullscreenEnforcement.isPageVisible h)
      with (FullscreenEnforcement.isSecure h).
    change (FullscreenEnforcement.isFullscreen h1
            && FullscreenEnforcement.isPageVisible h1)
      with (FullscreenEnforcement.isSecure h1).
    destruct Hcases as [(S & C & _)
                       | [(S & W & C & _) | (S & W & C & _)]];
      rewrite S, C; rewrite W in Hinv || idtac.
    + cbn [negb]. rewrite andb_false_r. lia.
    + symmetry in Hinv. apply negb_true_iff in Hinv. rewrite Hinv.
      cbn [andb negb]. lia.
    + symmetry in Hinv. apply negb_false_iff in Hinv. rewrite Hinv.
      cbn [andb negb]. lia.
Qed.

Lemma exits_are_counted_per_transition_witness :
  FullscreenEnforcement.exitCount
    (fst (FullscreenEnforcement.onEvents (FullscreenEnforcement.init None)
            seven_exits)) = 7.
Proof.
  destruct (exits_are_counted_per_transition
              (FullscreenEnforcement.init None) seven_exits eq_refl)
    as (H & _).
  exact H.
Defined.

Lemma auto_submits_app (s1 s2 : list FullscreenEnforcement.Signal) :
  auto_submits (s1 ++ s2) = auto_submits s1 + auto_submits s2.
Proof.
  unfold auto_submits. rewrite filter_app, length_app. lia.
Qed.

(** The enforcement effect never calls [onAutoSubmit] for one of the first
    [MAX_EXITS] exits: over any run of events the number of its
    [onAutoSubmit] calls is the number of counted exits beyond [MAX_EXITS],
    a warning is shown for each of the others, and the counter never
    decreases. *)
Theorem auto_submit_only_beyond_max_exits (h : FullscreenEnforcement.Hook)
  (es : list FullscreenEnforcement.BrowserEvent) :
  let h' := fst (FullscreenEnforcement.onEvents h es) in
  let out := snd (FullscreenEnforcement.onEvents h es) in
  FullscreenEnforcement.exitCount h <= FullscreenEnforcement.exitCount h'
  /\ auto_submits out
     = Z.max (FullscreenEnforcement.exitCount h')
         FullscreenEnforcement.MAX_EXITS
       - Z.max (FullscreenEnforcement.exitCount h)
           FullscreenEnforcement.MAX_EXITS
  /\ Z.of_nat (List.length (filter is_warning out))
     = Z.min (FullscreenEnforcement.exitCount h')
         FullscreenEnforcement.MAX_EXITS
       - Z.min (FullscreenEnforcement.exitCount h)
           FullscreenEnforcement.MAX_EXITS.
Proof.
  cbv zeta. revert h. induction es as [|e es IH]; intros h.
  - simpl. unfold auto_submits. simpl. lia.
  - cbn [FullscreenEnforcement.onEvents].
    destruct (onEvent_cases h e) as (_ & Hcases).
    destruct (FullscreenEnforcement.onEvent h e) as [h1 s1] eqn:E1.
    simpl in Hcases.
    destruct (IH h1) as (I1 & I2 & I3).
    destruct (FullscreenEnforcement.onEvents h1 es) as [h2 s2] eqn:E2.
    simpl in I1, I2, I3. simpl fst. simpl snd.
    rewrite auto_submits_app, filter_app, length_app, Nat2Z.inj_add, I2, I3.
    unfold FullscreenEnforcement.MAX_EXITS in *.
    destruct Hcases as [(_ & C & _ & _ & O)
                       | [(_ & _ & C & _ & _ & O) | (_ & _ & C & _ & _ & O)]];
      rewrite C in *.
    + rewrite O. unfold auto_submits.
      cbn [filter List.length FullscreenEnforcement.is_auto_submit is_warning].
      lia.
    + rewrite O. unfold auto_submits.
      cbn [filter List.length FullscreenEnforcement.is_auto_submit is_warning].
      lia.
    + destruct (Z.gtb_spec (FullscreenEnforcement.exitCount h + 1) 5);
        rewrite O; unfold auto_submits;
        cbn [filter List.length FullscreenEnforcement.is_auto_submit
               is_warning];
        lia.
Qed.

(** The countdown: from [countdown = n] the countdown effect lets [n]
    seconds pass without a signal and calls [onAutoSubmit] on the pass after
    them; a hook without countdown never calls it. *)
Theorem countdown_fires_after_its_seconds (n : nat)
  (h : FullscreenEnforcement.Hook) :
  FullscreenEnforcement.countdown h = Some (Z.of_nat n) ->
  snd (FullscreenEnforcement.countdownRun n h)
  = [FullscreenEnforcement.OnAutoSubmit]
  /\ FullscreenEnforcement.countdown
       (fst (FullscreenEnforcement.countdownRun n h)) = Some 0
  /\ FullscreenEnforcement.exitCount
       (fst (FullscreenEnforcement.countdownRun n h))
     = FullscreenEnforcement.exitCount h
  /\ forall m, (m < n)%nat ->
       snd (FullscreenEnforcement.countdownRun m h) = []
       /\ FullscreenEnforcement.countdown
            (fst (FullscreenEnforcement.countdownRun m h))
          = Some (Z.of_nat n - Z.of_nat m - 1).
Proof.
  revert h. induction n as [|n IH]; intros h Hc.
  - simpl. unfold FullscreenEnforcement.countdownEffect. rewrite Hc. simpl.
    repeat split; try assumption; intros; lia.
  - assert (Hstep : FullscreenEnforcement.countdownEffect h
                    = (FullscreenEnforcement.mkHook
                         (FullscreenEnforcement.isFullscreen h)
                         (FullscreenEnforcement.isPageVisible h)
                         (FullscreenEnforcement.exitCount h)
                         (FullscreenEnforcement.warningIssued h)
                         (Some (Z.of_nat n))
                         (FullscreenEnforcement.stored h), [])).
    { unfold FullscreenEnforcement.countdownEffect. rewrite Hc.
      destruct (Z.leb_spec (Z.of_nat (S n)) 0); [lia|].
      repeat f_equal. lia. }
    cbn [FullscreenEnforcement.countdownRun]. rewrite Hstep.
    destruct (IH (FullscreenEnforcement.mkHook
                    (FullscreenEnforcement.isFullscreen h)
                    (FullscreenEnforcement.isPageVisible h)
                    (FullscreenEnforcement.exitCount h)
                    (FullscreenEnforcement.warningIssued h)
                    (Some (Z.of_nat n))
                    (FullscreenEnforcement.stored h)) eq_refl)
      as (I1 & I2 & I3 & I4).
    split; [exact I1|]. split; [exact I2|]. split; [exact I3|].
    intros [|m] Hm.
    + cbn [FullscreenEnforcement.countdownRun]. rewrite Hstep.
      cbn [fst snd FullscreenEnforcement.countdown].
      split; [reflexivity|]. f_equal. lia.
    + cbn [FullscreenEnforcement.countdownRun]. rewrite Hstep.
      destruct (I4 m ltac:(lia)) as (J1 & J2).
      split; [exact J1|]. rewrite J2. f_equal. lia.
Qed.

Lemma countdown_fires_after_its_seconds_witness :
  snd (FullscreenEnforcement.countdownRun 30
         (fst (FullscreenEnforcement.enforce true false fifth_exit_done)))
  = [FullscreenEnforcement.OnAutoSubmit].
Proof.
  destruct (countdown_fires_after_its_seconds 30
              (fst (FullscreenEnforcement.enforce true false fifth_exit_done))
              eq_refl) as (H & _).
  exact H.
Defined.

(** The stored count follows the counter: from the initial state of the
    hook, after any run of events, the item in [localStorage] reads back as
    [exitCount], so that a reload of the page during the exam resumes with
    the same count and [handleAutoSubmit] attaches the hook's count to the
    record; once the exam is finished the cleanup removes the item and a new
    hook starts from zero. *)
Theorem stored_count_follows_the_counter (item : option Z)
  (es : list FullscreenEnforcement.BrowserEvent) :
  let h := fst (FullscreenEnforcement.onEvents
                  (FullscreenEnforcement.init item) es) in
  storedExitCount (FullscreenEnforcement.stored h)
  = FullscreenEnforcement.exitCount h
  /\ FullscreenEnforcement.exitCount
       (FullscreenEnforcement.init (FullscreenEnforcement.stored h))
     = FullscreenEnforcement.exitCount h
  /\ FullscreenEnforcement.exitCount
       (FullscreenEnforcement.init
          (FullscreenEnforcement.stored
             (FullscreenEnforcement.cleanup true h))) = 0.
Proof.
  cbv zeta.
  assert (G : forall es h,
             storedExitCount (FullscreenEnforcement.stored h)
             = FullscreenEnforcement.exitCount h ->
             storedExitCount
               (FullscreenEnforcement.stored
                  (fst (FullscreenEnforcement.onEvents h es)))
             = FullscreenEnforcement.exitCount
                 (fst (FullscreenEnforcement.onEvents h es))).
  { clear. induction es as [|e es IH]; intros h Hh; [exact Hh|].
    cbn [FullscreenEnforcement.onEvents].
    destruct (onEvent_cases h e) as (_ & Hcases).
    destruct (FullscreenEnforcement.onEvent h e) as [h1 s1] eqn:E1.
    simpl in Hcases.
    assert (H1 : storedExitCount (FullscreenEnforcement.stored h1)
                 = FullscreenEnforcement.exitCount h1).
    { destruct Hcases as [(_ & C & S & _)
                         | [(_ & _ & C & S & _) | (_ & _ & C & S & _)]];
        rewrite C, S; [exact Hh | exact Hh | reflexivity]. }
    specialize (IH h1 H1).
    destruct (FullscreenEnforcement.onEvents h1 es) as [h2 s2]. exact IH. }
  assert (H : storedExitCount
                (FullscreenEnforcement.stored
                   (fst (FullscreenEnforcement.onEvents
                           (FullscreenEnforcement.init item) es)))
              = FullscreenEnforcement.exitCount
                  (fst (FullscreenEnforcement.onEvents
                          (FullscreenEnforcement.init item) es))).
  { apply G. reflexivity. }
  split; [exact H|]. split; [exact H | reflexivity].
Qed.

(** The status card and the hook agree: the card announces that the next
    exit will submit exactly when the next counted exit calls
    [onAutoSubmit]. *)
Theorem status_card_announces_the_submit (h : FullscreenEnforcement.Hook) :
  FullscreenEnforcement.isSecure h = false ->
  FullscreenEnforcement.warningIssued h = false ->
  ExamInterface.nextExitWillSubmit FullscreenEnforcement.MAX_EXITS
    (FullscreenEnforcement.exitCount h)
  = existsb FullscreenEnforcement.is_auto_submit
      (snd (FullscreenEnforcement.enforce true false h)).
Proof.
  intros Hs Hw. unfold FullscreenEnforcement.enforce. rewrite Hs, Hw. simpl.
  unfold ExamInterface.nextExitWillSubmit, ExamInterface.warningsLeft,
    FullscreenEnforcement.MAX_EXITS.
  destruct (Z.gtb_spec (FullscreenEnforcement.exitCount h + 1) 5),
    (Z.gtb_spec (5 - FullscreenEnforcement.exitCount h) 0);
    simpl; try reflexivity; lia.
Qed.

Lemma status_card_announces_the_submit_witness :
  ExamInterface.nextExitWillSubmit FullscreenEnforcement.MAX_EXITS 5 = true.
Proof.
  exact (status_card_announces_the_submit fifth_exit_done eq_refl eq_refl).
Defined.

(** ** Trimming *)

Lemma trimEnd_whitespace (s : string) :
  all_whitespace s = true -> trimEnd s = EmptyString.
Proof.
  induction s as [|c s IH]; simpl; [reflexivity|].
  intros H. apply andb_true_iff in H. destruct H as (Hc & Hs).
  rewrite (IH Hs), Hc. reflexivity.
Qed.

Lemma trimStart_whitespace (s : string) :
  all_whitespace s = true -> trimStart s = EmptyString.
Proof.
  induction s as [|c s IH]; simpl; [reflexivity|].
  intros H. apply andb_true_iff in H. destruct H as (Hc & Hs).
  rewrite Hc. exact (IH Hs).
Qed.

Lemma trimEnd_empty (s : string) :
  trimEnd s = EmptyString -> all_whitespace s = true.
Proof.
  induction s as [|c s IH]; simpl; [reflexivity|].
  destruct (trimEnd s) eqn:E; [|discriminate].
  destruct (is_js_whitespace c); [|discriminate].
  intros _. now rewrite IH.
Qed.

Lemma trimEnd_append (s ws : string) :
  all_whitespace ws = true -> trimEnd (String.append s ws) = trimEnd s.
Proof.
  intros H. induction s as [|c s IH]; simpl.
  - now apply trimEnd_whitespace.
  - now rewrite IH.
Qed.

Lemma trim_empty_iff (s : string) :
  trim s = EmptyString <-> all_whitespace s = true.
Proof.
  unfold trim. induction s as [|c s IH]; simpl.
  - tauto.
  - destruct (is_js_whitespace c) eqn:Ec; simpl.
    + exact IH.
    + rewrite Ec. split; [|discriminate].
      destruct (trimEnd s); discriminate.
Qed.

Lemma trim_append_whitespace (s ws : string) :
  all_whitespace ws = true -> trim (String.append s ws) = trim s.
Proof.
  intros H. unfold trim. induction s as [|c s IH]; simpl.
  - rewrite (trimStart_whitespace ws H). reflexivity.
  - destruct (is_js_whitespace c); [exact IH|].
    change (String c (String.append s ws))
      with (String.append (String c s) ws).
    now apply trimEnd_append.
Qed.

Lemma trim_prepend_whitespace (ws s : string) :
  all_whitespace ws = true -> trim (String.append ws s) = trim s.
Proof.
  unfold trim. induction ws as [|c ws IH]; simpl; [reflexivity|].
  intros H. apply andb_true_iff in H. destruct H as (Hc & Hs).
  rewrite Hc. exact (IH Hs).
Qed.

(** A long answer earns marks exactly when it contains a character that is
    not white space: after ANSWER has stored a text of blanks, tabs and line
    ends only, the question is shown as ['answered'] (or keeps its review
    mark) and yet is graded 0, like a missing answer. *)
Theorem blank_long_answer_earns_nothing (st : ExamInterface.State)
  (q : Question) (text : string) :
  let st' :=
    ExamInterface.examReducer st
      (ExamInterface.ANSWER (ExamInterface.long_answer (q_id q) text)) in
  snd (ExamInterface.gradeQuestion exam_long_answer st' q)
  = (if all_whitespace text then no_marks else full_marks)
  /\ JsMap.get (ExamInterface.statuses st') (q_id q)
     = Some (if ExamInterface.is_marked
                  (JsMap.get (ExamInterface.statuses st) (q_id q))
             then marked_for_review else answered).
Proof.
  cbv zeta. split.
  - unfold ExamInterface.gradeQuestion.
    cbn [ExamInterface.examReducer ExamInterface.answers]. rewrite get_set_same.
    cbn [snd].
    destruct (all_whitespace text) eqn:E.
    + apply trim_empty_iff in E. rewrite E. reflexivity.
    + destruct (String.eqb_spec (trim text) "") as [Et|Et];
        [|reflexivity].
      apply trim_empty_iff in Et. congruence.
  - simpl. destruct (ExamInterface.is_marked _) eqn:E.
    + unfold ExamInterface.is_marked in E.
      destruct (JsMap.get (ExamInterface.statuses st) (q_id q)) as [[]|];
        try discriminate. reflexivity.
    + apply get_set_same.
Qed.

(** White space around the program's output or around the expected output
    does not change the verdict of a test case. *)
Theorem verdict_ignores_surrounding_whitespace
  (output expected before after : string) (stderr : option string)
  (tc : TestCase) :
  all_whitespace before = true ->
  all_whitespace after = true ->
  let padded := String.append before (String.append output after) in
  tr_isCorrect
    (fst (ExecuteCodeFlow.runTestCase
            (ExecuteCodeFlow.Ran (Some padded) stderr) tc))
  = tr_isCorrect
      (fst (ExecuteCodeFlow.runTestCase
              (ExecuteCodeFlow.Ran (Some output) stderr) tc))
  /\ tr_isCorrect
       (fst (ExecuteCodeFlow.runTestCase
               (ExecuteCodeFlow.Ran (Some output) stderr)
               (mkTestCase (tc_id tc) (tc_input tc)
                  (String.append before
                     (String.append (tc_expectedOutput tc) after)))))
     = tr_isCorrect
         (fst (ExecuteCodeFlow.runTestCase
                 (ExecuteCodeFlow.Ran (Some output) stderr) tc)).
Proof.
  intros Hb Ha. cbv zeta.
  assert (T : forall s, trim (String.append before (String.append s after))
                        = trim s).
  { intros s. rewrite (trim_prepend_whitespace before _ Hb).
    now apply trim_append_whitespace. }
  assert (O : forall s, trim (ExecuteCodeFlow.or_else (Some s) "") = trim s).
  { intros [|c s]; reflexivity. }
  split; unfold ExecuteCodeFlow.runTestCase;
    cbn [fst tr_isCorrect tc_expectedOutput]; rewrite !O, ?T; reflexivity.
Qed.

Lemma verdict_ignores_surrounding_whitespace_witness :
  tr_isCorrect
    (fst (ExecuteCodeFlow.runTestCase
            (ExecuteCodeFlow.Ran (Some (String.append "3" newline)) None)
            (mkTestCase None "1 2" "3"))) = true.
Proof.
  destruct (verdict_ignores_surrounding_whitespace "3" "3" "" newline None
              (mkTestCase None "1 2" "3") eq_refl eq_refl) as (H & _).
  exact H.
Defined.

(** ** Totals and requests of the flow *)

Lemma countCorrect_bounds (rs : list TestResult) :
  0 <= ExecuteCodeFlow.countCorrect rs <= Z.of_nat (List.length rs)
  /\ (ExecuteCodeFlow.countCorrect rs =? Z.of_nat (List.length rs))
     = CodingExamInterface.allPassed rs.
Proof.
  unfold ExecuteCodeFlow.countCorrect, CodingExamInterface.allPassed.
  induction rs as [|r rs IH]; [split; [simpl; lia | reflexivity]|].
  destruct IH as (B & E).
  cbn [filter forallb List.length].
  destruct (tr_isCorrect r); cbn [List.length andb].
  - split; [lia|].
    rewrite <- E.
    destruct (Z.eqb_spec (Z.of_nat (List.length (filter tr_isCorrect rs)))
                (Z.of_nat (List.length rs))),
      (Z.eqb_spec (Z.of_nat (S (List.length (filter tr_isCorrect rs))))
         (Z.of_nat (S (List.length rs)))); try reflexivity; lia.
  - split; [lia|].
    destruct (Z.eqb_spec (Z.of_nat (List.length (filter tr_isCorrect rs)))
                (Z.of_nat (S (List.length rs)))); [lia | reflexivity].
Qed.


(** The totals the flow returns are consistent with its results: 
    [0 <= totalPassed <= totalCases], the two are equal exactly when every
    result is correct (so the test [totalPassed === totalCases] of the
    submission and the test [results.every(r => r.isCorrect)] of the reducer
    agree on them), and the marks computed from them lie between 0 and
    100. *)
Theorem flow_totals_are_consistent
  (piston : nat -> ExecuteCodeFlow.Request -> ExecuteCodeFlow.FetchOutcome)
  (input : ExecuteCodeFlow.ExecuteCodeInput) :
  let out := ExecuteCodeFlow.executeCodeFlow piston input in
  0 <= ExecuteCodeFlow.out_totalPassed out <= ExecuteCodeFlow.out_totalCases out
  /\ (ExecuteCodeFlow.out_totalPassed out =? ExecuteCodeFlow.out_totalCases out)
     = CodingExamInterface.allPassed (ExecuteCodeFlow.out_results out)
  /\ (no_marks <= CodingExamInterface.marksForQuestion out <= full_marks)%Q.
Proof.
  cbv zeta.
  destruct (flow_loop piston
              (ExecuteCodeFlow.executionLanguage
                 (ExecuteCodeFlow.in_language input))
              (ExecuteCodeFlow.in_sourceCode input)
              (ExecuteCodeFlow.in_testCases input)
              (ExecuteCodeFlow.mkLoop [] 0 []))
    as (rest & H1 & H2 & H3 & _).
  unfold ExecuteCodeFlow.executeCodeFlow. simpl in *.
  rewrite H1, H3, <- H2.
  destruct (countCorrect_bounds rest) as (B & E).
  split; [lia|]. split; [exact E|].
  unfold CodingExamInterface.marksForQuestion.
  cbn [ExecuteCodeFlow.out_totalCases ExecuteCodeFlow.out_totalPassed].
  destruct (Z.gtb_spec (Z.of_nat (List.length rest)) 0) as [Hpos|Hz].
  - unfold full_marks, no_marks. split.
    + apply Qmult_le_0_compat; [|discriminate].
      apply Qle_shift_div_l.
      * unfold Qlt. simpl. lia.
      * rewrite Qmult_0_l. unfold Qle. simpl. lia.
    + rewrite <- (Qmult_1_l (100 # 1)) at 2.
      apply Qmult_le_compat_r; [|discriminate].
      apply Qle_shift_div_r.
      * unfold Qlt. simpl. lia.
      * rewrite Qmult_1_l. unfold Qle. simpl. lia.
  - unfold full_marks, no_marks. split; discriminate.
Qed.

(** The flow sends exactly one request per test case, in the order of the
    test cases, each with the mapped language, the unchanged source and the
    test case's input as standard input, whatever the earlier requests met:
    a failure neither stops the run nor is retried. *)
Theorem one_request_per_test_case
  (piston : nat -> ExecuteCodeFlow.Request -> ExecuteCodeFlow.FetchOutcome)
  (input : ExecuteCodeFlow.ExecuteCodeInput) :
  flowRequests piston input
  = map (requestFor input) (ExecuteCodeFlow.in_testCases input).
Proof.
  unfold flowRequests.
  destruct (flow_loop piston
              (ExecuteCodeFlow.executionLanguage
                 (ExecuteCodeFlow.in_language input))
              (ExecuteCodeFlow.in_sourceCode input)
              (ExecuteCodeFlow.in_testCases input)
              (ExecuteCodeFlow.mkLoop [] 0 []))
    as (rest & _ & _ & _ & H4 & _).
  simpl in H4. exact H4.
Qed.


(** ** The coding session *)

(** Editing keeps the results of the last run: UPDATE_CODE replaces the
    stored source of its question and nothing else, so the status, marks and
    test results of an earlier run stay attached to code they were not
    computed from, and the other questions are untouched. *)
Theorem editing_keeps_the_last_run (s : CodingExamInterface.State)
  (q src : string) :
  let s' :=
    CodingExamInterface.examReducer s (CodingExamInterface.UPDATE_CODE q src) in
  let a := CodingExamInterface.answer_or_stub (CodingExamInterface.answers s) q in
  (exists a',
      JsMap.get (CodingExamInterface.answers s') q = Some a'
      /\ sourceCode a' = Some src
      /\ status a' = status a
      /\ marks a' = marks a
      /\ testResults a' = testResults a
      /\ totalPassed a' = totalPassed a
      /\ totalCases a' = totalCases a)
  /\ (forall q', q <> q' ->
        JsMap.get (CodingExamInterface.answers s') q'
        = JsMap.get (CodingExamInterface.answers s) q')
  /\ CodingExamInterface.timeLeft s' = CodingExamInterface.timeLeft s
  /\ CodingExamInterface.examFinished s' = CodingExamInterface.examFinished s.
Proof.
  cbv zeta. simpl. split; [|split; [|split; reflexivity]].
  - eexists. split; [apply get_set_same|]. simpl. repeat split.
  - intros q' Hq. now apply get_set_other.
Qed.

Section CodingFacts.

Variable executeCode :
  nat -> ExecuteCodeFlow.ExecuteCodeInput
  -> option ExecuteCodeFlow.ExecuteCodeOutput.

Lemma initial_sources_are_empty (exam : Exam)
  (lang : option Language) (qs : list Question) (k : string) :
  CodingExamInterface.submitted_source
    (JsMap.get
       (CodingExamInterface.answers
          (CodingExamInterface.initialState exam None lang qs)) k) = None.
Proof.
  unfold CodingExamInterface.initialState. simpl.
  assert (G : forall (l : list Question) (acc : JsMap.t StudentAnswer),
             Forall (fun e => sourceCode (snd e) = Some "") acc ->
             Forall (fun e => sourceCode (snd e) = Some "")
               (fold_left
                  (fun m q =>
                     JsMap.set m (q_id q)
                       (CodingExamInterface.initialAnswer None q)) l acc)).
  { clear. induction l as [|q l IH]; intros acc Hacc; simpl; [exact Hacc|].
    apply IH. clear IH.
    induction acc as [|[k0 v0] acc IHa]; simpl.
    - constructor; [reflexivity | constructor].
    - inversion Hacc; subst. destruct (String.eqb k0 (q_id q)).
      + constructor; [reflexivity | assumption].
      + constructor; [assumption | now apply IHa]. }
  specialize (G qs JsMap.empty (Forall_nil _)).
  revert G. generalize (fold_left
                          (fun m q =>
                             JsMap.set m (q_id q)
                               (CodingExamInterface.initialAnswer None q))
                          qs JsMap.empty).
  intros m Hm. induction m as [|[k0 v0] m IH]; simpl; [reflexivity|].
  inversion Hm; subst. destruct (String.eqb k0 k).
  - simpl in *. unfold CodingExamInterface.submitted_source.
    now rewrite H1.
  - now apply IH.
Qed.

Lemma loop_without_sources (st : CodingExamInterface.State)
  (qs : list Question) (l : CodingExamInterface.Loop) :
  (forall k, CodingExamInterface.submitted_source
               (JsMap.get (CodingExamInterface.answers st) k) = None) ->
  let l' := CodingExamInterface.submitLoop executeCode st qs l in
  CodingExamInterface.calls l' = CodingExamInterface.calls l
  /\ CodingExamInterface.totalMarks l' = CodingExamInterface.totalMarks l
  /\ (Forall (fun a => marks a = Some no_marks
                       /\ status a = Some not_answered
                       /\ testResults a = Some [])
        (CodingExamInterface.finalAnswers l) ->
      Forall (fun a => marks a = Some no_marks
                       /\ status a = Some not_answered
                       /\ testResults a = Some [])
        (CodingExamInterface.finalAnswers l')).
Proof.
  intros Hn. cbv zeta. unfold CodingExamInterface.submitLoop.
  revert l. induction qs as [|q qs IH]; intros l; simpl; [auto|].
  destruct (IH (CodingExamInterface.submitStep executeCode st l q))
    as (I1 & I2 & I3).
  assert (S : CodingExamInterface.submitStep executeCode st l q
              = CodingExamInterface.mkLoop
                  (CodingExamInterface.finalAnswers l
                   ++ [mkStudentAnswer (q_id q) (Some (q_text q))
                         (Some not_answered) (Some no_marks) None None None
                         None (Some "") (Some []) None None])
                  (CodingExamInterface.totalMarks l)
                  (CodingExamInterface.calls l)).
  { unfold CodingExamInterface.submitStep. rewrite (Hn (q_id q)).
    reflexivity. }
  rewrite S in I1, I2, I3. rewrite S. simpl in I1, I2, I3.
  split; [exact I1|]. split; [exact I2|].
  intros Hf. apply I3. apply Forall_app. split; [exact Hf|].
  constructor; [auto | constructor].
Qed.

(** Submitting an untouched coding exam executes nothing: from the initial
    state of a student without a stored submission, the submission loop
    makes no call of [executeCode], gives every question marks 0, status
    ['not-answered'] and no results, and the score is 0. *)
Theorem untouched_coding_exam_executes_nothing (exam : Exam)
  (lang : option Language) (qs : list Question)
  (log : list ExecuteCodeFlow.ExecuteCodeInput) :
  let st := CodingExamInterface.initialState exam None lang qs in
  let l :=
    CodingExamInterface.submitLoop executeCode st qs
      (CodingExamInterface.mkLoop [] no_marks log) in
  CodingExamInterface.calls l = log
  /\ List.length (CodingExamInterface.finalAnswers l) = List.length qs
  /\ Forall (fun a => marks a = Some no_marks
                      /\ status a = Some not_answered
                      /\ testResults a = Some [])
       (CodingExamInterface.finalAnswers l)
  /\ (CodingExamInterface.overallScore (CodingExamInterface.totalMarks l) qs
      == 0)%Q.
Proof.
  cbv zeta.
  destruct (loop_without_sources
              (CodingExamInterface.initialState exam None lang qs) qs
              (CodingExamInterface.mkLoop [] no_marks log)
              (initial_sources_are_empty exam lang qs))
    as (H1 & H2 & H3).
  destruct (submit_loop executeCode
              (CodingExamInterface.initialState exam None lang qs) qs
              (CodingExamInterface.mkLoop [] no_marks log))
    as (rest & R1 & R2 & _).
  simpl in H1, H2, H3, R1.
  split; [exact H1|]. split; [now rewrite R1|].
  split; [apply H3; constructor|].
  rewrite H2. unfold CodingExamInterface.overallScore.
  destruct (0 <? Z.of_nat (List.length qs)); reflexivity.
Qed.

(** The score of a coding submission is the arithmetic mean of the marks of
    its answers, and 0 for an exam without questions. *)
Theorem coding_score_is_the_mean (uid examId : string) (exam : Exam)
  (st : CodingExamInterface.State) (qs : list Question)
  (log : list ExecuteCodeFlow.ExecuteCodeInput)
  (details : option AutoSubmitDetails) :
  let p :=
    CodingExamInterface.submissionPayload uid examId exam st qs
      (CodingExamInterface.submitLoop executeCode st qs
         (CodingExamInterface.mkLoop [] no_marks log)) details in
  (se_score p == mean_marks (se_answers p))%Q
  /\ se_language p = Some (CodingExamInterface.language st)
  /\ List.length (se_answers p) = List.length qs.
Proof.
  cbv zeta.
  destruct (submit_loop executeCode st qs
              (CodingExamInterface.mkLoop [] no_marks log))
    as (rest & R1 & R2 & _ & R4 & _).
  unfold CodingExamInterface.submissionPayload. simpl in *.
  rewrite R1. split; [|split; [reflexivity | exact R2]].
  unfold CodingExamInterface.overallScore, mean_marks.
  rewrite <- R2.
  destruct rest as [|a rest]; [reflexivity|].
  replace (0 <? Z.of_nat (List.length (a :: rest))) with true
    by (symmetry; apply Z.ltb_lt; simpl; lia).
  rewrite R4. unfold no_marks.
  apply Qdiv_comp; [ring | reflexivity].
Qed.

(** A submission works on the state its call captured: an action dispatched
    while the call is awaiting [executeCode] changes neither the record
    written nor the calls made, and FINISH_EXAM is then applied on top of
    that action. *)
Theorem submission_uses_the_captured_state (examId : string)
  (c : CodingExamInterface.Component) (d : option AutoSubmitDetails)
  (a : CodingExamInterface.Action) :
  let direct :=
    CodingExamInterface.run executeCode examId c
      [CodingExamInterface.Submit d; CodingExamInterface.Settle] in
  let edited :=
    CodingExamInterface.run executeCode examId c
      [CodingExamInterface.Submit d; CodingExamInterface.Dispatch a;
       CodingExamInterface.Settle] in
  CodingExamInterface.writes edited = CodingExamInterface.writes direct
  /\ CodingExamInterface.executed edited = CodingExamInterface.executed direct
  /\ (CodingExamInterface.inFlight
        (CodingExamInterface.beginSubmit c d) <> None ->
      CodingExamInterface.state edited
      = option_map
          (fun s =>
             CodingExamInterface.examReducer
               (CodingExamInterface.examReducer s a)
               CodingExamInterface.FINISH_EXAM)
          (CodingExamInterface.state c)).
Proof.
  cbv zeta. unfold CodingExamInterface.run. simpl.
  unfold CodingExamInterface.settleSubmit. simpl.
  assert (S : CodingExamInterface.state (CodingExamInterface.beginSubmit c d)
              = CodingExamInterface.state c).
  { unfold CodingExamInterface.beginSubmit.
    destruct (CodingExamInterface.state c) eqn:Es,
      (CodingExamInterface.user c), (CodingExamInterface.examData c),
      (CodingExamInterface.isSubmitting c); simpl; congruence. }
  destruct (CodingExamInterface.inFlight (CodingExamInterface.beginSubmit c d))
    as [p|]; simpl.
  - repeat split. intros _. rewrite S.
    destruct (CodingExamInterface.state c); reflexivity.
  - repeat split. intros H. congruence.
Qed.

End CodingFacts.

(** A run and a submission disagree on a question without test cases: with
    the flow as executor, SET_RUN_RESULTS after a run stores status
    ['answered'] and marks 100 for it (every result of an empty list is
    correct), while the submission loop, for the same code, writes status
    ['answered'] and marks 0. *)
Theorem no_test_cases_run_and_submit_disagree
  (piston : nat -> ExecuteCodeFlow.Request -> ExecuteCodeFlow.FetchOutcome)
  (st : CodingExamInterface.State) (q : Question) (a : StudentAnswer)
  (c : ascii) (src : string) :
  q_testCases q = None \/ q_testCases q = Some [] ->
  JsMap.get (CodingExamInterface.answers st) (q_id q) = Some a ->
  sourceCode a = Some (String c src) ->
  let out :=
    ExecuteCodeFlow.executeCodeFlow piston
      (CodingExamInterface.executeInput st (String c src) q) in
  let ran :=
    CodingExamInterface.examReducer st
      (CodingExamInterface.SET_RUN_RESULTS (q_id q)
         (ExecuteCodeFlow.out_results out)) in
  let submitted :=
    CodingExamInterface.finalAnswers
      (CodingExamInterface.submitLoop (executeCodeOver piston) st [q]
         (CodingExamInterface.mkLoop [] no_marks [])) in
  (exists a1,
      JsMap.get (CodingExamInterface.answers ran) (q_id q) = Some a1
      /\ status a1 = Some answered /\ marks a1 = Some full_marks)
  /\ (exists a2,
         submitted = [a2]
         /\ status a2 = Some answered /\ marks a2 = Some no_marks).
Proof.
  intros Hq Ha Hs. cbv zeta.
  assert (E : match q_testCases q with Some l => l | None => [] end = []).
  { destruct Hq as [-> | ->]; reflexivity. }
  split.
  - eexists. split; [simpl; apply get_set_same|].
    unfold CodingExamInterface.executeInput, ExecuteCodeFlow.executeCodeFlow.
    rewrite E. simpl. split; reflexivity.
  - unfold CodingExamInterface.submitLoop. simpl.
    unfold CodingExamInterface.submitStep. rewrite Ha. simpl. rewrite Hs.
    unfold executeCodeOver, CodingExamInterface.executeInput,
      ExecuteCodeFlow.executeCodeFlow.
    rewrite E. simpl. eexists. split; [reflexivity|]. split; reflexivity.
Qed.

Lemma no_test_cases_run_and_submit_disagree_witness :
  exists a2,
    CodingExamInterface.finalAnswers
      (CodingExamInterface.submitLoop (executeCodeOver unreachable_service)
         open_session [open_question]
         (CodingExamInterface.mkLoop [] no_marks [])) = [a2]
    /\ status a2 = Some answered /\ marks a2 = Some no_marks.
Proof.
  destruct (no_test_cases_run_and_submit_disagree unreachable_service
              open_session open_question
              (mkStudentAnswer "c9" (Some "free") (Some not_answered) None
                 None None None None (Some "print(1)") (Some []) None None)
              "p" "rint(1)" (or_introl eq_refl) eq_refl eq_refl)
    as (_ & H).
  exact H.
Defined.

(** ** Scores and the submit button *)

Lemma sum_marks_bounds (l : list StudentAnswer) :
  Forall (fun a => marks a = Some full_marks \/ marks a = Some no_marks) l ->
  (0 <= sum_marks l
   /\ sum_marks l <= full_marks * inject_Z (Z.of_nat (List.length l)))%Q.
Proof.
  induction 1 as [|a l Ha Hl IH].
  - simpl. unfold no_marks, full_marks. split; [discriminate|].
    unfold Qle. simpl. lia.
  - cbn [sum_marks fold_right List.length].
    change (fold_right (fun a acc => (marks_or_zero a + acc)%Q) no_marks l)
      with (sum_marks l).
    rewrite Nat2Z.inj_succ, <- Z.add_1_r, inject_Z_plus.
    destruct IH as (I1 & I2).
    assert (Hn : (0 <= inject_Z (Z.of_nat (List.length l)))%Q).
    { unfold Qle. simpl. lia. }
    change (inject_Z 1) with 1%Q.
    unfold marks_or_zero, full_marks, no_marks in *.
    destruct Ha as [-> | ->]; split; lra.
Qed.

Lemma sum_marks_all_full (l : list StudentAnswer) :
  Forall (fun a => marks a = Some full_marks) l ->
  (sum_marks l == full_marks * inject_Z (Z.of_nat (List.length l)))%Q.
Proof.
  induction 1 as [|a l Ha Hl IH].
  - simpl. unfold no_marks, full_marks. reflexivity.
  - cbn [sum_marks fold_right List.length].
    change (fold_right (fun a acc => (marks_or_zero a + acc)%Q) no_marks l)
      with (sum_marks l).
    rewrite Nat2Z.inj_succ, <- Z.add_1_r, inject_Z_plus.
    change (inject_Z 1) with 1%Q.
    unfold marks_or_zero. rewrite Ha, IH. unfold full_marks. ring.
Qed.

(** The score of an MCQ or long-answer submission lies between 0 and 100,
    and an MCQ exam with at least one question in which every question has
    its correct option stored scores 100. *)
Theorem score_is_a_percentage (uid examId : string) (exam : Exam)
  (st : ExamInterface.State) (details : option AutoSubmitDetails) :
  let r := ExamInterface.buildSubmission uid examId exam st details in
  (0 <= se_score r /\ se_score r <= full_marks)%Q
  /\ (exam_examType exam = exam_mcq ->
      exam_questions exam <> [] ->
      (forall q, In q (exam_questions exam) ->
         exists n, JsMap.get (ExamInterface.answers st) (q_id q)
                   = Some (ExamInterface.Num n)
                   /\ q_correctOption q = Some n) ->
      (se_score r == full_marks)%Q).
Proof.
  assert (Hlen : exam_questions exam <> [] ->
                 (0 < List.length (exam_questions exam))%nat).
  { destruct (exam_questions exam); [congruence | simpl; lia]. }
  unfold ExamInterface.buildSubmission, ExamInterface.gradeAll.
  pose proof (gradeAll_fold (exam_examType exam) st (exam_questions exam)
                [] no_marks) as H.
  cbv zeta in H.
  destruct (fold_left _ (exam_questions exam) ([], no_marks)) as [ans tot].
  simpl in H. destruct H as [H1 H2]. simpl. subst ans.
  set (l := map (fun q => fst (ExamInterface.gradeQuestion
                                 (exam_examType exam) st q))
              (exam_questions exam)) in *.
  assert (Hl : List.length l = List.length (exam_questions exam))
    by apply length_map.
  assert (Hb : Forall (fun a => marks a = Some full_marks
                                \/ marks a = Some no_marks) l).
  { apply Forall_forall. intros a Ha. apply in_map_iff in Ha.
    destruct Ha as (q & <- & _).
    destruct (gradeQuestion_as_specified (exam_examType exam) st q)
      as (_ & Hm & _). exact Hm. }
  unfold ExamInterface.finalScore. rewrite <- Hl.
  split.
  - destruct (sum_marks_bounds l Hb) as (B1 & B2).
    destruct (Z.ltb_spec 0 (Z.of_nat (List.length l))) as [Hpos|Hz].
    + assert (Hq : (0 < inject_Z (Z.of_nat (List.length l)))%Q).
      { unfold Qlt. simpl. lia. }
      rewrite H2. unfold no_marks in *. split.
      * apply Qle_shift_div_l; [exact Hq|]. lra.
      * apply Qle_shift_div_r; [exact Hq|]. lra.
    + unfold no_marks, full_marks. split; discriminate.
  - intros Ht Hne Hall.
    assert (Hf : Forall (fun a => marks a = Some full_marks) l).
    { apply Forall_forall. intros a Ha. apply in_map_iff in Ha.
      destruct Ha as (q & <- & Hq).
      destruct (gradeQuestion_as_specified (exam_examType exam) st q)
        as (_ & _ & Hm & _).
      destruct (Hall q Hq) as (n & Hn & Hc).
      apply (Hm Ht). exists n. split; [exact Hn|]. split; [|exact Hc].
      unfold ExamInterface.gradeQuestion. rewrite Ht, Hn. reflexivity. }
    destruct (Z.ltb_spec 0 (Z.of_nat (List.length l))) as [Hpos|Hz].
    + rewrite H2, (sum_marks_all_full l Hf). unfold no_marks, full_marks.
      field. intros Hz. unfold Qeq in Hz. simpl in Hz. lia.
    + specialize (Hlen Hne). rewrite <- Hl in Hlen. lia.
Qed.

(** The End Exam button: without a configured minimum time it is disabled
    while more than half of the duration is left, with a minimum time of [m]
    minutes while more than [duration - m] minutes are left; once enabled it
    stays enabled as the clock runs down. *)
Theorem submit_button_opens_after_the_minimum_time (duration timeLeft : Z)
  (m : Z) :
  ExamInterface.isSubmitDisabled duration None timeLeft
  = (30 * duration <? timeLeft)
  /\ ExamInterface.isSubmitDisabled duration (Some m) timeLeft
     = (60 * (duration - m) <? timeLeft)
  /\ (forall minimumTime later,
        later <= timeLeft ->
        ExamInterface.isSubmitDisabled duration minimumTime timeLeft = false ->
        ExamInterface.isSubmitDisabled duration minimumTime later = false).
Proof.
  assert (A : forall tl, ExamInterface.isSubmitDisabled duration None tl
                         = (30 * duration <? tl)).
  { intros tl. set (rhs := 30 * duration <? tl).
    unfold ExamInterface.isSubmitDisabled,
      ExamInterface.minimumTimeInSeconds, Qle_bool. simpl. subst rhs.
    destruct (Z.leb_spec (duration * 1 * 60 * 1) ((duration * 60 - tl) * 2)),
      (Z.ltb_spec (30 * duration) tl); simpl; try reflexivity; lia. }
  assert (B : forall m' tl, ExamInterface.isSubmitDisabled duration (Some m') tl
                            = (60 * (duration - m') <? tl)).
  { intros m' tl. set (rhs := 60 * (duration - m') <? tl).
    unfold ExamInterface.isSubmitDisabled,
      ExamInterface.minimumTimeInSeconds, Qle_bool. simpl. subst rhs.
    destruct (Z.leb_spec (m' * 60 * 1) ((duration * 60 - tl) * 1)),
      (Z.ltb_spec (60 * (duration - m')) tl); simpl; try reflexivity; lia. }
  split; [apply A|]. split; [apply B|].
  intros [m'|] later Hl; rewrite ?A, ?B; intros H;
    apply Z.ltb_ge in H; apply Z.ltb_ge; lia.
Qed.

(** ** Guards of the handlers *)



(** ** Instances *)


Lemma score_is_a_percentage_witness :
  (se_score
     (ExamInterface.buildSubmission "u1" "e1" mcq_exam perfect_session None)
   == full_marks)%Q.
Proof.
  destruct (score_is_a_percentage "u1" "e1" mcq_exam perfect_session None)
    as (_ & H).
  apply H.
  - reflexivity.
  - discriminate.
  - intros q Hq. simpl in Hq.
    destruct Hq as [<- | [<- | [<- | [<- | [<- | []]]]]];
      eexists; split; reflexivity.
Defined.

Lemma submit_button_opens_after_the_minimum_time_witness :
  ExamInterface.isSubmitDisabled 30 None 600 = false.
Proof.
  destruct (submit_button_opens_after_the_minimum_time 30 900 0)
    as (_ & _ & H).
  apply (H None 600); [lia | reflexivity].
Defined.


Lemma submission_uses_the_captured_state_witness :
  CodingExamInterface.state
    (CodingExamInterface.run all_pass "e1" coding_component
       [CodingExamInterface.Submit None;
        CodingExamInterface.Dispatch
          (CodingExamInterface.UPDATE_CODE "c1" "print()");
        CodingExamInterface.Settle])
  = Some (CodingExamInterface.examReducer
            (CodingExamInterface.examReducer coding_session
               (CodingExamInterface.UPDATE_CODE "c1" "print()"))
            CodingExamInterface.FINISH_EXAM).
Proof.
  destruct (submission_uses_the_captured_state all_pass "e1" coding_component
              None (CodingExamInterface.UPDATE_CODE "c1" "print()"))
    as (_ & _ & H).
  apply H. discriminate.
Defined.


(** ** The route guard *)

Lemma includes_spec (allowedRoles : list UserRole) (role : UserRole) :
  AuthGuard.includes allowedRoles role = true <-> In role allowedRoles.
Proof.
  unfold AuthGuard.includes. rewrite existsb_exists. split.
  - intros (r & Hin & He). destruct role, r; try discriminate; exact Hin.
  - intros H. exists role. split; [exact H | destruct role; reflexivity].
Qed.

(** Once the profile is loaded the guard either renders the page or
    redirects, never both and never neither: the children are rendered
    exactly when no route is pushed.  A user whose role is not admitted is
    sent to the dashboard of that role, a super-admin is admitted to every
    route open to faculty, and a visitor who is not signed in is sent to the
    login page and sees nothing. *)
Theorem guard_renders_or_redirects (role : UserRole)
  (allowedRoles : list UserRole) (profile : option UserRole) :
  (AuthGuard.isAllowed (Some role) allowedRoles = true <->
   AuthGuard.redirect true (Some role) allowedRoles = None)
  /\ (AuthGuard.isAllowed (Some role) allowedRoles = false ->
      AuthGuard.redirect true (Some role) allowedRoles
      = Some (match role with
              | role_student => "/student/dashboard"
              | role_faculty => "/faculty/dashboard"
              | role_super_admin => "/super-admin/dashboard"
              end))
  /\ (In role allowedRoles ->
      AuthGuard.isAllowed (Some role) allowedRoles = true)
  /\ (In role_faculty allowedRoles ->
      AuthGuard.isAllowed (Some role_super_admin) allowedRoles = true)
  /\ AuthGuard.redirect false profile allowedRoles = Some "/login"
  /\ AuthGuard.isAllowed None allowedRoles = false.
Proof.
  unfold AuthGuard.isAllowed, AuthGuard.redirect.
  repeat split.
  - destruct role; simpl;
      destruct (AuthGuard.includes allowedRoles role_student),
        (AuthGuard.includes allowedRoles role_faculty),
        (AuthGuard.includes allowedRoles role_super_admin);
      simpl; intros; try reflexivity; discriminate.
  - destruct role; simpl;
      destruct (AuthGuard.includes allowedRoles role_student),
        (AuthGuard.includes allowedRoles role_faculty),
        (AuthGuard.includes allowedRoles role_super_admin);
      simpl; intros; try reflexivity; discriminate.
  - destruct role; simpl;
      destruct (AuthGuard.includes allowedRoles role_student),
        (AuthGuard.includes allowedRoles role_faculty),
        (AuthGuard.includes allowedRoles role_super_admin);
      simpl; intros; try reflexivity; discriminate.
  - intros H. apply includes_spec in H. now rewrite H.
  - intros H. apply includes_spec in H. rewrite H. simpl.
    now rewrite orb_true_r.
Qed.

Lemma guard_renders_or_redirects_witness :
  AuthGuard.redirect true (Some role_student) [role_faculty]
  = Some "/student/dashboard".
Proof.
  destruct (guard_renders_or_redirects role_student [role_faculty] None)
    as (_ & H & _).
  apply H. reflexivity.
Defined.

(** ** The question shuffle *)

Lemma assign_app {A : Type} (l1 l2 : list A) (x : A) :
  assign (l1 ++ l2) (List.length l1) x
  = l1 ++ assign l2 0 x.
Proof. induction l1 as [|a l1 IH]; simpl; [reflexivity | now rewrite IH]. Qed.

Lemma assign_app_right {A : Type} (l1 l2 : list A) (k : nat) (x : A) :
  assign (l1 ++ l2) (List.length l1 + k) x = l1 ++ assign l2 k x.
Proof. induction l1 as [|a l1 IH]; simpl; [reflexivity | now rewrite IH]. Qed.

Lemma assign_same {A : Type} (l : list A) (i : nat) (x : A) :
  nth_error l i = Some x -> assign l i x = l.
Proof.
  revert i. induction l as [|a l IH]; intros [|i] H; simpl in *;
    try discriminate.
  - now inversion H.
  - now rewrite IH.
Qed.

Lemma swap_ordered {A : Type} (l : list A) (i j : nat) (x y : A) :
  (i < j)%nat ->
  nth_error l i = Some x ->
  nth_error l j = Some y ->
  Permutation (assign (assign l i y) j x) l
  /\ Permutation (assign (assign l j x) i y) l.
Proof.
  intros Hij Hi Hj.
  destruct (nth_error_split l i Hi) as (l1 & r & El & Hl1). subst l.
  rewrite nth_error_app2 in Hj by lia.
  replace (j - List.length l1)%nat with (S (j - List.length l1 - 1))%nat in Hj
    by lia.
  simpl in Hj.
  destruct (nth_error_split r _ Hj) as (l2 & l3 & Er & Hl2). subst r.
  assert (Ej : j = (List.length l1 + S (List.length l2))%nat) by lia.
  rewrite <- Hl1.
  assert (P : Permutation (l1 ++ y :: l2 ++ x :: l3)
                (l1 ++ x :: l2 ++ y :: l3)).
  { apply Permutation_app_head.
    change (y :: l2 ++ x :: l3) with ([y] ++ l2 ++ [x] ++ l3).
    change (x :: l2 ++ y :: l3) with ([x] ++ l2 ++ [y] ++ l3).
    rewrite !app_assoc.
    apply Permutation_app_tail.
    rewrite <- !app_assoc.
    etransitivity; [apply Permutation_app_comm|].
    simpl. rewrite <- app_assoc. simpl.
    apply Permutation_sym, Permutation_middle. }
  split.
  - rewrite assign_app. simpl. rewrite Ej.
    rewrite assign_app_right. simpl.
    replace (assign (l2 ++ y :: l3) (List.length l2) x)
      with (l2 ++ x :: l3)
      by (rewrite assign_app; reflexivity).
    exact P.
  - rewrite Ej. rewrite assign_app_right. simpl.
    replace (assign (l2 ++ y :: l3) (List.length l2) x)
      with (l2 ++ x :: l3)
      by (rewrite assign_app; reflexivity).
    rewrite assign_app. simpl. exact P.
Qed.

Lemma swap_is_permutation {A : Type} (l : list A) (i j : nat) :
  Permutation (swap l i j) l.
Proof.
  unfold swap.
  destruct (nth_error l i) as [x|] eqn:Hi; [|reflexivity].
  destruct (nth_error l j) as [y|] eqn:Hj; [|reflexivity].
  destruct (Nat.lt_trichotomy i j) as [H | [H | H]].
  - now apply (swap_ordered l i j x y).
  - subst j. rewrite Hi in Hj. inversion Hj; subst y.
    rewrite (assign_same l i x Hi), (assign_same l i x Hi). reflexivity.
  - now apply (swap_ordered l j i y x).
Qed.

(** The shuffle only reorders: whatever values [Math.random] returns, the
    shuffled list is a permutation of the exam's questions, so every
    question is shown, and submitted, exactly once; and for values in
    [0, 1) the index drawn at step [i] lies in [0, i], inside the array. *)
Theorem shuffle_is_a_permutation (random : nat -> Q)
  (questions : list Question) :
  Permutation (shuffle random questions) questions
  /\ List.length (shuffle random questions) = List.length questions
  /\ (forall k i,
        (0 <= random k)%Q -> (random k < 1)%Q ->
        (Z.to_nat (Qfloor (random k * inject_Z (Z.of_nat (i + 1)))) <= i)%nat).
Proof.
  assert (G : forall i k (l : list Question),
             Permutation (shuffleFrom random k i l) l).
  { induction i as [|i IH]; intros k l; simpl; [reflexivity|].
    etransitivity; [apply IH | apply swap_is_permutation]. }
  split; [apply G|]. split; [apply Permutation_length, G|].
  intros k i H0 H1.
  set (n := inject_Z (Z.of_nat (i + 1))).
  assert (Hn : (0 < n)%Q).
  { unfold n, Qlt. simpl. lia. }
  assert (Hlt : (random k * n < n)%Q).
  { rewrite <- (Qmult_1_l n) at 2. apply Qmult_lt_compat_r; assumption. }
  assert (Hf : (Qfloor (random k * n) < Z.of_nat (i + 1))%Z).
  { rewrite Zlt_Qlt. fold n.
    apply Qle_lt_trans with (y := (random k * n)%Q);
      [apply Qfloor_le | exact Hlt]. }
  lia.
Qed.

Lemma shuffle_is_a_permutation_witness :
  (Z.to_nat (Qfloor ((1 # 2) * inject_Z (Z.of_nat (4 + 1)))) <= 4)%nat.
Proof.
  destruct (shuffle_is_a_permutation (fun _ => 1 # 2) three_questions)
    as (_ & _ & H).
  apply (H 0%nat 4%nat); [discriminate | reflexivity].
Defined.
